(** * Shadow: the simulation controller and the file-server status codes

    A shallow embedding of [src/main/core/controller.c] and of
    [fileserver_codetoa] from [src/plug-ins/filetransfer/shd-fileserver.c],
    with the properties of the controller's window advancement, host
    registration and construction that the specification states. *)

From Stdlib Require Import ZArith Lia Bool List.
From Stdlib Require Import SpecFloat.
From stdpp Require Import base option list strings gmap pretty.

Local Open Scope Z_scope.

(** ** Machine integers *)

(** [SimulationTime] is [guint64]: a [Z] kept in [0, 2^64), arithmetic
    wrapping modulo [2^64]. *)
Definition SimulationTime := Z.
Definition G_MAXUINT64 : Z := 2 ^ 64 - 1.
Definition wrap64 (z : Z) : Z := z mod 2 ^ 64.
Definition u64 (z : Z) : Prop := 0 <= z < 2 ^ 64.

(** Modelled from the spec: [SIMTIME_ONE_MILLISECOND] comes from
    [main/core/support/definitions.h], which is not part of the sources at
    hand; simulation time counts nanoseconds, so one millisecond is 10^6. *)
Definition SIMTIME_ONE_MILLISECOND : SimulationTime := 1000000.
Definition ms (n : Z) : SimulationTime := n * SIMTIME_ONE_MILLISECOND.

(** IPv4 addresses ([in_addr_t]) and graph node identifiers. *)
Definition in_addr_t := Z.
Definition NodeId := Z.

(** ** Logging, assertions and undefined behaviour

    The logger is a process-wide sink; a computation is modelled by the
    records it emits, in order, together with the way it terminates. *)

Variant LogLevel :=
  | LOGLEVEL_ERROR | LOGLEVEL_WARNING | LOGLEVEL_INFO
  | LOGLEVEL_DEBUG | LOGLEVEL_TRACE.

(** One constructor per message of [controller.c] that the model emits;
    the arguments are the values substituted into the format string. *)
Variant LogMsg :=
  | MsgControllerCreated
      (* "simulation controller created" *)
  | MsgUpdatedMinTimeJump (oldJumpNs newJumpNs : Z) (configSet : bool) (configNs : Z)
      (* "updated topology minimum time jump from %u to %u nanoseconds; ..." *)
  | MsgGraphLoadFailed
      (* "fatal error loading graph, check your syntax and try again" *)
  | MsgProgramPathNotFound (hostname rawPath : string)
      (* "For host '%s', couldn't find program path: '%s'" *)
  | MsgAmbiguousAddress (name : string) (quantity : Z)
      (* "Host %s has an IP address set with a quantity %ld greater than 1" *)
  | MsgCouldNotRegisterHost (name : string)
      (* "Could not register host %s" *)
  | MsgNoBandwidthDown (hostname : string)
      (* "No downstream bandwidth provided for host %s" *)
  | MsgNoBandwidthUp (hostname : string)
      (* "No upstream bandwidth provided for host %s" *)
  | MsgBandwidthZero (hostname : string)
      (* "Bandwidth for host %s must be non-zero" *)
  | MsgCouldNotRegisterProcesses (name : string)
      (* "Could not register processes for host %s" *)
  | MsgCouldNotRegisterSpecific
      (* "Could not register hosts with specific IP addresses" *)
  | MsgCouldNotRegisterRemaining
      (* "Could not register remaining hosts" *)
  | MsgLoading
      (* "loading and initializing simulation data" *)
  | MsgRegistering
      (* "registering plugins and hosts" *)
  | MsgUnableToRegisterHosts
      (* "Unable to register hosts" *)
  | MsgUnableToGenerateTopology
      (* "Unable to generate topology" *)
  | MsgRunning
      (* "running simulation" *)
  | MsgBufferingEnabled
      (* "log message buffering is enabled for efficiency" *)
  | MsgBufferingDisabled
      (* "log message buffering is disabled during cleanup" *)
  | MsgFinished
      (* "simulation finished, cleaning up now" *)
  | MsgUnableToCreateManager
      (* "unable to create manager" *).

Definition LogRecord : Type := LogLevel * LogMsg.

(** How a call ends: it returns, it aborts the process ([utility_assert],
    [utility_panic], a dereferenced NULL handle), or its behaviour is not
    defined by C (a conversion whose value does not fit its type). *)
Variant Termination (A : Type) :=
  | Returns (a : A)
  | Aborts
  | Undefined.
Arguments Returns {A} a.
Arguments Aborts {A}.
Arguments Undefined {A}.

Definition M (A : Type) : Type := list LogRecord * Termination A.

Definition M_ret {A} (a : A) : M A := ([], Returns a).

Definition M_bind {A B} (f : A -> M B) (m : M A) : M B :=
  match m with
  | (l, Returns a) => let '(l', t) := f a in (l ++ l', t)
  | (l, Aborts) => (l, Aborts)
  | (l, Undefined) => (l, Undefined)
  end.

#[global] Instance M_mret : MRet M := @M_ret.
#[global] Instance M_mbind : MBind M := @M_bind.

Definition emit (lvl : LogLevel) (msg : LogMsg) : M unit := ([(lvl, msg)], Returns tt).
Definition info := emit LOGLEVEL_INFO.
Definition error := emit LOGLEVEL_ERROR.
Definition debug := emit LOGLEVEL_DEBUG.

Definition abort {A} : M A := ([], Aborts).
Definition undefined {A} : M A := ([], Undefined).

Definition utility_assert (b : bool) : M unit :=
  if b then mret tt else abort.

Definition utility_panic {A} (msg : LogMsg) : M A :=
  ([(LOGLEVEL_ERROR, msg)], Aborts).

(** Dereference of a handle that may be NULL. *)
Definition deref {A} (p : option A) : M A :=
  match p with Some a => mret a | None => abort end.

Definition logOf {A} (m : M A) : list LogRecord := fst m.
Definition resultOf {A} (m : M A) : Termination A := snd m.

(** ** Configuration records

    The configuration is read through typed accessors ([config_get...],
    [hostoptions_get...], [processoptions_get...]); each accessor is a field. *)

Record ProcessOptions := {
  processoptions_getPath : option string;      (* NULL when unresolvable *)
  processoptions_getRawPath : string;
  processoptions_getArgs : list string;
  processoptions_getEnvironment : string;
  processoptions_getStartTime : SimulationTime;
  processoptions_getStopTime : SimulationTime;
  processoptions_getQuantity : Z;               (* guint64 *)
}.

Record HostOptions := {
  hostoptions_getQuantity : Z;                  (* guint64 *)
  hostoptions_getIpAddr : option in_addr_t;     (* returns 0 and writes when set *)
  hostoptions_getNetworkNodeId : NodeId;
  hostoptions_getLogLevel : LogLevel;
  hostoptions_getHeartbeatLogLevel : LogLevel;
  hostoptions_getHeartbeatLogInfo : Z;
  hostoptions_getHeartbeatInterval : SimulationTime;
  hostoptions_getPcapDirectory : option string;
  hostoptions_getBandwidthDown : option Z;      (* returns 0 and writes when set *)
  hostoptions_getBandwidthUp : option Z;
  hostoptions_processes : list ProcessOptions;
}.

Record ConfigOptions := {
  config_getSeed : Z;
  config_getRunahead : SimulationTime;
  config_getStopTime : SimulationTime;
  config_getBootstrapEndTime : SimulationTime;
  config_getWorkers : Z;                        (* guint *)
  config_getUseShortestPath : bool;
  config_getLogLevel : LogLevel;
  config_getSocketSendBuffer : Z;
  config_getSocketRecvBuffer : Z;
  config_getSocketSendAutotune : bool;
  config_getSocketRecvAutotune : bool;
  config_getInterfaceBuffer : Z;
  config_getInterfaceQdisc : Z;
  config_hosts : list (string * HostOptions);   (* in iteration order *)
}.

(** ** Collaborators of the controller *)

Record HostParameters := {
  hostname : string;
  cpuFrequency : Z;
  cpuThreshold : Z;
  cpuPrecision : Z;
  ipAddr : in_addr_t;
  logLevel : LogLevel;
  heartbeatLogLevel : LogLevel;
  heartbeatLogInfo : Z;
  heartbeatInterval : SimulationTime;
  pcapDir : option string;
  sendBufSize : Z;
  recvBufSize : Z;
  autotuneSendBuf : bool;
  autotuneRecvBuf : bool;
  interfaceBufSize : Z;
  qdisc : Z;
  requestedBwDownBits : Z;
  requestedBwUpBits : Z;
}.

Record VirtualProcess := {
  vp_hostname : string;
  vp_plugin : string;
  vp_startTime : SimulationTime;
  vp_stopTime : SimulationTime;
  vp_argv : list string;                        (* the NULL terminator is implicit *)
  vp_environment : string;
}.

(** Modelled from the spec: the Manager lives in [main/core/manager.c], which
    is not part of the sources at hand. The controller only reads its raw CPU
    frequency and hands it host descriptors and process instantiations, which
    the model records in call order. *)
Record Manager := {
  manager_getRawCPUFrequency : Z;               (* guint *)
  manager_hosts : list HostParameters;
  manager_processes : list VirtualProcess;
}.

Definition manager_addNewVirtualHost (m : Manager) (params : HostParameters) : Manager :=
  {| manager_getRawCPUFrequency := manager_getRawCPUFrequency m;
     manager_hosts := manager_hosts m ++ [params];
     manager_processes := manager_processes m |}.

Definition manager_addNewVirtualProcess (m : Manager) (p : VirtualProcess) : Manager :=
  {| manager_getRawCPUFrequency := manager_getRawCPUFrequency m;
     manager_hosts := manager_hosts m;
     manager_processes := manager_processes m ++ [p] |}.

(** Modelled from the spec: the NetworkGraph is loaded outside the sources at
    hand; to the controller it is a set of nodes, each with an optional
    downstream and an optional upstream bandwidth, read through accessors
    that return (value, ok). *)
Record NetworkGraph := {
  graph_nodes : gmap NodeId (option Z * option Z);
}.

Definition networkgraph_nodeBandwidthDownBits (g : NetworkGraph) (n : NodeId) : option Z :=
  graph_nodes g !! n ≫= fst.

Definition networkgraph_nodeBandwidthUpBits (g : NetworkGraph) (n : NodeId) : option Z :=
  graph_nodes g !! n ≫= snd.

(** The node ids of a loaded graph; none when the load has failed. *)
Definition graph_nodeIds (g : option NetworkGraph) : gset NodeId :=
  match g with
  | Some g => dom (graph_nodes g)
  | None => ∅
  end.

(** Modelled from the spec: IpAssignment is implemented outside the sources
    at hand. It maps each assigned IPv4 address to its graph node; every
    assigned address is unique and lies outside the reserved ranges 0/8,
    127/8, 224/4 and 255.255.255.255. Automatic addresses are drawn, in
    order, from the 32-bit words that the seeded random source yields
    ([ipa_pool]), rejecting reserved and already assigned values. An
    address is bound to a node of the graph only; [ipa_nodes] are the node
    ids of the graph that the assignment serves. *)
Record IpAssignment := {
  ipa_assigned : gmap in_addr_t NodeId;
  ipa_pool : list in_addr_t;
  ipa_nodes : gset NodeId;
}.

Definition ipassignment_new (pool : list in_addr_t) (nodes : gset NodeId) : IpAssignment :=
  {| ipa_assigned := ∅; ipa_pool := pool; ipa_nodes := nodes |}.

(** Modelled from the spec: the reserved ranges are 0.0.0.0/8, 127.0.0.0/8,
    224.0.0.0/4 (224.0.0.0 to 239.255.255.255) and the single address
    255.255.255.255. *)
Definition ip_reserved (ip : in_addr_t) : bool :=
  (ip <? 2 ^ 24)                                         (* 0/8 *)
  || ((127 * 2 ^ 24 <=? ip) && (ip <? 128 * 2 ^ 24))     (* 127/8 *)
  || ((224 * 2 ^ 24 <=? ip) && (ip <? 240 * 2 ^ 24))     (* 224/4 *)
  || (ip =? 2 ^ 32 - 1).                                 (* 255.255.255.255 *)

Definition ipassignment_lookupNode (a : IpAssignment) (ip : in_addr_t) : option NodeId :=
  ipa_assigned a !! ip.

(** Modelled from the spec: the error outcomes of the two assignment
    operations; the C interface reports each of them as a non-zero return. *)
Variant IpAssignmentError :=
  | ErrAddressInUse
  | ErrReservedAddress
  | ErrNodeMissing
  | ErrPoolExhausted.

(** Modelled from the spec: binds [ip] to [node]; fails when the node is not
    in the graph, when the address is reserved and when it is in use. *)
Definition ipassignment_assignHostWithIp
    (a : IpAssignment) (node : NodeId) (ip : in_addr_t)
    : IpAssignmentError + IpAssignment :=
  if negb (bool_decide (node ∈ ipa_nodes a)) then inl ErrNodeMissing
  else if ip_reserved ip then inl ErrReservedAddress
  else match ipa_assigned a !! ip with
       | Some _ => inl ErrAddressInUse
       | None => inr {| ipa_assigned := <[ip := node]> (ipa_assigned a);
                        ipa_pool := ipa_pool a;
                        ipa_nodes := ipa_nodes a |}
       end.

Fixpoint pool_draw (assigned : gmap in_addr_t NodeId) (pool : list in_addr_t)
    : option (in_addr_t * list in_addr_t) :=
  match pool with
  | [] => None
  | ip :: rest =>
      if ip_reserved ip || bool_decide (is_Some (assigned !! ip))
      then pool_draw assigned rest
      else Some (ip, rest)
  end.

(** Modelled from the spec: binds the next free address of the pool to
    [node]; fails when the node is not in the graph and when the pool has
    no free address left. *)
Definition ipassignment_assignHost
    (a : IpAssignment) (node : NodeId)
    : IpAssignmentError + (in_addr_t * IpAssignment) :=
  if negb (bool_decide (node ∈ ipa_nodes a)) then inl ErrNodeMissing
  else match pool_draw (ipa_assigned a) (ipa_pool a) with
       | None => inl ErrPoolExhausted
       | Some (ip, rest) =>
           inr (ip, {| ipa_assigned := <[ip := node]> (ipa_assigned a);
                       ipa_pool := rest;
                       ipa_nodes := ipa_nodes a |})
       end.

(** Modelled from the spec: RoutingInfo, DNS and the random source are opaque
    to the controller; only their construction is recorded. *)
Record RoutingInfo := { routinginfo_useShortestPath : bool }.
Variant DNS := dns_new.
Record Random := { random_seed : Z; random_draws : nat }.
Definition random_new (seed : Z) : Random := {| random_seed := seed; random_draws := 0 |}.

(** ** The controller *)

Record Controller := {
  config : ConfigOptions;
  random : option Random;
  graph : option NetworkGraph;
  ipAssignment : option IpAssignment;
  routingInfo : option RoutingInfo;
  dns : option DNS;
  minJumpTimeConfig : SimulationTime;
  minJumpTime : SimulationTime;
  nextMinJumpTime : SimulationTime;
  executeWindowStart : SimulationTime;
  executeWindowEnd : SimulationTime;
  endTime : SimulationTime;
  bootstrapEndTime : SimulationTime;
  manager : option Manager;
}.

(** Field assignments [controller->f = v]. *)
Definition set_minJumpTime (v : SimulationTime) (c : Controller) : Controller :=
  {| config := config c; random := random c; graph := graph c;
     ipAssignment := ipAssignment c; routingInfo := routingInfo c; dns := dns c;
     minJumpTimeConfig := minJumpTimeConfig c; minJumpTime := v;
     nextMinJumpTime := nextMinJumpTime c;
     executeWindowStart := executeWindowStart c; executeWindowEnd := executeWindowEnd c;
     endTime := endTime c; bootstrapEndTime := bootstrapEndTime c; manager := manager c |}.

Definition set_nextMinJumpTime (v : SimulationTime) (c : Controller) : Controller :=
  {| config := config c; random := random c; graph := graph c;
     ipAssignment := ipAssignment c; routingInfo := routingInfo c; dns := dns c;
     minJumpTimeConfig := minJumpTimeConfig c; minJumpTime := minJumpTime c;
     nextMinJumpTime := v;
     executeWindowStart := executeWindowStart c; executeWindowEnd := executeWindowEnd c;
     endTime := endTime c; bootstrapEndTime := bootstrapEndTime c; manager := manager c |}.

Definition set_executeWindowStart (v : SimulationTime) (c : Controller) : Controller :=
  {| config := config c; random := random c; graph := graph c;
     ipAssignment := ipAssignment c; routingInfo := routingInfo c; dns := dns c;
     minJumpTimeConfig := minJumpTimeConfig c; minJumpTime := minJumpTime c;
     nextMinJumpTime := nextMinJumpTime c;
     executeWindowStart := v; executeWindowEnd := executeWindowEnd c;
     endTime := endTime c; bootstrapEndTime := bootstrapEndTime c; manager := manager c |}.

Definition set_executeWindowEnd (v : SimulationTime) (c : Controller) : Controller :=
  {| config := config c; random := random c; graph := graph c;
     ipAssignment := ipAssignment c; routingInfo := routingInfo c; dns := dns c;
     minJumpTimeConfig := minJumpTimeConfig c; minJumpTime := minJumpTime c;
     nextMinJumpTime := nextMinJumpTime c;
     executeWindowStart := executeWindowStart c; executeWindowEnd := v;
     endTime := endTime c; bootstrapEndTime := bootstrapEndTime c; manager := manager c |}.

Definition set_endTime (v : SimulationTime) (c : Controller) : Controller :=
  {| config := config c; random := random c; graph := graph c;
     ipAssignment := ipAssignment c; routingInfo := routingInfo c; dns := dns c;
     minJumpTimeConfig := minJumpTimeConfig c; minJumpTime := minJumpTime c;
     nextMinJumpTime := nextMinJumpTime c;
     executeWindowStart := executeWindowStart c; executeWindowEnd := executeWindowEnd c;
     endTime := v; bootstrapEndTime := bootstrapEndTime c; manager := manager c |}.

Definition set_bootstrapEndTime (v : SimulationTime) (c : Controller) : Controller :=
  {| config := config c; random := random c; graph := graph c;
     ipAssignment := ipAssignment c; routingInfo := routingInfo c; dns := dns c;
     minJumpTimeConfig := minJumpTimeConfig c; minJumpTime := minJumpTime c;
     nextMinJumpTime := nextMinJumpTime c;
     executeWindowStart := executeWindowStart c; executeWindowEnd := executeWindowEnd c;
     endTime := endTime c; bootstrapEndTime := v; manager := manager c |}.

Definition set_random (v : option Random) (c : Controller) : Controller :=
  {| config := config c; random := v; graph := graph c;
     ipAssignment := ipAssignment c; routingInfo := routingInfo c; dns := dns c;
     minJumpTimeConfig := minJumpTimeConfig c; minJumpTime := minJumpTime c;
     nextMinJumpTime := nextMinJumpTime c;
     executeWindowStart := executeWindowStart c; executeWindowEnd := executeWindowEnd c;
     endTime := endTime c; bootstrapEndTime := bootstrapEndTime c; manager := manager c |}.

Definition set_graph (v : option NetworkGraph) (c : Controller) : Controller :=
  {| config := config c; random := random c; graph := v;
     ipAssignment := ipAssignment c; routingInfo := routingInfo c; dns := dns c;
     minJumpTimeConfig := minJumpTimeConfig c; minJumpTime := minJumpTime c;
     nextMinJumpTime := nextMinJumpTime c;
     executeWindowStart := executeWindowStart c; executeWindowEnd := executeWindowEnd c;
     endTime := endTime c; bootstrapEndTime := bootstrapEndTime c; manager := manager c |}.

Definition set_ipAssignment (v : option IpAssignment) (c : Controller) : Controller :=
  {| config := config c; random := random c; graph := graph c;
     ipAssignment := v; routingInfo := routingInfo c; dns := dns c;
     minJumpTimeConfig := minJumpTimeConfig c; minJumpTime := minJumpTime c;
     nextMinJumpTime := nextMinJumpTime c;
     executeWindowStart := executeWindowStart c; executeWindowEnd := executeWindowEnd c;
     endTime := endTime c; bootstrapEndTime := bootstrapEndTime c; manager := manager c |}.

Definition set_routingInfo (v : option RoutingInfo) (c : Controller) : Controller :=
  {| config := config c; random := random c; graph := graph c;
     ipAssignment := ipAssignment c; routingInfo := v; dns := dns c;
     minJumpTimeConfig := minJumpTimeConfig c; minJumpTime := minJumpTime c;
     nextMinJumpTime := nextMinJumpTime c;
     executeWindowStart := executeWindowStart c; executeWindowEnd := executeWindowEnd c;
     endTime := endTime c; bootstrapEndTime := bootstrapEndTime c; manager := manager c |}.

Definition set_dns (v : option DNS) (c : Controller) : Controller :=
  {| config := config c; random := random c; graph := graph c;
     ipAssignment := ipAssignment c; routingInfo := routingInfo c; dns := v;
     minJumpTimeConfig := minJumpTimeConfig c; minJumpTime := minJumpTime c;
     nextMinJumpTime := nextMinJumpTime c;
     executeWindowStart := executeWindowStart c; executeWindowEnd := executeWindowEnd c;
     endTime := endTime c; bootstrapEndTime := bootstrapEndTime c; manager := manager c |}.

Definition set_manager (v : option Manager) (c : Controller) : Controller :=
  {| config := config c; random := random c; graph := graph c;
     ipAssignment := ipAssignment c; routingInfo := routingInfo c; dns := dns c;
     minJumpTimeConfig := minJumpTimeConfig c; minJumpTime := minJumpTime c;
     nextMinJumpTime := nextMinJumpTime c;
     executeWindowStart := executeWindowStart c; executeWindowEnd := executeWindowEnd c;
     endTime := endTime c; bootstrapEndTime := bootstrapEndTime c; manager := v |}.

(** [controller_new]: [g_new0] zeroes the structure; the configuration, the
    random source and the runahead are stored; the call ends by logging at
    INFO level (line 103 of controller.c). *)
Definition controller_new (cfg : ConfigOptions) : M Controller :=
  let controller :=
    {| config := cfg;
       random := Some (random_new (config_getSeed cfg));
       graph := None; ipAssignment := None; routingInfo := None; dns := None;
       minJumpTimeConfig := config_getRunahead cfg;
       minJumpTime := 0; nextMinJumpTime := 0;
       executeWindowStart := 0; executeWindowEnd := 0;
       endTime := 0; bootstrapEndTime := 0;
       manager := None |} in
  _ ← info MsgControllerCreated;
  mret controller.

(** [_controller_getMinTimeJump]. *)
Definition _controller_getMinTimeJump (controller : Controller) : SimulationTime :=
  let minJumpTime0 :=
    if 0 <? minJumpTime controller then minJumpTime controller
    else wrap64 (10 * SIMTIME_ONE_MILLISECOND) in
  if (0 <? minJumpTimeConfig controller) && (minJumpTime0 <? minJumpTimeConfig controller)
  then minJumpTimeConfig controller
  else minJumpTime0.

(** ** Conversion of a [gdouble] to [SimulationTime]

    A [gdouble] is an IEEE-754 binary64 value ([spec_float] at precision 53,
    [emax] 1024). The cast [(SimulationTime)d] discards the fractional part;
    C defines it only when the truncated value fits [guint64]. *)
Definition gdouble := spec_float.
Definition gdouble_valid (d : gdouble) : bool := valid_binary 53 1024 d.

(** Integer part of [m * 2^e]. *)
Definition truncate_mantissa (m : positive) (e : Z) : Z :=
  if 0 <=? e then Z.shiftl (Z.pos m) e else Z.shiftr (Z.pos m) (- e).

Definition double_to_guint64 (d : gdouble) : option Z :=
  match d with
  | S754_zero _ => Some 0
  | S754_finite s m e =>
      let t := truncate_mantissa m e in
      if s then (if t =? 0 then Some 0 else None)
      else if t <? 2 ^ 64 then Some t else None
  | S754_infinity _ | S754_nan => None
  end.

(** [controller_updateMinTimeJump]. *)
Definition controller_updateMinTimeJump (controller : Controller) (minPathLatency : gdouble)
    : M Controller :=
  match double_to_guint64 minPathLatency with
  | None => undefined
  | Some whole =>
      let minPathLatencySimTime := wrap64 (whole * SIMTIME_ONE_MILLISECOND) in
      if (nextMinJumpTime controller =? 0)
         || (minPathLatencySimTime <? nextMinJumpTime controller)
      then
        _ ← utility_assert (0 <? minPathLatencySimTime);
        let oldJumpNs := nextMinJumpTime controller in
        let controller := set_nextMinJumpTime minPathLatencySimTime controller in
        _ ← debug (MsgUpdatedMinTimeJump oldJumpNs (nextMinJumpTime controller)
                     (0 <? minJumpTimeConfig controller) (minJumpTimeConfig controller));
        mret controller
      else mret controller
  end.

(** [_controller_initializeTimeWindows]. *)
Definition _controller_initializeTimeWindows (controller : Controller) : Controller :=
  let controller := set_endTime (config_getStopTime (config controller)) controller in
  let nWorkers := config_getWorkers (config controller) in
  let controller :=
    if 0 <? nWorkers then
      let controller := set_executeWindowStart 0 controller in
      let jump := _controller_getMinTimeJump controller in
      set_executeWindowEnd jump controller
    else
      let controller := set_executeWindowStart 0 controller in
      set_executeWindowEnd G_MAXUINT64 controller in
  set_bootstrapEndTime (config_getBootstrapEndTime (config controller)) controller.

(** [controller_managerFinishedCurrentRound]: the result carries the
    return value, the two output parameters and the updated controller. *)
Record RoundResult := {
  keepRunning : bool;
  out_executeWindowStart : SimulationTime;
  out_executeWindowEnd : SimulationTime;
  round_controller : Controller;
}.

Definition controller_managerFinishedCurrentRound
    (controller : Controller) (minNextEventTime : SimulationTime) : RoundResult :=
  (* update our detected min jump time *)
  let controller :=
    if negb (nextMinJumpTime controller =? 0)
    then set_minJumpTime (nextMinJumpTime controller) controller
    else controller in
  (* update the next interval window based on next event times *)
  let newStart := minNextEventTime in
  let newEnd := wrap64 (minNextEventTime + _controller_getMinTimeJump controller) in
  let newEnd := if endTime controller <? newEnd then endTime controller else newEnd in
  (* finally, set the new values *)
  let controller := set_executeWindowStart newStart controller in
  let controller := set_executeWindowEnd newEnd controller in
  {| keepRunning := newStart <? newEnd;
     out_executeWindowStart := executeWindowStart controller;
     out_executeWindowEnd := executeWindowEnd controller;
     round_controller := controller |}.

(** Successive calls of the manager, one per reported [minNextEventTime];
    the results are listed in call order. *)
Fixpoint finishRounds (controller : Controller) (reports : list SimulationTime)
    : list RoundResult :=
  match reports with
  | [] => []
  | t :: reports' =>
      let r := controller_managerFinishedCurrentRound controller t in
      r :: finishRounds (round_controller r) reports'
  end.

(** ** Host and process registration *)

#[global] Instance LogLevel_eq_dec : EqDecision LogLevel.
Proof. solve_decision. Defined.

(** Modelled from the spec: [config_iterHosts] and [hostoptions_iterProcesses]
    are implemented outside the sources at hand. They call the callback on
    each entry in order, stop at the first non-zero return and pass it on;
    they return 0 when every call returned 0. *)
Fixpoint iterEntries {A : Type} (callback : A -> Controller -> M (Z * Controller))
    (entries : list A) (controller : Controller) : M (Z * Controller) :=
  match entries with
  | [] => mret (0, controller)
  | entry :: rest =>
      '(rv, controller) ← callback entry controller;
      if rv =? 0 then iterEntries callback rest controller
      else mret (rv, controller)
  end.

Definition hostoptions_iterProcesses (host : HostOptions)
    (callback : ProcessOptions -> Controller -> M (Z * Controller)) :=
  iterEntries callback (hostoptions_processes host).

Definition config_iterHosts (cfg : ConfigOptions)
    (callback : string -> ConfigOptions -> HostOptions -> Controller -> M (Z * Controller)) :=
  iterEntries (λ entry, callback (fst entry) cfg (snd entry)) (config_hosts cfg).

(** The loop [for (i = 0; i < quantity; i++) manager_addNewVirtualProcess(...)]. *)
Fixpoint addVirtualProcesses (n : nat) (p : VirtualProcess) (controller : Controller)
    : M Controller :=
  match n with
  | O => mret controller
  | S n' =>
      mgr ← deref (manager controller);
      addVirtualProcesses n' p
        (set_manager (Some (manager_addNewVirtualProcess mgr p)) controller)
  end.

(** [_controller_registerProcessCallback]. *)
Definition _controller_registerProcessCallback (hostname : string) (proc : ProcessOptions)
    (controller : Controller) : M (Z * Controller) :=
  match processoptions_getPath proc with
  | None =>
      _ ← error (MsgProgramPathNotFound hostname (processoptions_getRawPath proc));
      mret (-1, controller)
  | Some plugin =>
      let argv := plugin :: processoptions_getArgs proc in
      let quantity := processoptions_getQuantity proc in
      let environment := processoptions_getEnvironment proc in
      controller ← addVirtualProcesses (Z.to_nat quantity)
        {| vp_hostname := hostname; vp_plugin := plugin;
           vp_startTime := processoptions_getStartTime proc;
           vp_stopTime := processoptions_getStopTime proc;
           vp_argv := argv; vp_environment := environment |} controller;
      mret (0, controller)
  end.

(** [found |= (0 == accessor(..., &value))]: a present attribute sets the
    flag and overwrites the value, an absent one leaves both as they are. *)
Definition readBandwidth (acc : bool * Z) (attr : option Z) : bool * Z :=
  match attr with
  | Some v => (true, v)
  | None => acc
  end.

(** The address of a host instance: the fixed one when the entry sets it
    ([ipassignment_assignHostWithIp]), otherwise one drawn from the pool
    ([ipassignment_assignHost]); [None] when the call returns non-zero. *)
Definition assignAddress (host : HostOptions) (ipa : IpAssignment)
    : option (in_addr_t * IpAssignment) :=
  let graphNode := hostoptions_getNetworkNodeId host in
  match hostoptions_getIpAddr host with
  | Some ipAddr =>
      match ipassignment_assignHostWithIp ipa graphNode ipAddr with
      | inr ipa' => Some (ipAddr, ipa')
      | inl _ => None
      end
  | None =>
      match ipassignment_assignHost ipa graphNode with
      | inr assigned => Some assigned
      | inl _ => None
      end
  end.

(** Name of the [i]-th instance of a host entry. *)
Definition instanceHostname (name : string) (quantity i : Z) : string :=
  if 1 <? quantity then name +:+ pretty (i + 1) else name.

(** One pass through the body of the registration loop of
    [_controller_registerHostCallback], for instance [i]; a non-zero first
    component is the callback's early [return -1]. *)
Definition registerHostInstance (name : string) (cfg : ConfigOptions) (host : HostOptions)
    (managerCpuFreq : Z) (i : Z) (controller : Controller) : M (Z * Controller) :=
  let quantity := hostoptions_getQuantity host in
  let hostnameBuffer := instanceHostname name quantity i in
  let graphNode := hostoptions_getNetworkNodeId host in
  ipa ← deref (ipAssignment controller);
  match assignAddress host ipa with
  | None =>
      _ ← error (MsgCouldNotRegisterHost name);
      mret (-1, controller)
  | Some (ipAddr, ipa') =>
      let controller := set_ipAssignment (Some ipa') controller in
      g ← deref (graph controller);
      (* bandwidth values come from the host options and graph options *)
      let down := readBandwidth (false, 0) (networkgraph_nodeBandwidthDownBits g graphNode) in
      let down := readBandwidth down (hostoptions_getBandwidthDown host) in
      let up := readBandwidth (false, 0) (networkgraph_nodeBandwidthUpBits g graphNode) in
      let up := readBandwidth up (hostoptions_getBandwidthUp host) in
      let params :=
        {| hostname := hostnameBuffer;
           cpuFrequency := Z.max 0 managerCpuFreq;
           cpuThreshold := 0;
           cpuPrecision := 200;
           ipAddr := ipAddr;
           logLevel := hostoptions_getLogLevel host;
           heartbeatLogLevel := hostoptions_getHeartbeatLogLevel host;
           heartbeatLogInfo := hostoptions_getHeartbeatLogInfo host;
           heartbeatInterval := hostoptions_getHeartbeatInterval host;
           pcapDir := hostoptions_getPcapDirectory host;
           sendBufSize := config_getSocketSendBuffer cfg;
           recvBufSize := config_getSocketRecvBuffer cfg;
           autotuneSendBuf := config_getSocketSendAutotune cfg;
           autotuneRecvBuf := config_getSocketRecvAutotune cfg;
           interfaceBufSize := config_getInterfaceBuffer cfg;
           qdisc := config_getInterfaceQdisc cfg;
           requestedBwDownBits := snd down;
           requestedBwUpBits := snd up |} in
      if negb (fst down) then
        _ ← error (MsgNoBandwidthDown (hostname params));
        mret (-1, controller)
      else if negb (fst up) then
        _ ← error (MsgNoBandwidthUp (hostname params));
        mret (-1, controller)
      else if (requestedBwDownBits params =? 0) || (requestedBwUpBits params =? 0) then
        _ ← error (MsgBandwidthZero (hostname params));
        mret (-1, controller)
      else
        (* add the host *)
        mgr ← deref (manager controller);
        let controller :=
          set_manager (Some (manager_addNewVirtualHost mgr params)) controller in
        (* now handle each virtual process the host will run *)
        '(rv, controller) ← hostoptions_iterProcesses host
            (_controller_registerProcessCallback hostnameBuffer) controller;
        if negb (rv =? 0) then
          _ ← error (MsgCouldNotRegisterProcesses name);
          mret (-1, controller)
        else mret (0, controller)
  end.

(** The loop [for (guint64 i = 0; i < quantity; i++)], with [n] passes left. *)
Fixpoint registerHostInstances (n : nat) (name : string) (cfg : ConfigOptions)
    (host : HostOptions) (managerCpuFreq : Z) (i : Z) (controller : Controller)
    : M (Z * Controller) :=
  match n with
  | O => mret (0, controller)
  | S n' =>
      '(rv, controller) ← registerHostInstance name cfg host managerCpuFreq i controller;
      if rv =? 0
      then registerHostInstances n' name cfg host managerCpuFreq (i + 1) controller
      else mret (rv, controller)
  end.

(** [_controller_registerHostCallback]; [registerIfAddressSpecified] is the
    field of [RegisterHostCallbackOptions] that selects the pass. *)
Definition _controller_registerHostCallback (registerIfAddressSpecified : bool)
    (name : string) (cfg : ConfigOptions) (host : HostOptions) (controller : Controller)
    : M (Z * Controller) :=
  mgr ← deref (manager controller);
  let managerCpuFreq := manager_getRawCPUFrequency mgr in
  let quantity := hostoptions_getQuantity host in
  let ipAddrSet := match hostoptions_getIpAddr host with Some _ => true | None => false end in
  if negb (eqb ipAddrSet registerIfAddressSpecified) then
    (* skip this host *)
    mret (0, controller)
  else if ipAddrSet && (1 <? quantity) then
    _ ← error (MsgAmbiguousAddress name quantity);
    mret (-1, controller)
  else
    registerHostInstances (Z.to_nat quantity) name cfg host managerCpuFreq 0 controller.

(** [_controller_registerHosts]: two passes over the host entries. *)
Definition _controller_registerHosts (controller : Controller) : M (Z * Controller) :=
  (* register hosts that have a specific IP address *)
  '(rv, controller) ← config_iterHosts (config controller)
      (_controller_registerHostCallback true) controller;
  if negb (rv =? 0) then
    _ ← error MsgCouldNotRegisterSpecific;
    mret (-1, controller)
  else
    (* register remaining hosts *)
    '(rv, controller) ← config_iterHosts (config controller)
        (_controller_registerHostCallback false) controller;
    if negb (rv =? 0) then
      _ ← error MsgCouldNotRegisterRemaining;
      mret (-1, controller)
    else mret (0, controller).

(** ** Running the simulation *)

(** The collaborators that [controller_run] calls and whose code is outside
    the sources at hand are taken as parameters. *)
Record External := {
  networkgraph_load : ConfigOptions -> option NetworkGraph;
  (* the words the address pool will draw, fixed by the configuration seed *)
  address_pool : ConfigOptions -> list in_addr_t;
  random_nextUInt : Random -> Z * Random;
  (* manager_new(controller, config, endTime, bootstrapEndTime, managerSeed) *)
  manager_new : ConfigOptions -> SimulationTime -> SimulationTime -> Z -> option Manager;
  routinginfo_new : NetworkGraph -> IpAssignment -> bool -> option RoutingInfo;
  (* runs the whole simulation, calling back into the controller *)
  manager_run : Controller -> M Controller;
  manager_free : Manager -> Z;
}.

(** [_controller_loadNetworkGraph]. The address assignment is created empty;
    it serves the graph just loaded ([graph_nodeIds]). *)
Definition _controller_loadNetworkGraph (ext : External) (controller : Controller)
    : M (bool * Controller) :=
  let controller := set_graph (networkgraph_load ext (config controller)) controller in
  let controller :=
    set_ipAssignment
      (Some (ipassignment_new (address_pool ext (config controller))
               (graph_nodeIds (graph controller)))) controller in
  match graph controller with
  | None =>
      _ ← error MsgGraphLoadFailed;
      mret (false, controller)
  | Some _ =>
      (* initialize global DNS addressing *)
      let controller := set_dns (Some dns_new) controller in
      mret (true, controller)
  end.

(** [controller_run]. *)
Definition controller_run (ext : External) (controller : Controller) : M (Z * Controller) :=
  _ ← info MsgLoading;
  '(isSuccess, controller) ← _controller_loadNetworkGraph ext controller;
  if negb isSuccess then mret (1, controller)
  else
    let controller := _controller_initializeTimeWindows controller in
    rnd ← deref (random controller);
    let '(managerSeed, rnd) := random_nextUInt ext rnd in
    let controller := set_random (Some rnd) controller in
    let controller :=
      set_manager (manager_new ext (config controller) (endTime controller)
                     (bootstrapEndTime controller) managerSeed) controller in
    _ ← match manager controller with
        | None => utility_panic MsgUnableToCreateManager
        | Some _ => mret tt
        end;
    _ ← info MsgRegistering;
    '(rv, controller) ← _controller_registerHosts controller;
    if negb (rv =? 0) then
      _ ← error MsgUnableToRegisterHosts;
      mret (1, controller)
    else
      let useShortestPath := config_getUseShortestPath (config controller) in
      g ← deref (graph controller);
      ipa ← deref (ipAssignment controller);
      let controller :=
        set_routingInfo (routinginfo_new ext g ipa useShortestPath) controller in
      match routingInfo controller with
      | None =>
          _ ← error MsgUnableToGenerateTopology;
          mret (1, controller)
      | Some _ =>
          let controller := set_graph None controller in
          _ ← info MsgRunning;
          _ ← (if bool_decide (config_getLogLevel (config controller) ≠ LOGLEVEL_TRACE)
               then info MsgBufferingEnabled else mret tt);
          controller ← manager_run ext controller;
          _ ← (if bool_decide (config_getLogLevel (config controller) ≠ LOGLEVEL_TRACE)
               then info MsgBufferingDisabled else mret tt);
          _ ← info MsgFinished;
          mgr ← deref (manager controller);
          mret (manager_free ext mgr, controller)
      end.

(** ** The file-server status codes ([shd-fileserver.c]) *)

Module FileServer.

Definition fileserver_code_strings : list string :=
  [ "FS_SUCCESS"; "FS_CLOSED"; "FS_ERR_INVALID"; "FS_ERR_FATAL"; "FS_ERR_BADSD";
    "FS_ERR_WOULDBLOCK"; "FS_ERR_BUFSPACE"; "FS_ERR_SOCKET"; "FS_ERR_BIND";
    "FS_ERR_LISTEN"; "FS_ERR_ACCEPT"; "FS_ERR_RECV"; "FS_ERR_SEND"; "FS_ERR_CLOSE" ]%string.

(** [sizeof] of the table is its size in bytes: one [const char*] per
    entry, [ptr] bytes each (8 on LP64, 4 on ILP32). *)
Definition sizeof_fileserver_code_strings (ptr : Z) : Z :=
  Z.of_nat (length fileserver_code_strings) * ptr.

(** What the caller gets: a string of the table, NULL, or whatever lies
    behind the table when the subscript runs past its last entry. *)
Variant CodeString :=
  | Entry (s : string)
  | NULL
  | ReadPastTable (index : Z).

(** [fileserver_codetoa], for a platform with [ptr]-byte pointers. *)
Definition fileserver_codetoa (ptr : Z) (fsc : Z) : CodeString :=
  let index := fsc in
  if (0 <=? index) && (index <? sizeof_fileserver_code_strings ptr) then
    match fileserver_code_strings !! Z.to_nat index with
    | Some s => Entry s
    | None => ReadPastTable index
    end
  else NULL.

End FileServer.

(** ** Vocabulary of the specification *)

(** The workers' contract: every reported [minNextEventTime] is a [guint64]
    no smaller than the window end stored before the call. *)
Fixpoint respectsContract (controller : Controller) (reports : list SimulationTime) : Prop :=
  match reports with
  | [] => True
  | t :: reports' =>
      u64 t /\ executeWindowEnd controller <= t /\
      respectsContract
        (round_controller (controller_managerFinishedCurrentRound controller t)) reports'
  end.

(** The simulation is still running: every call but the last returned TRUE. *)
Fixpoint runningUntilLast (controller : Controller) (reports : list SimulationTime) : Prop :=
  match reports with
  | [] => True
  | t :: reports' =>
      (reports' = [] \/
       keepRunning (controller_managerFinishedCurrentRound controller t) = true) /\
      runningUntilLast
        (round_controller (controller_managerFinishedCurrentRound controller t)) reports'
  end.

(** The commit that opens [controller_managerFinishedCurrentRound]. *)
Definition committed (c : Controller) : Controller :=
  if negb (nextMinJumpTime c =? 0) then set_minJumpTime (nextMinJumpTime c) c else c.

(** The window starts stored by the calls of a run, in call order. *)
Definition windowStarts (controller : Controller) (reports : list SimulationTime) : list Z :=
  map out_executeWindowStart (finishRounds controller reports).

(** Adjacent elements never decrease. *)
Fixpoint nonDecreasing (l : list Z) : Prop :=
  match l with
  | a :: (b :: _) as l' => a <= b /\ nonDecreasing l'
  | _ => True
  end.

(** The bandwidth the specification resolves for one direction: the host
    option when present, otherwise the attribute of the graph node. *)
Definition resolveBandwidth (hostAttr graphAttr : option Z) : option Z :=
  match hostAttr with
  | Some v => Some v
  | None => graphAttr
  end.

(** The messages that report the specification's [ErrBandwidth] for the
    instance named [h]. *)
Definition isErrBandwidth (h : string) (msg : LogMsg) : Prop :=
  msg = MsgNoBandwidthDown h \/ msg = MsgNoBandwidthUp h \/ msg = MsgBandwidthZero h.

(** The address [ip] is bound in the controller's IpAssignment. *)
Definition addressAssigned (ip : in_addr_t) (controller : Controller) : Prop :=
  exists ipa, ipAssignment controller = Some ipa /\ is_Some (ipa_assigned ipa !! ip).

(** The hosts handed to the manager so far. *)
Definition registeredHosts (controller : Controller) : list HostParameters :=
  match manager controller with
  | Some mgr => manager_hosts mgr
  | None => []
  end.

(** The call returns [a], whatever it logs. *)
Definition returns {A} (m : M A) (a : A) : Prop := resultOf m = Returns a.

(** What [controller_run] establishes before it registers hosts: the
    manager, the address assignment and the graph exist. *)
Definition registrationReady (controller : Controller) : Prop :=
  is_Some (manager controller) /\ is_Some (ipAssignment controller) /\
  is_Some (graph controller).

(** Registration only ever extends the state: [c'] is ready, has the
    configuration of [c], keeps every address bound in [c], and its hosts
    are those of [c] followed by hosts whose address satisfies [Q]. *)
Definition extends (Q : in_addr_t -> Prop) (c c' : Controller) : Prop :=
  registrationReady c' /\
  config c' = config c /\
  (forall ip, addressAssigned ip c -> addressAssigned ip c') /\
  exists added,
    registeredHosts c' = registeredHosts c ++ added /\
    Forall (λ p, Q (ipAddr p)) added.

(** Binary64 constants. *)
Definition gdouble_zero : gdouble := S754_zero false.
Definition gdouble_one : gdouble := S754_finite false 4503599627370496 (-52).
Definition gdouble_2_0 : gdouble := S754_finite false 4503599627370496 (-51).
Definition gdouble_2_5 : gdouble := S754_finite false 5629499534213120 (-51).
Definition gdouble_0_5 : gdouble := S754_finite false 4503599627370496 (-53).

(** ** Sample inputs *)

Definition sampleHost (quantity : Z) (ip : option in_addr_t) (bw : option Z) : HostOptions :=
  {| hostoptions_getQuantity := quantity;
     hostoptions_getIpAddr := ip;
     hostoptions_getNetworkNodeId := 0;
     hostoptions_getLogLevel := LOGLEVEL_INFO;
     hostoptions_getHeartbeatLogLevel := LOGLEVEL_INFO;
     hostoptions_getHeartbeatLogInfo := 0;
     hostoptions_getHeartbeatInterval := 1000 * SIMTIME_ONE_MILLISECOND;
     hostoptions_getPcapDirectory := None;
     hostoptions_getBandwidthDown := bw;
     hostoptions_getBandwidthUp := bw;
     hostoptions_processes := [] |}.

Definition sampleConfig (runahead stopTime : SimulationTime) (workers : Z)
    (hosts : list (string * HostOptions)) : ConfigOptions :=
  {| config_getSeed := 1;
     config_getRunahead := runahead;
     config_getStopTime := stopTime;
     config_getBootstrapEndTime := 0;
     config_getWorkers := workers;
     config_getUseShortestPath := true;
     config_getLogLevel := LOGLEVEL_INFO;
     config_getSocketSendBuffer := 131072;
     config_getSocketRecvBuffer := 174760;
     config_getSocketSendAutotune := true;
     config_getSocketRecvAutotune := true;
     config_getInterfaceBuffer := 1024000;
     config_getInterfaceQdisc := 0;
     config_hosts := hosts |}.

(** The controller as [g_new0] and [controller_new] leave it. *)
Definition freshController (cfg : ConfigOptions) : Controller :=
  {| config := cfg;
     random := Some (random_new (config_getSeed cfg));
     graph := None; ipAssignment := None; routingInfo := None; dns := None;
     minJumpTimeConfig := config_getRunahead cfg;
     minJumpTime := 0; nextMinJumpTime := 0;
     executeWindowStart := 0; executeWindowEnd := 0;
     endTime := 0; bootstrapEndTime := 0;
     manager := None |}.

(** A controller whose windows have been initialised for a run that stops
    at [stopTime], with [workers] workers and the given runahead. *)
Definition sampleController (runahead stopTime : SimulationTime) (workers : Z) : Controller :=
  _controller_initializeTimeWindows (freshController (sampleConfig runahead stopTime workers [])).

(** A graph with the single node 0, whose bandwidths are [bw]. *)
Definition sampleGraph (bw : option Z) : NetworkGraph :=
  {| graph_nodes := {[ 0 := (bw, bw) ]} |}.

Definition sampleManager : Manager :=
  {| manager_getRawCPUFrequency := 2400000;
     manager_hosts := []; manager_processes := [] |}.

(** A controller ready for host registration: graph loaded, address pool
    created from the words [pool], manager created. *)
Definition registrationController (hosts : list (string * HostOptions))
    (bw : option Z) (pool : list in_addr_t) : Controller :=
  set_manager (Some sampleManager)
    (set_ipAssignment
       (Some (ipassignment_new pool (graph_nodeIds (Some (sampleGraph bw)))))
       (set_graph (Some (sampleGraph bw))
          (freshController (sampleConfig 0 (1000 * SIMTIME_ONE_MILLISECOND) 1 hosts)))).

(** Collaborators for a sample run: the graph loads, the pool yields the
    addresses from 11.0.0.1 on, the manager is created and reports exit
    code 0. *)
Definition sampleExternal : External :=
  {| networkgraph_load := λ _, Some (sampleGraph (Some 1000000));
     address_pool := λ _, [184549377; 184549378; 184549379];
     random_nextUInt := λ r, (random_seed r,
        {| random_seed := random_seed r; random_draws := S (random_draws r) |});
     manager_new := λ _ _ _ _, Some sampleManager;
     routinginfo_new := λ _ _ sp, Some {| routinginfo_useShortestPath := sp |};
     manager_run := λ c, mret c;
     manager_free := λ _, 0 |}.

(** ** Further vocabulary *)

(** The three lookahead fields hold [guint64] values. *)
Definition jumpFields64 (controller : Controller) : Prop :=
  u64 (minJumpTime controller) /\ u64 (nextMinJumpTime controller) /\
  u64 (minJumpTimeConfig controller).

(** The controller as [controller_run] hands it to host registration: the
    graph [g] loaded, an empty address assignment and the DNS created, the
    time windows initialised, one word drawn from the random source [rnd]
    and the manager [mgr] created. *)
Definition registrationState (ext : External) (controller : Controller)
    (g : NetworkGraph) (rnd : Random) (mgr : Manager) : Controller :=
  set_manager (Some mgr)
    (set_random (Some (snd (random_nextUInt ext rnd)))
       (_controller_initializeTimeWindows
          (set_dns (Some dns_new)
             (set_ipAssignment
                (Some (ipassignment_new (address_pool ext (config controller))
                         (graph_nodeIds (Some g))))
                (set_graph (Some g) controller))))).

(** A log record at ERROR level. *)
Definition isErrorRecord (r : LogRecord) : Prop := fst r = LOGLEVEL_ERROR.

(** The log [l] accounts for the return value [rv]: 0 was returned in
    silence, -1 after at least one record, all of them errors. *)
Definition reportsOutcome (l : list LogRecord) (rv : Z) : Prop :=
  (rv = 0 /\ l = []) \/ (rv = -1 /\ l <> [] /\ Forall isErrorRecord l).

(** The entry [host] belongs to the pass selected by [flag]. *)
Definition inPass (flag : bool) (host : HostOptions) : Prop :=
  match hostoptions_getIpAddr host with Some _ => true | None => false end = flag.

(** The names of the instances of an entry, in registration order. *)
Definition instanceHostnames (name : string) (quantity : Z) : list string :=
  map (λ i, instanceHostname name quantity (Z.of_nat i)) (seq 0 (Z.to_nat quantity)).

(** What the registration loop hands to the manager for instance [i] of an
    entry: the instance's name, the manager's CPU frequency, the fixed CPU
    threshold and precision, non-zero bandwidths, and the entry's own
    address when it fixes one. *)
Definition instanceRegistered (name : string) (host : HostOptions) (freq i : Z)
    (p : HostParameters) : Prop :=
  hostname p = instanceHostname name (hostoptions_getQuantity host) i /\
  cpuFrequency p = Z.max 0 freq /\ cpuThreshold p = 0 /\ cpuPrecision p = 200 /\
  requestedBwDownBits p <> 0 /\ requestedBwUpBits p <> 0 /\
  (forall X, hostoptions_getIpAddr host = Some X -> ipAddr p = X).

(** [c'] has the hosts of [c], possibly followed by others. *)
Definition hostsKept (c c' : Controller) : Prop :=
  exists added, registeredHosts c' = registeredHosts c ++ added.

#[global] Instance inPass_dec (flag : bool) (host : HostOptions) : Decision (inPass flag host).
Proof. unfold inPass. apply _. Defined.

(** The entries of a pass, in declaration order, and the names of all their
    instances. *)
Definition passEntries (flag : bool) (entries : list (string * HostOptions))
    : list (string * HostOptions) :=
  filter (λ entry, inPass flag (snd entry)) entries.

Definition passHostnames (flag : bool) (entries : list (string * HostOptions))
    : list string :=
  flat_map (λ entry, instanceHostnames (fst entry) (hostoptions_getQuantity (snd entry)))
    (passEntries flag entries).

(** The host [p] is an instance of the entry [name]: it carries one of the
    entry's instance names and, when the entry fixes an address, that
    address. *)
Definition instanceOf (name : string) (host : HostOptions) (p : HostParameters) : Prop :=
  hostname p ∈ instanceHostnames name (hostoptions_getQuantity host) /\
  (forall X, hostoptions_getIpAddr host = Some X -> ipAddr p = X).

(** The host [p] is an instance of one of the [entries] of the pass selected
    by [flag]. *)
Definition registeredFor (flag : bool) (entries : list (string * HostOptions))
    (p : HostParameters) : Prop :=
  exists name host, (name, host) ∈ entries /\ inPass flag host /\ instanceOf name host p.

(** From [c] to [c'] the hosts [added] have been registered: the
    configuration is the same, every address bound in [c] is still bound,
    the hosts of [c'] are those of [c] followed by [added], and no host of
    [added] has an address that was bound in [c]. *)
Definition registers (c : Controller) (added : list HostParameters) (c' : Controller)
    : Prop :=
  config c' = config c /\
  (forall ip, addressAssigned ip c -> addressAssigned ip c') /\
  registeredHosts c' = registeredHosts c ++ added /\
  Forall (λ p, ~ addressAssigned (ipAddr p) c) added.




(** * Properties *)

(** ** The lookahead *)

Lemma getMinTimeJump_pos (c : Controller) : 0 < _controller_getMinTimeJump c.
Proof.
  unfold _controller_getMinTimeJump.
  change (wrap64 (10 * SIMTIME_ONE_MILLISECOND)) with 10000000.
  destruct (0 <? minJumpTime c) eqn:Hm;
    destruct (0 <? minJumpTimeConfig c) eqn:Hc; simpl;
    repeat match goal with |- context [?a <? ?b] => destruct (Z.ltb_spec a b) end;
    try apply Z.ltb_lt in Hm; try apply Z.ltb_lt in Hc; lia.
Qed.

Lemma getMinTimeJump_max (c : Controller) :
  _controller_getMinTimeJump c =
  Z.max (if 0 <? minJumpTime c then minJumpTime c else 10 * SIMTIME_ONE_MILLISECOND)
        (minJumpTimeConfig c).
Proof.
  unfold _controller_getMinTimeJump.
  change (wrap64 (10 * SIMTIME_ONE_MILLISECOND)) with 10000000.
  change (10 * SIMTIME_ONE_MILLISECOND) with 10000000.
  destruct (Z.ltb_spec 0 (minJumpTime c));
    destruct (Z.ltb_spec 0 (minJumpTimeConfig c)); simpl;
    repeat match goal with |- context [?a <? ?b] => destruct (Z.ltb_spec a b) end; lia.
Qed.

(** The lookahead reads two fields only. *)
Lemma getMinTimeJump_ext (c c' : Controller) :
  minJumpTime c' = minJumpTime c ->
  minJumpTimeConfig c' = minJumpTimeConfig c ->
  _controller_getMinTimeJump c' = _controller_getMinTimeJump c.
Proof. intros H1 H2. unfold _controller_getMinTimeJump. now rewrite H1, H2. Qed.

(** ** One round of window advancement *)

Lemma round_unfold (c : Controller) (t : SimulationTime) :
  controller_managerFinishedCurrentRound c t =
  let newEnd := Z.min (wrap64 (t + _controller_getMinTimeJump (committed c))) (endTime c) in
  {| keepRunning := t <? newEnd;
     out_executeWindowStart := t;
     out_executeWindowEnd := newEnd;
     round_controller :=
       set_executeWindowEnd newEnd (set_executeWindowStart t (committed c)) |}.
Proof.
  unfold controller_managerFinishedCurrentRound, committed. cbv zeta.
  set (c1 := if negb (nextMinJumpTime c =? 0) then _ else c).
  assert (He : endTime c1 = endTime c) by (subst c1; destruct (negb _); reflexivity).
  rewrite He.
  set (w := wrap64 _).
  assert (Hmin : (if endTime c <? w then endTime c else w) = Z.min w (endTime c)).
  { destruct (Z.ltb_spec (endTime c) w); lia. }
  rewrite Hmin. reflexivity.
Qed.

Lemma committed_fields (c : Controller) :
  endTime (committed c) = endTime c /\
  minJumpTimeConfig (committed c) = minJumpTimeConfig c /\
  nextMinJumpTime (committed c) = nextMinJumpTime c /\
  minJumpTime (committed c) =
    (if nextMinJumpTime c =? 0 then minJumpTime c else nextMinJumpTime c).
Proof. unfold committed. destruct (nextMinJumpTime c =? 0); simpl; auto. Qed.

Lemma round_fields (c : Controller) (t : SimulationTime) :
  let c' := round_controller (controller_managerFinishedCurrentRound c t) in
  endTime c' = endTime c /\
  minJumpTimeConfig c' = minJumpTimeConfig c /\
  nextMinJumpTime c' = nextMinJumpTime c /\
  minJumpTime c' = minJumpTime (committed c) /\
  committed c' = c'.
Proof.
  rewrite round_unfold. cbv zeta. simpl.
  destruct (committed_fields c) as (He & Hc & Hn & Hm).
  repeat split; auto.
  unfold committed in *. simpl.
  destruct (nextMinJumpTime c =? 0) eqn:E; simpl; rewrite E; reflexivity.
Qed.

Lemma round_jump (c : Controller) (t : SimulationTime) :
  _controller_getMinTimeJump (round_controller (controller_managerFinishedCurrentRound c t))
  = _controller_getMinTimeJump (committed c).
Proof.
  destruct (round_fields c t) as (_ & Hc & _ & Hm & _).
  apply getMinTimeJump_ext; [exact Hm|].
  rewrite Hc. symmetry. apply committed_fields.
Qed.

Lemma wrap64_small (z : Z) : 0 <= z < 2 ^ 64 -> wrap64 z = z.
Proof. intros. unfold wrap64. now apply Z.mod_small. Qed.

Lemma wrap64_le (z : Z) : 0 <= z -> wrap64 z <= z.
Proof. intros. unfold wrap64. apply Z.mod_le; lia. Qed.

(** Across a run the lookahead in effect after the first commit and the end
    time stay fixed, so every window is computed from the same two values. *)
Lemma finishRounds_windows (reports : list SimulationTime) :
  forall (c : Controller) (J E : Z),
  _controller_getMinTimeJump (committed c) = J ->
  endTime c = E ->
  map (λ r, (out_executeWindowStart r, out_executeWindowEnd r, keepRunning r))
      (finishRounds c reports)
  = map (λ t, (t, Z.min (wrap64 (t + J)) E, t <? Z.min (wrap64 (t + J)) E)) reports.
Proof.
  induction reports as [|t reports IH]; intros c J E HJ HE; [reflexivity|].
  cbn [finishRounds map]. f_equal.
  - rewrite round_unfold. cbv zeta. simpl. now rewrite HJ, HE.
  - apply IH.
    + destruct (round_fields c t) as (_ & _ & _ & _ & Hid).
      rewrite Hid, round_jump. exact HJ.
    + destruct (round_fields c t) as (He & _). now rewrite He.
Qed.

(** C1 (amended). Every call [controller_managerFinishedCurrentRound(minNextEventTime)]
    first commits a non-zero [nextMinJumpTime] into [minJumpTime]; the new
    window starts at [minNextEventTime] and ends at the smaller of [endTime]
    and the sum [minNextEventTime + getMinTimeJump()] taken modulo 2^64 (the
    sum of two [guint64]); when that sum stays below 2^64 the end is
    [min(minNextEventTime + getMinTimeJump(), endTime)]. The window is stored,
    written to both outputs, and the call returns [windowStart < windowEnd].
    With [endTime] = 100 ms and a lookahead of 30 ms, the reports 0, 30, 60,
    90, 100 ms give the window ends 30, 60, 90, 100, 100 ms and the returns
    true, true, true, true, false. *)
Theorem managerFinishedCurrentRound_window (c : Controller) (t : SimulationTime) :
  0 <= t ->
  let r := controller_managerFinishedCurrentRound c t in
  let c' := round_controller r in
  let jump := _controller_getMinTimeJump c' in
  minJumpTime c' = (if nextMinJumpTime c =? 0 then minJumpTime c else nextMinJumpTime c) /\
  out_executeWindowStart r = t /\
  out_executeWindowEnd r = Z.min (wrap64 (t + jump)) (endTime c) /\
  (t + jump < 2 ^ 64 -> out_executeWindowEnd r = Z.min (t + jump) (endTime c)) /\
  executeWindowStart c' = out_executeWindowStart r /\
  executeWindowEnd c' = out_executeWindowEnd r /\
  keepRunning r = bool_decide (out_executeWindowStart r < out_executeWindowEnd r) /\
  (endTime c = ms 100 -> jump = ms 30 ->
   map (λ r, (out_executeWindowEnd r, keepRunning r))
       (finishRounds c [ms 0; ms 30; ms 60; ms 90; ms 100])
   = [(ms 30, true); (ms 60, true); (ms 90, true); (ms 100, true); (ms 100, false)]).
Proof.
  intros Ht r c' jump. subst jump c' r.
  rewrite round_jump.
  destruct (round_fields c t) as (_ & _ & _ & Hmin & _). cbv zeta in Hmin.
  pose proof (getMinTimeJump_pos (committed c)) as Hpos.
  set (J := _controller_getMinTimeJump (committed c)) in *.
  assert (Hscenario : endTime c = ms 100 -> J = ms 30 ->
            map (λ r, (out_executeWindowEnd r, keepRunning r))
                (finishRounds c [ms 0; ms 30; ms 60; ms 90; ms 100])
            = [(ms 30, true); (ms 60, true); (ms 90, true); (ms 100, true);
               (ms 100, false)]).
  { intros HE HJ.
    pose proof (finishRounds_windows [ms 0; ms 30; ms 60; ms 90; ms 100] c (ms 30) (ms 100))
      as Hw.
    specialize (Hw HJ HE).
    apply (f_equal (map (λ x : Z * Z * bool, (snd (fst x), snd x)))) in Hw.
    rewrite !map_map in Hw. exact Hw. }
  split; [rewrite Hmin; apply committed_fields|].
  rewrite round_unfold. cbv zeta.
  cbn [keepRunning out_executeWindowStart out_executeWindowEnd round_controller].
  fold J.
  repeat split; try exact Hscenario.
  - intros Hsmall. rewrite wrap64_small by lia. reflexivity.
  - destruct (Z.ltb_spec t (Z.min (wrap64 (t + J)) (endTime c)));
      [rewrite bool_decide_eq_true_2 | rewrite bool_decide_eq_false_2]; auto; lia.
Qed.

Lemma managerFinishedCurrentRound_window_witness :
  map (λ r, (out_executeWindowEnd r, keepRunning r))
      (finishRounds (set_minJumpTime (ms 30) (sampleController 0 (ms 100) 1))
         [ms 0; ms 30; ms 60; ms 90; ms 100])
  = [(ms 30, true); (ms 60, true); (ms 90, true); (ms 100, true); (ms 100, false)].
Proof.
  apply (managerFinishedCurrentRound_window
           (set_minJumpTime (ms 30) (sampleController 0 (ms 100) 1)) 0);
    [lia | reflexivity | reflexivity].
Defined.

(** C1 as stated fails where the sum leaves the 64-bit range: with the
    default lookahead of 10 ms and [endTime] = 1 s, the report
    [minNextEventTime] = 2^64 - 1 stores the window end 9999999 ns, not
    [min(minNextEventTime + getMinTimeJump(), endTime)] = 1 s. *)
Lemma managerFinishedCurrentRound_window_counterexample :
  let c := sampleController 0 (ms 1000) 1 in
  let t := G_MAXUINT64 in
  let r := controller_managerFinishedCurrentRound c t in
  u64 t /\
  out_executeWindowEnd r = 9999999 /\
  Z.min (t + _controller_getMinTimeJump (round_controller r)) (endTime c) = ms 1000 /\
  out_executeWindowEnd r
    <> Z.min (t + _controller_getMinTimeJump (round_controller r)) (endTime c).
Proof. vm_compute. repeat split; congruence. Qed.

(** C2. For every controller state, [getMinTimeJump()] is the larger of
    [minJumpTimeConfig] and the topology minimum [minJumpTime] (10 ms while
    that is still 0); with a runahead of 5 ms and a committed topology
    minimum of 2 ms it returns 5 ms. *)
Theorem getMinTimeJump_spec (c : Controller) :
  _controller_getMinTimeJump c =
    Z.max (if 0 <? minJumpTime c then minJumpTime c else ms 10) (minJumpTimeConfig c) /\
  (minJumpTimeConfig c = ms 5 -> minJumpTime c = ms 2 ->
   _controller_getMinTimeJump c = ms 5).
Proof.
  split; [apply getMinTimeJump_max|].
  intros Hc Hm. rewrite getMinTimeJump_max, Hc, Hm. reflexivity.
Qed.

(** Scenario S4 run on the code: runahead 5 ms, the topology minimum 2.0 ms
    is observed, the next round commits it, and the lookahead is 5 ms. *)
Lemma getMinTimeJump_spec_witness :
  exists c1,
    resultOf (controller_updateMinTimeJump
                (sampleController (ms 5) (ms 1000) 1) gdouble_2_0) = Returns c1 /\
    let c2 := round_controller (controller_managerFinishedCurrentRound c1 (ms 10)) in
    minJumpTime c2 = ms 2 /\ _controller_getMinTimeJump c2 = ms 5.
Proof.
  eexists. split; [reflexivity|]. cbv zeta. split; [reflexivity|].
  match goal with
  | |- _controller_getMinTimeJump ?c = _ =>
      exact (proj2 (getMinTimeJump_spec c) eq_refl eq_refl)
  end.
Defined.

(** C10 (amended). Every call overwrites the stored window and writes both
    outputs, the terminating call included. For every [minNextEventTime]
    beyond [endTime] the window starts at [minNextEventTime] and ends at the
    smaller of [endTime] and the 64-bit sum [minNextEventTime +
    getMinTimeJump()]: the end never exceeds [endTime], so the start exceeds
    the end and the call returns FALSE; the end is [endTime] itself whenever
    the sum does not wrap around. *)
Theorem managerFinishedCurrentRound_past_end (c : Controller) (t : SimulationTime) :
  let r := controller_managerFinishedCurrentRound c t in
  let c' := round_controller r in
  let jump := _controller_getMinTimeJump c' in
  (executeWindowStart c' = t /\ out_executeWindowStart r = t /\
   executeWindowEnd c' = out_executeWindowEnd r /\
   out_executeWindowEnd r = Z.min (wrap64 (t + jump)) (endTime c)) /\
  (0 <= t -> endTime c < t ->
   out_executeWindowEnd r <= endTime c /\
   out_executeWindowEnd r < out_executeWindowStart r /\
   keepRunning r = false /\
   (t + jump < 2 ^ 64 -> out_executeWindowEnd r = endTime c)).
Proof.
  intros r c' jump. subst jump c' r.
  rewrite round_jump.
  pose proof (getMinTimeJump_pos (committed c)) as Hpos.
  set (J := _controller_getMinTimeJump (committed c)) in *.
  rewrite round_unfold. cbv zeta.
  cbn [keepRunning out_executeWindowStart out_executeWindowEnd round_controller].
  fold J. split; [repeat split|].
  intros Ht Hpast. repeat split; try lia.
  intros Hsmall. rewrite wrap64_small by lia. lia.
Qed.

Lemma managerFinishedCurrentRound_past_end_witness :
  let r := controller_managerFinishedCurrentRound (sampleController 0 (ms 100) 1) (ms 130) in
  out_executeWindowEnd r <= ms 100 /\
  out_executeWindowEnd r < out_executeWindowStart r /\
  keepRunning r = false /\
  out_executeWindowEnd r = ms 100.
Proof.
  destruct (proj2 (managerFinishedCurrentRound_past_end
                     (sampleController 0 (ms 100) 1) (ms 130)))
    as (Hle & Hlt & Hk & He);
    [vm_compute; congruence | vm_compute; reflexivity |].
  cbv zeta. split; [exact Hle|]. split; [exact Hlt|]. split; [exact Hk|].
  apply He. vm_compute. reflexivity.
Defined.

(** C10 as stated fails where the sum wraps around: with [endTime] = 1 s and
    the default lookahead, the report [minNextEventTime] = 2^64 - 2 lies
    beyond [endTime], yet the stored window end is 9999998 ns, not
    [endTime]. *)
Lemma managerFinishedCurrentRound_past_end_counterexample :
  let c := sampleController 0 (ms 1000) 1 in
  let t := G_MAXUINT64 - 1 in
  let r := controller_managerFinishedCurrentRound c t in
  u64 t /\ endTime c < t /\
  executeWindowEnd (round_controller r) = 9999998 /\
  out_executeWindowEnd r = 9999998 /\
  out_executeWindowEnd r <> endTime c.
Proof. vm_compute. repeat split; congruence. Qed.

(** ** Runs of rounds *)

Lemma round_window_bounds (c : Controller) (t : SimulationTime) :
  0 <= t ->
  let r := controller_managerFinishedCurrentRound c t in
  out_executeWindowEnd r <= endTime c /\
  out_executeWindowEnd r - out_executeWindowStart r
    <= _controller_getMinTimeJump (round_controller r).
Proof.
  intros Ht r. subst r. rewrite round_jump.
  pose proof (getMinTimeJump_pos (committed c)) as Hpos.
  rewrite round_unfold. cbv zeta.
  cbn [out_executeWindowStart out_executeWindowEnd].
  pose proof (wrap64_le (t + _controller_getMinTimeJump (committed c))).
  lia.
Qed.

Lemma round_starts (c : Controller) (t : SimulationTime) :
  let r := controller_managerFinishedCurrentRound c t in
  out_executeWindowStart r = t /\ executeWindowStart (round_controller r) = t.
Proof. cbv zeta. rewrite round_unfold. split; reflexivity. Qed.

Lemma round_running_window (c : Controller) (t : SimulationTime) :
  let r := controller_managerFinishedCurrentRound c t in
  keepRunning r = true ->
  executeWindowStart (round_controller r) < executeWindowEnd (round_controller r).
Proof.
  cbv zeta. rewrite round_unfold. cbv zeta.
  cbn [keepRunning round_controller]. simpl. intros H. now apply Z.ltb_lt in H.
Qed.

(** C3 (amended). Take any run of calls in which each reported
    [minNextEventTime] is at least the window end stored before the call and
    in which every call but the last returned TRUE (the simulation was
    still running). Then the stored window start never decreases, no window
    ends after [endTime], and no window is wider than [getMinTimeJump()]. *)
Theorem window_monotonicity (reports : list SimulationTime) :
  forall c : Controller,
  respectsContract c reports ->
  runningUntilLast c reports ->
  nonDecreasing (windowStarts c reports) /\
  Forall (λ r, out_executeWindowEnd r <= endTime c /\
               out_executeWindowEnd r - out_executeWindowStart r
                 <= _controller_getMinTimeJump (round_controller r))
         (finishRounds c reports).
Proof.
  unfold windowStarts.
  induction reports as [|t reports IH]; intros c Hcontract Hrun.
  - simpl. split; [exact I | constructor].
  - destruct Hcontract as (Ht & _ & Hcontract).
    destruct Hrun as (Hlast & Hrun).
    pose proof (round_starts c t) as (Hstart & Hstored).
    pose proof (round_window_bounds c t (proj1 Ht)) as Hbounds.
    pose proof (round_running_window c t) as Hlive.
    destruct (round_fields c t) as (HE & _).
    cbv zeta in *. cbn [finishRounds map].
    remember (controller_managerFinishedCurrentRound c t) as r eqn:Hr.
    destruct (IH (round_controller r) Hcontract Hrun) as (Hsorted & Hall).
    split.
    + destruct reports as [|t2 reports]; [exact I|].
      destruct Hlast as [Hnil | Hkeep]; [discriminate|].
      specialize (Hlive Hkeep).
      destruct Hcontract as (_ & Hge & _).
      pose proof (round_starts (round_controller r) t2) as (Hstart2 & _).
      cbv zeta in Hstart2.
      cbn [finishRounds map nonDecreasing] in *.
      split; [|exact Hsorted]. rewrite Hstart, Hstart2. lia.
    + constructor; [exact Hbounds|].
      rewrite HE in Hall. exact Hall.
Qed.

Lemma window_monotonicity_witness :
  nonDecreasing (windowStarts (sampleController 0 (ms 100) 1) [ms 10; ms 40; ms 130]) /\
  Forall (λ r, out_executeWindowEnd r <= ms 100 /\
               out_executeWindowEnd r - out_executeWindowStart r
                 <= _controller_getMinTimeJump (round_controller r))
         (finishRounds (sampleController 0 (ms 100) 1) [ms 10; ms 40; ms 130]).
Proof.
  apply (window_monotonicity [ms 10; ms 40; ms 130] (sampleController 0 (ms 100) 1)).
  - simpl. unfold u64. vm_compute. intuition congruence.
  - simpl. vm_compute. intuition.
Defined.

(** C3 as stated fails once a run goes on after the terminating round: from
    the initial window [0, 10 ms) with [endTime] = 100 ms, the report 200 ms
    stores the window (200 ms, 100 ms) and returns FALSE; the report 100 ms
    that follows is not below the stored window end, and moves the window
    start back from 200 ms to 100 ms. *)
Lemma window_monotonicity_counterexample :
  let c := sampleController 0 (ms 100) 1 in
  let reports := [ms 200; ms 100] in
  respectsContract c reports /\
  windowStarts c reports = [ms 200; ms 100] /\
  ~ nonDecreasing (windowStarts c reports).
Proof.
  cbv zeta.
  split; [simpl; unfold u64; vm_compute; intuition congruence|].
  split; [reflexivity|].
  vm_compute. intros (H & _). apply H. reflexivity.
Qed.

(** ** Construction *)

(** C5. [controller_new] allocates the controller, seeds the random source
    from [config.seed] and captures [minJumpTimeConfig] from
    [config.runahead]; the code then logs "simulation controller created" at
    INFO level, so the part of the claim that no log message is emitted does
    not hold of the code. *)
Theorem controller_new_emits_log (cfg : ConfigOptions) :
  controller_new cfg
    = ([(LOGLEVEL_INFO, MsgControllerCreated)], Returns (freshController cfg)) /\
  random (freshController cfg) = Some (random_new (config_getSeed cfg)) /\
  minJumpTimeConfig (freshController cfg) = config_getRunahead cfg /\
  logOf (controller_new cfg) <> [].
Proof. repeat split. discriminate. Qed.

(** ** The file-server status codes *)

(** C6. [fileserver_codetoa] returns the table entry for every index in
    [0, 14) and NULL for every negative index and every index from
    [sizeof(fileserver_code_strings)] on; but the bound it tests is the
    table's size in bytes, so for every index from 14 up to that size it
    reads past the last entry instead of returning NULL, as index 14 shows
    on 4-byte and on 8-byte pointers. *)
Theorem fileserver_codetoa_bounds (ptr index : Z) :
  1 <= ptr ->
  (0 <= index < 14 ->
     exists s, FileServer.fileserver_code_strings !! Z.to_nat index = Some s /\
               FileServer.fileserver_codetoa ptr index = FileServer.Entry s) /\
  (index < 0 \/ 14 * ptr <= index ->
     FileServer.fileserver_codetoa ptr index = FileServer.NULL) /\
  (14 <= index < 14 * ptr ->
     FileServer.fileserver_codetoa ptr index = FileServer.ReadPastTable index) /\
  FileServer.fileserver_codetoa 8 14 = FileServer.ReadPastTable 14 /\
  FileServer.fileserver_codetoa 4 14 = FileServer.ReadPastTable 14.
Proof.
  intros Hptr.
  unfold FileServer.fileserver_codetoa, FileServer.sizeof_fileserver_code_strings.
  change (Z.of_nat (length FileServer.fileserver_code_strings)) with 14.
  repeat split.
  - intros Hi.
    assert (Hlt : (Z.to_nat index < length FileServer.fileserver_code_strings)%nat)
      by (change (length FileServer.fileserver_code_strings) with 14%nat; lia).
    destruct (lookup_lt_is_Some_2 _ _ Hlt) as [s Hs].
    exists s. split; [exact Hs|]. rewrite Hs.
    destruct (Z.leb_spec 0 index); [|lia].
    destruct (Z.ltb_spec index (14 * ptr)); [reflexivity | nia].
  - intros [Hneg | Hbig].
    + destruct (Z.leb_spec 0 index); [lia | reflexivity].
    + destruct (Z.ltb_spec index (14 * ptr)); [lia|].
      now rewrite andb_false_r.
  - intros Hi.
    destruct (Z.leb_spec 0 index); [|lia].
    destruct (Z.ltb_spec index (14 * ptr)); [|lia]. simpl.
    rewrite (lookup_ge_None_2 FileServer.fileserver_code_strings (Z.to_nat index));
      [reflexivity|].
    change (length FileServer.fileserver_code_strings) with 14%nat. lia.
Qed.

Lemma fileserver_codetoa_bounds_witness :
  FileServer.fileserver_codetoa 8 13 = FileServer.Entry "FS_ERR_CLOSE" /\
  FileServer.fileserver_codetoa 8 112 = FileServer.NULL /\
  FileServer.fileserver_codetoa 8 111 = FileServer.ReadPastTable 111.
Proof.
  split; [reflexivity|].
  split.
  - apply (fileserver_codetoa_bounds 8 112); lia.
  - apply (fileserver_codetoa_bounds 8 111); lia.
Defined.

(** ** The observed topology minimum *)

Lemma digits2_pos_size (m : positive) : digits2_pos m = Pos.size m.
Proof. induction m; simpl; congruence. Qed.

(** The mantissa of a valid binary64 value has at most 53 bits. *)
Lemma valid_mantissa_bound (s : bool) (m : positive) (e : Z) :
  gdouble_valid (S754_finite s m e) = true -> Z.pos m < 2 ^ 53.
Proof.
  unfold gdouble_valid, valid_binary, bounded, canonical_mantissa, fexp, emin.
  intros H. apply andb_true_iff in H as [H _]. apply Z.eqb_eq in H.
  rewrite digits2_pos_size in H.
  assert (Hsize : Z.pos (Pos.size m) <= 53) by lia.
  pose proof (Pos.size_gt m) as Hgt.
  assert (Hpow : Z.pos (2 ^ Pos.size m) = 2 ^ Z.pos (Pos.size m))
    by (rewrite Pos2Z.inj_pow; reflexivity).
  assert (2 ^ Z.pos (Pos.size m) <= 2 ^ 53) by (apply Z.pow_le_mono_r; lia).
  lia.
Qed.

(** [truncate_mantissa m e] is the integer part of [m * 2^e]. *)
Lemma truncate_mantissa_spec (m : positive) (e : Z) :
  (0 <= e -> truncate_mantissa m e = Z.pos m * 2 ^ e) /\
  (e < 0 -> truncate_mantissa m e * 2 ^ (- e) <= Z.pos m
            < (truncate_mantissa m e + 1) * 2 ^ (- e)).
Proof.
  unfold truncate_mantissa. split; intros He.
  - destruct (Z.leb_spec 0 e); [|lia]. apply Z.shiftl_mul_pow2. lia.
  - destruct (Z.leb_spec 0 e); [lia|].
    rewrite Z.shiftr_div_pow2 by lia.
    assert (Hp : 0 < 2 ^ (- e)) by (apply Z.pow_pos_nonneg; lia).
    pose proof (Z.div_mod (Z.pos m) (2 ^ (- e)) ltac:(lia)) as Hdm.
    pose proof (Z.mod_pos_bound (Z.pos m) (2 ^ (- e)) Hp) as Hmod.
    nia.
Qed.

(** A valid binary64 value strictly between 0 and 1 has integer part 0. *)
Lemma double_below_one_truncates_to_zero (d : gdouble) :
  gdouble_valid d = true ->
  SFltb gdouble_zero d = true ->
  SFltb d gdouble_one = true ->
  double_to_guint64 d = Some 0.
Proof.
  intros Hvalid Hpos Hlt.
  destruct d as [s | s | | s m e]; try (destruct s; discriminate); try discriminate.
  destruct s; [discriminate|].
  pose proof (valid_mantissa_bound false m e Hvalid) as Hm.
  unfold SFltb, SFcompare, gdouble_one in Hlt.
  assert (Hzero : truncate_mantissa m e = 0).
  { unfold truncate_mantissa.
    destruct (Z.compare_spec e (-52)) as [He | He | He]; try discriminate.
    - subst e.
      destruct (PosDef.Pos.compare_cont Eq m 4503599627370496) eqn:Hc; try discriminate.
      apply (proj1 (Pos.compare_lt_iff m 4503599627370496)), Pos2Z.pos_lt_pos in Hc.
      change (Z.shiftr (Z.pos m) (- -52)) with (Z.shiftr (Z.pos m) 52).
      rewrite Z.shiftr_div_pow2 by discriminate. apply Z.div_small. lia.
    - destruct (Z.leb_spec 0 e); [lia|].
      rewrite Z.shiftr_div_pow2 by lia. apply Z.div_small.
      assert (2 ^ 53 <= 2 ^ (- e)) by (apply Z.pow_le_mono_r; lia). lia. }
  unfold double_to_guint64. rewrite Hzero. reflexivity.
Qed.

(** C9. [controller_updateMinTimeJump] keeps the integer part of the
    millisecond latency before scaling to nanoseconds: the recorded value is
    a whole number of milliseconds, 2.5 ms is recorded as 2 ms, and for every
    latency strictly between 0 and 1 ms the converted value is 0 ns, the
    update branch is taken and the assertion [minPathLatencySimTime > 0]
    fails, which aborts the program. *)
Theorem updateMinTimeJump_truncates (c : Controller) (d : gdouble) :
  gdouble_valid d = true ->
  u64 (nextMinJumpTime c) ->
  (forall m e, d = S754_finite false m e ->
     (0 <= e -> double_to_guint64 d = Some (Z.pos m * 2 ^ e) \/ double_to_guint64 d = None) /\
     (e < 0 -> exists whole,
        double_to_guint64 d = Some whole /\
        whole * 2 ^ (- e) <= Z.pos m < (whole + 1) * 2 ^ (- e))) /\
  (forall whole, double_to_guint64 d = Some whole ->
     let ns := wrap64 (whole * SIMTIME_ONE_MILLISECOND) in
     resultOf (controller_updateMinTimeJump c d) =
       if (nextMinJumpTime c =? 0) || (ns <? nextMinJumpTime c)
       then (if 0 <? ns then Returns (set_nextMinJumpTime ns c) else Aborts)
       else Returns c) /\
  (nextMinJumpTime c = 0 ->
     resultOf (controller_updateMinTimeJump c gdouble_2_5)
       = Returns (set_nextMinJumpTime (ms 2) c)) /\
  (SFltb gdouble_zero d = true -> SFltb d gdouble_one = true ->
     double_to_guint64 d = Some 0 /\
     resultOf (controller_updateMinTimeJump c d) = Aborts).
Proof.
  intros Hvalid Hnext.
  assert (Hcast : forall whole, double_to_guint64 d = Some whole ->
     let ns := wrap64 (whole * SIMTIME_ONE_MILLISECOND) in
     resultOf (controller_updateMinTimeJump c d) =
       if (nextMinJumpTime c =? 0) || (ns <? nextMinJumpTime c)
       then (if 0 <? ns then Returns (set_nextMinJumpTime ns c) else Aborts)
       else Returns c).
  { intros whole Hw ns. unfold controller_updateMinTimeJump. rewrite Hw. fold ns.
    destruct ((nextMinJumpTime c =? 0) || (ns <? nextMinJumpTime c)); [|reflexivity].
    destruct (0 <? ns); reflexivity. }
  split; [|split; [exact Hcast | split]].
  - intros m e ->. pose proof (truncate_mantissa_spec m e) as (Hge & Hlt).
    pose proof (valid_mantissa_bound false m e Hvalid) as Hm.
    split; intros He.
    + unfold double_to_guint64. rewrite (Hge He).
      destruct (_ <? _); auto.
    + exists (truncate_mantissa m e). split; [|exact (Hlt He)].
      unfold double_to_guint64.
      assert (Hp : 0 < 2 ^ (- e)) by (apply Z.pow_pos_nonneg; lia).
      specialize (Hlt He).
      destruct (Z.ltb_spec (truncate_mantissa m e) (2 ^ 64)); [reflexivity|]. nia.
  - intros Hzero. unfold controller_updateMinTimeJump. rewrite Hzero. reflexivity.
  - intros Hpos Hlt.
    pose proof (double_below_one_truncates_to_zero d Hvalid Hpos Hlt) as Hzero.
    split; [exact Hzero|].
    rewrite (Hcast 0 Hzero). cbv zeta.
    change (wrap64 (0 * SIMTIME_ONE_MILLISECOND)) with 0.
    destruct (Z.eqb_spec (nextMinJumpTime c) 0) as [|Hne]; [reflexivity|].
    destruct (Z.ltb_spec 0 (nextMinJumpTime c)); [reflexivity|].
    unfold u64 in Hnext. lia.
Qed.

Lemma updateMinTimeJump_truncates_witness :
  double_to_guint64 gdouble_0_5 = Some 0 /\
  resultOf (controller_updateMinTimeJump (sampleController 0 (ms 1000) 1) gdouble_0_5)
    = Aborts.
Proof.
  apply (updateMinTimeJump_truncates (sampleController 0 (ms 1000) 1) gdouble_0_5);
    [reflexivity | unfold u64; vm_compute; intuition congruence
     | reflexivity | reflexivity].
Defined.

(** ** Registration: the calls return and only extend the state *)

Lemma returns_inj {A} (m : M A) (a b : A) : returns m a -> returns m b -> a = b.
Proof. unfold returns. congruence. Qed.

Lemma returns_ret {A} (a : A) : returns (mret a) a.
Proof. reflexivity. Qed.

Lemma returns_bind {A B} (m : M A) (f : A -> M B) (b : B) :
  returns (m ≫= f) b <-> exists a, returns m a /\ returns (f a) b.
Proof.
  unfold returns, resultOf, mbind, M_mbind, M_bind.
  destruct m as [l [a| |]]; simpl.
  - destruct (f a) as [l' t] eqn:Hf. simpl. split.
    + intros ->. exists a. rewrite Hf. auto.
    + intros (a' & Ha & Hb). injection Ha as <-. now rewrite Hf in Hb.
  - split; [discriminate | intros (? & ? & _); discriminate].
  - split; [discriminate | intros (? & ? & _); discriminate].
Qed.

Lemma returns_emit {B} (lvl : LogLevel) (msg : LogMsg) (k : M B) (b : B) :
  returns (emit lvl msg ≫= λ _, k) b <-> returns k b.
Proof.
  rewrite returns_bind. split.
  - intros ([] & _ & H). exact H.
  - intros H. exists tt. split; [reflexivity | exact H].
Qed.

Lemma returns_deref {A B} (p : option A) (a : A) (f : A -> M B) (b : B) :
  p = Some a -> (returns (deref p ≫= f) b <-> returns (f a) b).
Proof.
  intros ->. rewrite returns_bind. split.
  - intros (a' & Ha & H). injection Ha as <-. exact H.
  - intros H. exists a. split; [reflexivity | exact H].
Qed.

Lemma extends_refl (Q : in_addr_t -> Prop) (c : Controller) :
  registrationReady c -> extends Q c c.
Proof.
  intros H. repeat split; try apply H; auto.
  exists []. rewrite app_nil_r. split; [reflexivity | constructor].
Qed.

Lemma extends_trans (Q : in_addr_t -> Prop) (c1 c2 c3 : Controller) :
  extends Q c1 c2 -> extends Q c2 c3 -> extends Q c1 c3.
Proof.
  intros (_ & Hc1 & Ha1 & added1 & Hh1 & HQ1) (Hr & Hc2 & Ha2 & added2 & Hh2 & HQ2).
  split; [exact Hr|]. split; [congruence|]. split; [auto|].
  exists (added1 ++ added2). split.
  - rewrite Hh2, Hh1, app_assoc. reflexivity.
  - apply Forall_app. auto.
Qed.

Lemma extends_ready (Q : in_addr_t -> Prop) (c c' : Controller) :
  extends Q c c' -> registrationReady c'.
Proof. intros H. apply H. Qed.

(** Replacing the manager by one with the same hosts changes nothing that
    [extends] observes. *)
Lemma extends_set_manager (Q : in_addr_t -> Prop) (c : Controller) (mgr mgr' : Manager) :
  registrationReady c ->
  manager c = Some mgr ->
  manager_hosts mgr' = manager_hosts mgr ->
  extends Q c (set_manager (Some mgr') c).
Proof.
  intros (Hm & Hi & Hg) Hmgr Hhosts.
  split; [repeat split; simpl; eauto|].
  split; [reflexivity|]. split.
  - intros ip (ipa & Hipa & Hin). exists ipa. simpl. auto.
  - exists []. rewrite app_nil_r. split; [|constructor].
    unfold registeredHosts. simpl. rewrite Hmgr. exact Hhosts.
Qed.

Lemma addVirtualProcesses_extends (Q : in_addr_t -> Prop) (n : nat) (p : VirtualProcess) :
  forall c : Controller,
  registrationReady c ->
  exists c', returns (addVirtualProcesses n p c) c' /\ extends Q c c'.
Proof.
  induction n as [|n IH]; intros c Hready.
  - exists c. split; [apply returns_ret | now apply extends_refl].
  - destruct Hready as ([mgr Hmgr] & Hi & Hg).
    assert (Hstep : extends Q c
              (set_manager (Some (manager_addNewVirtualProcess mgr p)) c)).
    { apply (extends_set_manager Q c mgr); [repeat split; eauto | exact Hmgr | reflexivity]. }
    destruct (IH _ (extends_ready _ _ _ Hstep)) as (c' & Hret & Hext).
    exists c'. split.
    + cbn [addVirtualProcesses]. apply (returns_deref _ mgr); [exact Hmgr | exact Hret].
    + eapply extends_trans; eauto.
Qed.

Lemma registerProcessCallback_extends (Q : in_addr_t -> Prop)
    (hostname : string) (proc : ProcessOptions) (c : Controller) :
  registrationReady c ->
  exists rv c',
    returns (_controller_registerProcessCallback hostname proc c) (rv, c') /\
    extends Q c c'.
Proof.
  intros Hready. unfold _controller_registerProcessCallback.
  destruct (processoptions_getPath proc) as [plugin|].
  - match goal with
    | |- context [addVirtualProcesses ?n ?p c] =>
        destruct (addVirtualProcesses_extends Q n p c Hready) as (c' & Hret & Hext)
    end.
    exists 0, c'. split; [|exact Hext].
    apply returns_bind. exists c'. split; [exact Hret | apply returns_ret].
  - exists (-1), c. split; [|now apply extends_refl].
    apply returns_emit, returns_ret.
Qed.

(** Iteration with a callback that returns and extends the state from every
    state satisfying an invariant that extension preserves. *)
Lemma iterEntries_extends {A : Type} (Q : in_addr_t -> Prop) (Inv : Controller -> Prop)
    (callback : A -> Controller -> M (Z * Controller)) (entries : list A) :
  (forall c c', Inv c -> extends Q c c' -> Inv c') ->
  (forall e c, e ∈ entries -> Inv c -> registrationReady c ->
     exists rv c', returns (callback e c) (rv, c') /\ extends Q c c') ->
  forall c, Inv c -> registrationReady c ->
  exists rv c', returns (iterEntries callback entries c) (rv, c') /\ extends Q c c'.
Proof.
  intros Hinv. induction entries as [|e entries IH]; intros Hcb c HI Hready.
  - exists 0, c. split; [apply returns_ret | now apply extends_refl].
  - destruct (Hcb e c) as (rv & c1 & Hret & Hext); [left | auto | auto |].
    destruct (Z.eqb_spec rv 0) as [Hz | Hnz].
    + destruct (IH (λ e' c' Hin, Hcb e' c' (list_elem_of_further _ _ _ Hin)) c1)
        as (rv' & c2 & Hret' & Hext'); [eauto | eapply extends_ready; eauto |].
      exists rv', c2. split; [|eapply extends_trans; eauto].
      cbn [iterEntries]. apply returns_bind. exists (rv, c1). split; [exact Hret|].
      cbn. destruct (Z.eqb_spec rv 0); [exact Hret' | contradiction].
    + exists rv, c1. split; [|exact Hext].
      cbn [iterEntries]. apply returns_bind. exists (rv, c1). split; [exact Hret|].
      cbn. destruct (Z.eqb_spec rv 0); [contradiction | apply returns_ret].
Qed.

(** An address drawn from the pool is neither reserved nor bound. *)
Lemma pool_draw_fresh (assigned : gmap in_addr_t NodeId) (pool : list in_addr_t)
    (ip : in_addr_t) (rest : list in_addr_t) :
  pool_draw assigned pool = Some (ip, rest) ->
  assigned !! ip = None /\ ip_reserved ip = false.
Proof.
  induction pool as [|x pool IH]; simpl; [discriminate|].
  destruct (ip_reserved x) eqn:Hres; simpl; [exact IH|].
  destruct (bool_decide (is_Some (assigned !! x))) eqn:Hdec; [exact IH|].
  intros [= <- <-]. split; [|exact Hres].
  apply bool_decide_eq_false_1 in Hdec.
  destruct (assigned !! x) eqn:E; [|reflexivity].
  exfalso. apply Hdec. eauto.
Qed.

(** An address handed to a host instance was free, is not reserved, is the
    entry's own address when it sets one, and is bound afterwards. *)
Lemma assignAddress_spec (host : HostOptions) (ipa ipa' : IpAssignment) (ip : in_addr_t) :
  assignAddress host ipa = Some (ip, ipa') ->
  ipa_assigned ipa !! ip = None /\
  ip_reserved ip = false /\
  ipa_assigned ipa' = <[ip := hostoptions_getNetworkNodeId host]> (ipa_assigned ipa) /\
  (forall X, hostoptions_getIpAddr host = Some X -> ip = X).
Proof.
  unfold assignAddress, ipassignment_assignHostWithIp, ipassignment_assignHost.
  destruct (bool_decide (hostoptions_getNetworkNodeId host ∈ ipa_nodes ipa));
    cbn [negb]; [|destruct (hostoptions_getIpAddr host); discriminate].
  destruct (hostoptions_getIpAddr host) as [X|].
  - destruct (ip_reserved X) eqn:Hres; [discriminate|].
    destruct (ipa_assigned ipa !! X) eqn:Hfree; [discriminate|].
    intros [= <- <-]. simpl. repeat split; auto. congruence.
  - destruct (pool_draw (ipa_assigned ipa) (ipa_pool ipa)) as [[ip' rest]|] eqn:Hdraw;
      [|discriminate].
    intros [= <- <-]. simpl.
    destruct (pool_draw_fresh _ _ _ _ Hdraw). repeat split; auto. discriminate.
Qed.

(** An address is bound to a node of the graph only, and the assignment
    keeps serving the same graph. *)
Lemma assignAddress_node (host : HostOptions) (ipa ipa' : IpAssignment) (ip : in_addr_t) :
  assignAddress host ipa = Some (ip, ipa') ->
  hostoptions_getNetworkNodeId host ∈ ipa_nodes ipa /\ ipa_nodes ipa' = ipa_nodes ipa.
Proof.
  unfold assignAddress, ipassignment_assignHostWithIp, ipassignment_assignHost.
  destruct (bool_decide_reflect (hostoptions_getNetworkNodeId host ∈ ipa_nodes ipa))
    as [Hin|Hout]; cbn [negb]; [|destruct (hostoptions_getIpAddr host); discriminate].
  destruct (hostoptions_getIpAddr host) as [X|].
  - destruct (ip_reserved X); [discriminate|].
    destruct (ipa_assigned ipa !! X); [discriminate|].
    intros [= <- <-]. split; [exact Hin | reflexivity].
  - destruct (pool_draw (ipa_assigned ipa) (ipa_pool ipa)) as [[ip' rest]|];
      [|discriminate].
    intros [= <- <-]. split; [exact Hin | reflexivity].
Qed.

Lemma extends_set_ipAssignment (Q : in_addr_t -> Prop) (c : Controller)
    (host : HostOptions) (ipa ipa' : IpAssignment) (ip : in_addr_t) :
  registrationReady c ->
  ipAssignment c = Some ipa ->
  assignAddress host ipa = Some (ip, ipa') ->
  extends Q c (set_ipAssignment (Some ipa') c) /\
  addressAssigned ip (set_ipAssignment (Some ipa') c).
Proof.
  intros (Hm & Hi & Hg) Hipa Hassign.
  destruct (assignAddress_spec _ _ _ _ Hassign) as (Hfree & _ & Hmap & _).
  split; [split; [repeat split; simpl; eauto|]|].
  - split; [reflexivity|]. split.
    + intros ip' (ipa0 & Hipa0 & Hin). rewrite Hipa in Hipa0. injection Hipa0 as <-.
      exists ipa'. split; [reflexivity|]. rewrite Hmap.
      destruct (decide (ip = ip')) as [<- | Hne].
      * rewrite lookup_insert_eq. eauto.
      * rewrite lookup_insert_ne by exact Hne. exact Hin.
    + exists []. rewrite app_nil_r. split; [reflexivity | constructor].
  - exists ipa'. split; [reflexivity|]. rewrite Hmap, lookup_insert_eq. eauto.
Qed.

Lemma extends_addNewVirtualHost (Q : in_addr_t -> Prop) (c : Controller)
    (mgr : Manager) (params : HostParameters) :
  registrationReady c ->
  manager c = Some mgr ->
  Q (ipAddr params) ->
  extends Q c (set_manager (Some (manager_addNewVirtualHost mgr params)) c).
Proof.
  intros (Hm & Hi & Hg) Hmgr HQ.
  split; [repeat split; simpl; eauto|].
  split; [reflexivity|]. split.
  - intros ip (ipa & Hipa & Hin). exists ipa. simpl. auto.
  - exists [params]. split; [|constructor; [exact HQ | constructor]].
    unfold registeredHosts. simpl. rewrite Hmgr. reflexivity.
Qed.

Lemma extends_addressAssigned (Q : in_addr_t -> Prop) (c c' : Controller) (ip : in_addr_t) :
  extends Q c c' -> addressAssigned ip c -> addressAssigned ip c'.
Proof. intros (_ & _ & H & _). apply H. Qed.

Lemma bind_deref_Some {A B} (a : A) (f : A -> M B) : (deref (Some a) ≫= f) = f a.
Proof.
  unfold deref, mret, M_mret, M_ret, mbind, M_mbind, M_bind.
  destruct (f a). reflexivity.
Qed.

(** One pass of the registration loop returns and extends the state; when
    it passes without error, the address of the instance is bound. *)
Lemma registerHostInstance_extends (Q : in_addr_t -> Prop) (name : string)
    (cfg : ConfigOptions) (host : HostOptions) (freq i : Z) (c : Controller) :
  registrationReady c ->
  (forall ipa ip ipa', ipAssignment c = Some ipa ->
     assignAddress host ipa = Some (ip, ipa') -> Q ip) ->
  exists rv c',
    returns (registerHostInstance name cfg host freq i c) (rv, c') /\
    extends Q c c' /\
    (rv = 0 -> forall X, hostoptions_getIpAddr host = Some X -> addressAssigned X c').
Proof.
  intros Hready HQ.
  pose proof Hready as ([mgr Hmgr] & [ipa Hipa] & [g Hg]).
  unfold registerHostInstance. rewrite Hipa, bind_deref_Some.
  destruct (assignAddress host ipa) as [[ip ipa']|] eqn:Hassign.
  - destruct (extends_set_ipAssignment Q c host ipa ipa' ip Hready Hipa Hassign)
      as (Hext1 & Hbound).
    destruct (assignAddress_spec _ _ _ _ Hassign) as (_ & _ & _ & Hfixed).
    set (c1 := set_ipAssignment (Some ipa') c) in *.
    pose proof (extends_ready _ _ _ Hext1) as Hready1.
    assert (Hg1 : graph c1 = Some g) by exact Hg.
    assert (Hmgr1 : manager c1 = Some mgr) by exact Hmgr.
    rewrite Hg1, bind_deref_Some. cbv zeta.
    cbn [hostname requestedBwDownBits requestedBwUpBits].
    repeat match goal with
    | |- context [if ?b then (_ ← error ?msg; mret (-1, c1)) else _] =>
        destruct b;
        [exists (-1), c1; split; [apply returns_emit, returns_ret|];
         split; [exact Hext1 | discriminate] |]
    end.
    rewrite Hmgr1, bind_deref_Some.
    match goal with
    | |- context [manager_addNewVirtualHost mgr ?params] =>
        pose proof (extends_addNewVirtualHost Q c1 mgr params Hready1 Hmgr1
                      (HQ ipa ip ipa' Hipa Hassign)) as Hext2;
        set (c2 := set_manager (Some (manager_addNewVirtualHost mgr params)) c1) in *
    end.
    destruct (iterEntries_extends Q (λ _, True)
                (_controller_registerProcessCallback (instanceHostname name
                   (hostoptions_getQuantity host) i))
                (hostoptions_processes host)) with (c := c2)
      as (rv & c3 & Hret & Hext3); auto.
    { intros proc c0 _ _ Hr. now apply registerProcessCallback_extends. }
    { eapply extends_ready; eauto. }
    assert (Hext : extends Q c c3)
      by (eapply extends_trans; [exact Hext1 | eapply extends_trans; eauto]).
    assert (Hbound3 : addressAssigned ip c3).
    { eapply extends_addressAssigned; [exact Hext3|].
      eapply extends_addressAssigned; [exact Hext2 | exact Hbound]. }
    destruct (Z.eqb_spec rv 0) as [Hz | Hnz].
    + exists 0, c3. split; [|split; [exact Hext|]].
      * apply returns_bind. exists (rv, c3). split; [exact Hret|].
        cbn. destruct (Z.eqb_spec rv 0); [reflexivity | contradiction].
      * intros _ X HX. rewrite <- (Hfixed X HX). exact Hbound3.
    + exists (-1), c3. split; [|split; [exact Hext | discriminate]].
      apply returns_bind. exists (rv, c3). split; [exact Hret|].
      cbn. destruct (Z.eqb_spec rv 0); [contradiction | reflexivity].
  - exists (-1), c. split; [|split; [now apply extends_refl | discriminate]].
    apply returns_emit, returns_ret.
Qed.

Section RegistrationInvariant.

(** [Q] describes the addresses handed out while [Inv] holds; [Inv] is
    preserved when the state is extended. *)
Variable Q : in_addr_t -> Prop.
Variable Inv : Controller -> Prop.
Hypothesis Inv_extends : forall c c', Inv c -> extends Q c c' -> Inv c'.

Lemma registerHostInstances_extends (name : string) (cfg : ConfigOptions)
    (host : HostOptions) (freq : Z) (n : nat) :
  (forall c ipa ip ipa', Inv c -> ipAssignment c = Some ipa ->
     assignAddress host ipa = Some (ip, ipa') -> Q ip) ->
  forall (i : Z) (c : Controller),
  Inv c -> registrationReady c ->
  exists rv c',
    returns (registerHostInstances n name cfg host freq i c) (rv, c') /\
    extends Q c c' /\
    (rv = 0 -> (0 < n)%nat ->
     forall X, hostoptions_getIpAddr host = Some X -> addressAssigned X c').
Proof.
  intros HQ. induction n as [|n IH]; intros i c HI Hready.
  - exists 0, c. split; [apply returns_ret|].
    split; [now apply extends_refl | lia].
  - destruct (registerHostInstance_extends Q name cfg host freq i c Hready)
      as (rv & c1 & Hret & Hext & Hbound); [eauto|].
    destruct (Z.eqb_spec rv 0) as [Hz | Hnz].
    + destruct (IH (i + 1) c1) as (rv' & c2 & Hret' & Hext' & _);
        [eauto | eapply extends_ready; eauto |].
      exists rv', c2. split; [|split; [eapply extends_trans; eauto|]].
      * cbn [registerHostInstances]. apply returns_bind.
        exists (rv, c1). split; [exact Hret|].
        cbn. destruct (Z.eqb_spec rv 0); [exact Hret' | contradiction].
      * intros _ _ X HX. eapply extends_addressAssigned; [exact Hext'|]. eauto.
    + exists rv, c1. split; [|split; [exact Hext | contradiction]].
      cbn [registerHostInstances]. apply returns_bind.
      exists (rv, c1). split; [exact Hret|].
      cbn. destruct (Z.eqb_spec rv 0); [contradiction | reflexivity].
Qed.

(** The callback of either pass returns and extends the state; in the
    first pass a successful call on an entry with a fixed address and at
    least one instance binds that address. *)
Lemma registerHostCallback_extends (flag : bool) (name : string)
    (cfg : ConfigOptions) (host : HostOptions) (c : Controller) :
  (forall c ipa ip ipa', Inv c ->
     (match hostoptions_getIpAddr host with Some _ => true | None => false end) = flag ->
     ipAssignment c = Some ipa -> assignAddress host ipa = Some (ip, ipa') -> Q ip) ->
  Inv c -> registrationReady c ->
  exists rv c',
    returns (_controller_registerHostCallback flag name cfg host c) (rv, c') /\
    extends Q c c' /\
    (rv = 0 -> flag = true -> 1 <= hostoptions_getQuantity host ->
     forall X, hostoptions_getIpAddr host = Some X -> addressAssigned X c').
Proof.
  intros HQ HI Hready.
  pose proof Hready as ([mgr Hmgr] & _).
  unfold _controller_registerHostCallback. rewrite Hmgr, bind_deref_Some. cbv zeta.
  set (ipAddrSet := match hostoptions_getIpAddr host with
                    | Some _ => true | None => false end) in *.
  destruct (eqb_spec ipAddrSet flag) as [Hflag | Hflag]; simpl.
  - destruct (ipAddrSet && (1 <? hostoptions_getQuantity host)) eqn:Hamb.
    + exists (-1), c. split; [reflexivity|].
      split; [now apply extends_refl | discriminate].
    + destruct (registerHostInstances_extends name cfg host
                  (manager_getRawCPUFrequency mgr)
                  (Z.to_nat (hostoptions_getQuantity host))) with (i := 0) (c := c)
        as (rv & c' & Hret & Hext & Hbound); eauto.
      exists rv, c'. split; [exact Hret|]. split; [exact Hext|].
      intros Hz _ Hq X HX. apply Hbound; auto. lia.
  - exists 0, c. split; [reflexivity|].
    split; [now apply extends_refl|].
    intros _ -> _ X HX. subst ipAddrSet. rewrite HX in Hflag. contradiction.
Qed.

(** A whole pass over the host entries. *)
Lemma registerPass_extends (flag : bool) (cfg : ConfigOptions)
    (entries : list (string * HostOptions)) :
  (forall host c ipa ip ipa', Inv c ->
     (match hostoptions_getIpAddr host with Some _ => true | None => false end) = flag ->
     ipAssignment c = Some ipa -> assignAddress host ipa = Some (ip, ipa') -> Q ip) ->
  forall c, Inv c -> registrationReady c ->
  exists rv c',
    returns (iterEntries (λ entry, _controller_registerHostCallback flag (fst entry) cfg
                                     (snd entry)) entries c) (rv, c') /\
    extends Q c c'.
Proof.
  intros HQ. apply iterEntries_extends; [exact Inv_extends|].
  intros [name host] c _ HI Hready.
  destruct (registerHostCallback_extends flag name cfg host c)
    as (rv & c' & Hret & Hext & _); eauto.
Qed.

End RegistrationInvariant.

(** ** Rejection of an address shared by several instances *)

Lemma registerHostCallback_ambiguous (name : string) (cfg : ConfigOptions)
    (host : HostOptions) (X : in_addr_t) (c : Controller) (mgr : Manager) :
  hostoptions_getIpAddr host = Some X ->
  1 < hostoptions_getQuantity host ->
  manager c = Some mgr ->
  _controller_registerHostCallback true name cfg host c
  = ([(LOGLEVEL_ERROR, MsgAmbiguousAddress name (hostoptions_getQuantity host))],
     Returns (-1, c)).
Proof.
  intros HX Hq Hmgr.
  unfold _controller_registerHostCallback. rewrite Hmgr, bind_deref_Some. cbv zeta.
  rewrite HX. simpl. destruct (Z.ltb_spec 1 (hostoptions_getQuantity host)); [|lia].
  reflexivity.
Qed.

(** A pass fails as soon as one entry is refused in every state. *)
Lemma iterEntries_fails {A : Type} (callback : A -> Controller -> M (Z * Controller))
    (entries : list A) (e0 : A) :
  e0 ∈ entries ->
  (forall c, registrationReady c -> returns (callback e0 c) (-1, c)) ->
  (forall e c, registrationReady c ->
     exists rv c', returns (callback e c) (rv, c') /\ extends (λ _, True) c c') ->
  forall c, registrationReady c ->
  exists rv c', returns (iterEntries callback entries c) (rv, c') /\ rv <> 0 /\
                extends (λ _, True) c c'.
Proof.
  intros Hin Hfail Htotal.
  induction entries as [|e entries IH]; intros c Hready.
  - inversion Hin.
  - destruct (Htotal e c Hready) as (rv & c1 & Hret & Hext).
    destruct (Z.eqb_spec rv 0) as [Hz | Hnz].
    + assert (Hin' : e0 ∈ entries).
      { apply elem_of_cons in Hin as [-> | Hin]; [|exact Hin].
        pose proof (returns_inj _ _ _ Hret (Hfail c Hready)) as Heq.
        injection Heq as -> _. discriminate. }
      destruct (IH Hin' c1 (extends_ready _ _ _ Hext)) as (rv' & c2 & Hret' & Hnz' & Hext').
      exists rv', c2. split; [|split; [exact Hnz' | eapply extends_trans; eauto]].
      cbn [iterEntries]. apply returns_bind. exists (rv, c1). split; [exact Hret|].
      cbn. destruct (Z.eqb_spec rv 0); [exact Hret' | contradiction].
    + exists rv, c1. split; [|split; [exact Hnz | exact Hext]].
      cbn [iterEntries]. apply returns_bind. exists (rv, c1). split; [exact Hret|].
      cbn. destruct (Z.eqb_spec rv 0); [contradiction | reflexivity].
Qed.

Lemma registerHosts_ambiguous (name : string) (host : HostOptions) (X : in_addr_t)
    (c : Controller) :
  hostoptions_getIpAddr host = Some X ->
  1 < hostoptions_getQuantity host ->
  (name, host) ∈ config_hosts (config c) ->
  registrationReady c ->
  exists c', returns (_controller_registerHosts c) (-1, c').
Proof.
  intros HX Hq Hin Hready.
  destruct (iterEntries_fails
              (λ entry, _controller_registerHostCallback true (fst entry) (config c)
                          (snd entry))
              (config_hosts (config c)) (name, host) Hin) with (c := c)
    as (rv & c1 & Hret & Hnz & _); auto.
  - intros c0 ([mgr Hmgr] & _). unfold returns. simpl.
    now rewrite (registerHostCallback_ambiguous name (config c) host X c0 mgr).
  - intros [n h] c0 Hr.
    destruct (registerHostCallback_extends (λ _, True) (λ _, True) (λ _ _ _ _, I)
                true n (config c) h c0) as (rv & c' & Hret & Hext & _); eauto.
  - exists c1. unfold _controller_registerHosts, config_iterHosts.
    apply returns_bind. exists (rv, c1). split; [exact Hret|].
    cbn. destruct (Z.eqb_spec rv 0); [contradiction | reflexivity].
Qed.

Lemma initializeTimeWindows_handles (c : Controller) :
  let c' := _controller_initializeTimeWindows c in
  config c' = config c /\ random c' = random c /\ graph c' = graph c /\
  ipAssignment c' = ipAssignment c /\ manager c' = manager c.
Proof.
  unfold _controller_initializeTimeWindows. cbv zeta.
  cbn [config set_endTime].
  destruct (0 <? config_getWorkers (config c)); repeat split.
Qed.

(** With an entry that fixes one address for several instances, a run
    stops at registration and yields exit code 1. *)
Lemma controller_run_ambiguous (ext : External) (name : string) (host : HostOptions)
    (X : in_addr_t) (c : Controller) :
  hostoptions_getIpAddr host = Some X ->
  1 < hostoptions_getQuantity host ->
  (name, host) ∈ config_hosts (config c) ->
  is_Some (random c) ->
  (forall cfg e b s, is_Some (manager_new ext cfg e b s)) ->
  exists c', returns (controller_run ext c) (1, c').
Proof.
  intros HX Hq Hin [rnd Hrnd] Hmgr.
  unfold controller_run.
  assert (Hstep : forall k : M (Z * Controller),
            (exists c', returns k (1, c')) ->
            exists c', returns (_ ← info MsgLoading; k) (1, c')).
  { intros k (c' & H). exists c'. now apply returns_emit. }
  apply Hstep. clear Hstep.
  unfold _controller_loadNetworkGraph. cbv zeta.
  cbn [graph set_ipAssignment set_graph].
  destruct (networkgraph_load ext (config c)) as [g|] eqn:Hload.
  - set (c1 := set_dns _ _).
    destruct (initializeTimeWindows_handles c1) as (Hcfg & Hrand & Hgraph & Hipa & _).
    set (c2 := _controller_initializeTimeWindows c1) in *.
    destruct (random_nextUInt ext rnd) as [seed rnd1] eqn:Hnext.
    set (c3 := set_random (Some rnd1) c2).
    destruct (Hmgr (config c3) (endTime c3) (bootstrapEndTime c3) seed) as [mgr Hnew].
    set (c4 := set_manager (Some mgr) c3).
    assert (Hready : registrationReady c4).
    { repeat split; [exists mgr; reflexivity | |].
      - change (ipAssignment c4) with (ipAssignment c2). rewrite Hipa. eexists; reflexivity.
      - change (graph c4) with (graph c2). rewrite Hgraph. eexists; reflexivity. }
    assert (Hin4 : (name, host) ∈ config_hosts (config c4)).
    { change (config c4) with (config c2). rewrite Hcfg. exact Hin. }
    destruct (registerHosts_ambiguous name host X c4 HX Hq Hin4 Hready) as (c5 & Hreg).
    exists c5.
    apply returns_bind. exists (true, c1). split; [reflexivity|].
    cbn [negb]. fold c2.
    apply (returns_deref _ rnd); [rewrite Hrand; exact Hrnd|].
    rewrite Hnext. fold c3. rewrite Hnew. fold c4.
    apply returns_bind. exists tt. split; [reflexivity|].
    apply returns_emit.
    apply returns_bind. exists (-1, c5). split; [exact Hreg | reflexivity].
  - eexists. reflexivity.
Qed.

(** C7. For every host entry whose address is fixed and whose quantity
    exceeds 1, the registration callback of the first pass reports the
    ambiguous address and returns -1 with the controller unchanged: no
    address has been bound and no host instance handed to the manager for
    that entry; host registration then fails, and [controller_run] returns
    the exit code 1. *)
Theorem ambiguous_address_rejected (ext : External) (name : string) (host : HostOptions)
    (X : in_addr_t) (c : Controller) :
  hostoptions_getIpAddr host = Some X ->
  1 < hostoptions_getQuantity host ->
  (forall cfg c0 mgr, manager c0 = Some mgr ->
     _controller_registerHostCallback true name cfg host c0
     = ([(LOGLEVEL_ERROR, MsgAmbiguousAddress name (hostoptions_getQuantity host))],
        Returns (-1, c0))) /\
  ((name, host) ∈ config_hosts (config c) -> registrationReady c ->
     exists c', returns (_controller_registerHosts c) (-1, c')) /\
  ((name, host) ∈ config_hosts (config c) -> is_Some (random c) ->
     (forall cfg e b s, is_Some (manager_new ext cfg e b s)) ->
     exists c', returns (controller_run ext c) (1, c')).
Proof.
  intros HX Hq. split; [|split].
  - intros cfg c0 mgr Hmgr. exact (registerHostCallback_ambiguous name cfg host X c0 mgr HX Hq Hmgr).
  - now apply (registerHosts_ambiguous name host X).
  - now apply (controller_run_ambiguous ext name host X).
Qed.

(** Scenario S6 run on the code: one entry with the address 10.0.0.5 and
    quantity 3. *)
Lemma ambiguous_address_rejected_witness :
  let host := sampleHost 3 (Some 167772165) (Some 1000000) in
  let c := freshController (sampleConfig 0 (ms 1000) 1 [("relay"%string, host)]) in
  exists c', returns (controller_run sampleExternal c) (1, c').
Proof.
  cbv zeta.
  refine (proj2 (proj2 (ambiguous_address_rejected sampleExternal "relay"
            (sampleHost 3 (Some 167772165) (Some 1000000)) 167772165 _ eq_refl eq_refl))
          _ _ _).
  - simpl. apply list_elem_of_here.
  - eexists; reflexivity.
  - intros. eexists; reflexivity.
Defined.

(** ** Bandwidth resolution *)

Lemma readBandwidth_resolve (hostAttr graphAttr : option Z) :
  let r := readBandwidth (readBandwidth (false, 0) graphAttr) hostAttr in
  match resolveBandwidth hostAttr graphAttr with
  | Some v => r = (true, v)
  | None => r = (false, 0)
  end.
Proof. destruct hostAttr, graphAttr; reflexivity. Qed.

(** C8. For every host instance whose address has been assigned, each
    direction's bandwidth is the host option when present and the graph
    node's attribute otherwise. If either direction has no value or a zero
    value, the pass logs a bandwidth error and returns -1 without handing
    the host to the manager; otherwise the host is handed over with the
    two resolved values. *)
Theorem bandwidth_resolution (name : string) (cfg : ConfigOptions) (host : HostOptions)
    (freq i : Z) (c : Controller) (ipa ipa' : IpAssignment) (g : NetworkGraph)
    (ip : in_addr_t) :
  ipAssignment c = Some ipa ->
  graph c = Some g ->
  assignAddress host ipa = Some (ip, ipa') ->
  let node := hostoptions_getNetworkNodeId host in
  let down := resolveBandwidth (hostoptions_getBandwidthDown host)
                (networkgraph_nodeBandwidthDownBits g node) in
  let up := resolveBandwidth (hostoptions_getBandwidthUp host)
              (networkgraph_nodeBandwidthUpBits g node) in
  let h := instanceHostname name (hostoptions_getQuantity host) i in
  (down = None \/ up = None \/ down = Some 0 \/ up = Some 0 ->
     exists msg,
       isErrBandwidth h msg /\
       registerHostInstance name cfg host freq i c
         = ([(LOGLEVEL_ERROR, msg)], Returns (-1, set_ipAssignment (Some ipa') c)) /\
       registeredHosts (set_ipAssignment (Some ipa') c) = registeredHosts c) /\
  (forall d u mgr, down = Some d -> up = Some u -> d <> 0 -> u <> 0 ->
     manager c = Some mgr ->
     exists rv c' params,
       returns (registerHostInstance name cfg host freq i c) (rv, c') /\
       registeredHosts c' = registeredHosts c ++ [params] /\
       hostname params = h /\ ipAddr params = ip /\
       requestedBwDownBits params = d /\ requestedBwUpBits params = u).
Proof.
  intros Hipa Hg Hassign node down up h.
  pose proof (readBandwidth_resolve (hostoptions_getBandwidthDown host)
                (networkgraph_nodeBandwidthDownBits g node)) as Hdown.
  pose proof (readBandwidth_resolve (hostoptions_getBandwidthUp host)
                (networkgraph_nodeBandwidthUpBits g node)) as Hup.
  cbv zeta in Hdown, Hup. fold down in Hdown. fold up in Hup.
  unfold registerHostInstance. rewrite Hipa, bind_deref_Some, Hassign.
  set (c1 := set_ipAssignment (Some ipa') c) in *.
  assert (Hg1 : graph c1 = Some g) by exact Hg.
  rewrite Hg1, bind_deref_Some. cbv zeta.
  cbn [hostname requestedBwDownBits requestedBwUpBits].
  fold node h.
  split.
  - intros Hbad.
    destruct down as [d|].
    + rewrite Hdown. destruct up as [u|].
      * rewrite Hup. cbn [fst snd negb].
        destruct (Z.eqb_spec d 0) as [Hd | Hd];
          [|destruct (Z.eqb_spec u 0) as [Hu | Hu]].
        -- exists (MsgBandwidthZero h). unfold isErrBandwidth. auto.
        -- exists (MsgBandwidthZero h). unfold isErrBandwidth. auto.
        -- exfalso. destruct Hbad as [? | [? | [[= ?] | [= ?]]]]; congruence.
      * rewrite Hup. cbn [fst snd negb].
        exists (MsgNoBandwidthUp h). unfold isErrBandwidth. auto.
    + rewrite Hdown. cbn [fst snd negb].
      exists (MsgNoBandwidthDown h). unfold isErrBandwidth. auto.
  - intros d u mgr Hd Hu Hdnz Hunz Hmgr.
    assert (Hmgr1 : manager c1 = Some mgr) by exact Hmgr.
    rewrite Hd in Hdown. rewrite Hu in Hup.
    rewrite Hdown, Hup. cbn [fst snd negb].
    destruct (Z.eqb_spec d 0); [contradiction|].
    destruct (Z.eqb_spec u 0); [contradiction|]. cbn [orb].
    rewrite Hmgr1, bind_deref_Some.
    assert (Hready1 : registrationReady c1) by (repeat split; simpl; eauto).
    match goal with
    | |- context [manager_addNewVirtualHost mgr ?p] => set (params := p)
    end.
    pose proof (extends_addNewVirtualHost (λ _, False) c1 mgr params Hready1 Hmgr1)
      as Hadd.
    set (c2 := set_manager (Some (manager_addNewVirtualHost mgr params)) c1) in *.
    assert (Hready2 : registrationReady c2) by (repeat split; simpl; eauto).
    destruct (iterEntries_extends (λ _, False) (λ _, True)
                (_controller_registerProcessCallback h)
                (hostoptions_processes host)) with (c := c2)
      as (rv & c3 & Hret & _ & _ & _ & added & Hhosts & Hnone); auto.
    { intros proc c0 _ _ Hr. now apply registerProcessCallback_extends. }
    assert (added = []) as ->.
    { destruct added as [|p added]; [reflexivity|]. now inversion Hnone. }
    rewrite app_nil_r in Hhosts.
    exists (if rv =? 0 then 0 else -1), c3, params.
    split; [|split; [|repeat split]].
    + apply returns_bind. exists (rv, c3). split; [exact Hret|].
      cbn. destruct (rv =? 0); reflexivity.
    + rewrite Hhosts. unfold registeredHosts. simpl. rewrite Hmgr. reflexivity.
Qed.

Lemma bandwidth_resolution_witness :
  let host := sampleHost 1 None None in
  let c := registrationController [("client"%string, host)] None [184549377] in
  exists msg,
    isErrBandwidth "client" msg /\
    logOf (registerHostInstance "client" (config c) host 2400000 0 c)
      = [(LOGLEVEL_ERROR, msg)] /\
    registeredHosts c = [].
Proof.
  cbv zeta.
  set (host := sampleHost 1 None None).
  set (c := registrationController [("client"%string, host)] None [184549377]).
  destruct (bandwidth_resolution "client" (config c) host 2400000 0 c
              (ipassignment_new [184549377] {[ 0 ]})
              {| ipa_assigned := {[ 184549377 := 0 ]}; ipa_pool := [];
                 ipa_nodes := {[ 0 ]} |}
              (sampleGraph None) 184549377
              eq_refl ltac:(vm_compute; reflexivity) eq_refl) as (Hfail & _).
  destruct Hfail as (msg & Hmsg & Hrun & _); [left; reflexivity|].
  exists msg. split; [exact Hmsg|]. split; [|reflexivity].
  rewrite Hrun. reflexivity.
Defined.

(** ** Results with their logs *)

Lemma bind_returns_inv {A B} (m : M A) (f : A -> M B) (l : list LogRecord) (b : B) :
  (m ≫= f) = (l, Returns b) ->
  exists l1 a l2, m = (l1, Returns a) /\ f a = (l2, Returns b) /\ l = l1 ++ l2.
Proof.
  unfold mbind, M_mbind, M_bind.
  destruct m as [l1 [a| |]]; [|discriminate|discriminate].
  destruct (f a) as [l2 t] eqn:Hf. intros [= <- ->].
  exists l1, a, l2. auto.
Qed.

Lemma bind_returns_intro {A B} (m : M A) (f : A -> M B) (l1 l2 : list LogRecord)
    (a : A) (t : Termination B) :
  m = (l1, Returns a) -> f a = (l2, t) -> (m ≫= f) = (l1 ++ l2, t).
Proof.
  intros -> Hf. unfold mbind, M_mbind, M_bind. rewrite Hf. reflexivity.
Qed.

Lemma deref_returns_inv {A B} (p : option A) (f : A -> M B) (l : list LogRecord) (b : B) :
  (deref p ≫= f) = (l, Returns b) -> exists a, p = Some a /\ f a = (l, Returns b).
Proof.
  destruct p as [a|]; [|discriminate].
  rewrite bind_deref_Some. eauto.
Qed.

Lemma emit_returns_inv {B} (lvl : LogLevel) (msg : LogMsg) (k : M B)
    (l : list LogRecord) (b : B) :
  (emit lvl msg ≫= λ _, k) = (l, Returns b) ->
  exists l', k = (l', Returns b) /\ l = (lvl, msg) :: l'.
Proof.
  intros H. apply bind_returns_inv in H as (l1 & [] & l2 & Hm & Hk & ->).
  injection Hm as <-. eauto.
Qed.

Lemma reportsOutcome_error (msg : LogMsg) : reportsOutcome [(LOGLEVEL_ERROR, msg)] (-1).
Proof.
  right. split; [reflexivity|]. split; [discriminate|].
  constructor; [reflexivity | constructor].
Qed.

Lemma reportsOutcome_wrap (l : list LogRecord) (rv : Z) (msg : LogMsg) :
  reportsOutcome l rv -> rv <> 0 -> reportsOutcome (l ++ [(LOGLEVEL_ERROR, msg)]) (-1).
Proof.
  intros [(? & _) | (_ & _ & Hall)] Hnz; [contradiction|].
  right. split; [reflexivity|]. split; [now destruct l|].
  apply Forall_app. split; [exact Hall|]. constructor; [reflexivity | constructor].
Qed.

Lemma addVirtualProcesses_result (n : nat) (p : VirtualProcess) :
  forall (c c' : Controller) (l : list LogRecord),
  addVirtualProcesses n p c = (l, Returns c') ->
  l = [] /\
  config c' = config c /\ ipAssignment c' = ipAssignment c /\ graph c' = graph c /\
  registeredHosts c' = registeredHosts c /\
  (n = O -> c' = c) /\
  forall mgr, manager c = Some mgr ->
    exists mgr', manager c' = Some mgr' /\
      manager_processes mgr' = manager_processes mgr ++ replicate n p /\
      manager_hosts mgr' = manager_hosts mgr /\
      manager_getRawCPUFrequency mgr' = manager_getRawCPUFrequency mgr.
Proof.
  induction n as [|n IH]; intros c c' l H.
  - injection H as <- <-. repeat split; auto.
    intros mgr Hmgr. exists mgr. rewrite app_nil_r. auto.
  - cbn [addVirtualProcesses] in H.
    apply deref_returns_inv in H as (mgr & Hmgr & H).
    apply IH in H as (-> & Hcfg & Hipa & Hg & Hhosts & _ & Hprocs).
    repeat split; auto.
    + rewrite Hhosts. unfold registeredHosts. cbn. rewrite Hmgr. reflexivity.
    + discriminate.
    + intros mgr0 Hmgr0. rewrite Hmgr in Hmgr0. injection Hmgr0 as <-.
      destruct (Hprocs _ eq_refl) as (mgr' & Hm' & Hp' & Hh' & Hf').
      exists mgr'. split; [exact Hm'|]. split; [|auto].
      rewrite Hp'. cbn. rewrite <- app_assoc. reflexivity.
Qed.

Lemma addVirtualProcesses_returns (n : nat) (p : VirtualProcess) :
  forall (c : Controller) (mgr : Manager),
  manager c = Some mgr ->
  exists c', addVirtualProcesses n p c = ([], Returns c').
Proof.
  induction n as [|n IH]; intros c mgr Hmgr.
  - exists c. reflexivity.
  - cbn [addVirtualProcesses]. rewrite Hmgr, bind_deref_Some.
    eapply IH. reflexivity.
Qed.

Lemma registerProcessCallback_result (hostname : string) (proc : ProcessOptions)
    (c c' : Controller) (l : list LogRecord) (rv : Z) :
  _controller_registerProcessCallback hostname proc c = (l, Returns (rv, c')) ->
  reportsOutcome l rv /\
  (registeredHosts c' = registeredHosts c /\ config c' = config c).
Proof.
  unfold _controller_registerProcessCallback.
  destruct (processoptions_getPath proc) as [plugin|].
  - intros H. apply bind_returns_inv in H as (l1 & c1 & l2 & Hadd & Hret & ->).
    injection Hret as <- <- <-.
    apply addVirtualProcesses_result in Hadd as (-> & Hcfg & _ & _ & Hhosts & _).
    split; [left; auto | auto].
  - intros [= <- <- <-]. split; [apply reportsOutcome_error | auto].
Qed.

(** Iteration passes on what its callback guarantees, for any guarantee
    that is reflexive and transitive. *)
Lemma iterEntries_result {A : Type} (R : Controller -> Controller -> Prop)
    (callback : A -> Controller -> M (Z * Controller)) (entries : list A) :
  (forall c, R c c) ->
  (forall c1 c2 c3, R c1 c2 -> R c2 c3 -> R c1 c3) ->
  (forall e c l rv c', callback e c = (l, Returns (rv, c')) ->
     reportsOutcome l rv /\ R c c') ->
  forall c l rv c',
  iterEntries callback entries c = (l, Returns (rv, c')) ->
  reportsOutcome l rv /\ R c c'.
Proof.
  intros Hrefl Htrans Hcb.
  induction entries as [|e entries IH]; intros c l rv c' H.
  - injection H as <- <- <-. split; [left; auto | apply Hrefl].
  - cbn [iterEntries] in H.
    apply bind_returns_inv in H as (l1 & [rv1 c1] & l2 & Hstep & Hrest & ->).
    apply Hcb in Hstep as (Hrep & HR). cbn in Hrest.
    destruct (Z.eqb_spec rv1 0) as [-> | Hnz].
    + destruct Hrep as [(_ & ->) | (? & _)]; [|discriminate].
      apply IH in Hrest as (Hrep' & HR'). split; [exact Hrep' | eauto].
    + injection Hrest as <- <- <-. rewrite app_nil_r. auto.
Qed.

(** Hosts are kept and the configuration is the same. *)
Lemma hostsKept_refl (c : Controller) : hostsKept c c /\ config c = config c.
Proof. split; [exists []; now rewrite app_nil_r | reflexivity]. Qed.

Lemma hostsKept_trans (c1 c2 c3 : Controller) :
  hostsKept c1 c2 /\ config c2 = config c1 ->
  hostsKept c2 c3 /\ config c3 = config c2 ->
  hostsKept c1 c3 /\ config c3 = config c1.
Proof.
  intros ((a1 & H1) & Hc1) ((a2 & H2) & Hc2). split; [|congruence].
  exists (a1 ++ a2). now rewrite H2, H1, app_assoc.
Qed.

(** One pass of the registration loop, with its log. *)
Lemma registerHostInstance_result (name : string) (cfg : ConfigOptions)
    (host : HostOptions) (freq i : Z) (c c' : Controller) (l : list LogRecord) (rv : Z) :
  registerHostInstance name cfg host freq i c = (l, Returns (rv, c')) ->
  reportsOutcome l rv /\ (hostsKept c c' /\ config c' = config c) /\
  (rv = 0 -> exists p, registeredHosts c' = registeredHosts c ++ [p] /\
                       instanceRegistered name host freq i p).
Proof.
  unfold registerHostInstance. intros H.
  apply deref_returns_inv in H as (ipa & Hipa & H).
  destruct (assignAddress host ipa) as [[ip ipa']|] eqn:Hassign.
  - destruct (assignAddress_spec _ _ _ _ Hassign) as (_ & _ & _ & Hfixed).
    set (c1 := set_ipAssignment (Some ipa') c) in *.
    assert (Hhosts1 : registeredHosts c1 = registeredHosts c) by reflexivity.
    assert (Hcfg1 : config c1 = config c) by reflexivity.
    apply deref_returns_inv in H as (g & Hg & H). cbv zeta in H.
    cbn [hostname requestedBwDownBits requestedBwUpBits] in H.
    assert (Herr : forall msg,
              (_ ← error msg; mret (-1, c1)) = (l, Returns (rv, c')) ->
              reportsOutcome l rv /\ (hostsKept c c' /\ config c' = config c) /\
              (rv = 0 -> exists p, registeredHosts c' = registeredHosts c ++ [p] /\
                                   instanceRegistered name host freq i p)).
    { intros msg [= <- <- <-]. split; [apply reportsOutcome_error|].
      split; [split; [exists []; now rewrite app_nil_r | reflexivity] | discriminate]. }
    repeat match type of H with
    | (if ?b then (_ ← error ?msg; mret (-1, c1)) else _) = _ =>
        let Hb := fresh "Hb" in
        destruct b eqn:Hb; [exact (Herr msg H)|]
    end.
    clear Herr.
    apply deref_returns_inv in H as (mgr & Hmgr & H).
    match type of H with
    | context [manager_addNewVirtualHost mgr ?params] =>
        set (p := params) in *;
        set (c2 := set_manager (Some (manager_addNewVirtualHost mgr p)) c1) in *
    end.
    assert (Hhosts2 : registeredHosts c2 = registeredHosts c ++ [p]).
    { assert (Hmgr0 : manager c = Some mgr) by exact Hmgr.
      unfold registeredHosts. cbn. rewrite Hmgr0. reflexivity. }
    assert (Hcfg2 : config c2 = config c) by reflexivity.
    apply bind_returns_inv in H as (l1 & [rvp c3] & l2 & Hprocs & Hret & ->).
    apply (iterEntries_result
             (λ a b, registeredHosts b = registeredHosts a /\ config b = config a))
      in Hprocs as (Hrep & Hhosts3 & Hcfg3);
      [| auto | intros ? ? ? (? & ?) (? & ?); split; congruence
       | intros; eapply registerProcessCallback_result; eauto].
    assert (Hkept : hostsKept c c3 /\ config c3 = config c)
      by (split; [exists [p]; congruence | congruence]).
    cbn in Hret. destruct (Z.eqb_spec rvp 0) as [-> | Hnz].
    + injection Hret as <- <- <-. rewrite app_nil_r.
      split; [exact Hrep|]. split; [exact Hkept|].
      intros _. exists p. split; [congruence|].
      apply orb_false_iff in Hb1 as (Hd & Hu).
      apply Z.eqb_neq in Hd, Hu.
      unfold instanceRegistered. subst p. cbn. repeat split; auto.
    + injection Hret as <- <- <-.
      split; [exact (reportsOutcome_wrap _ _ _ Hrep Hnz)|].
      split; [exact Hkept | discriminate].
  - apply emit_returns_inv in H as (l' & Hret & ->). injection Hret as <- <- <-.
    split; [apply reportsOutcome_error|].
    split; [apply hostsKept_refl | discriminate].
Qed.

(** The registration loop, with its log: when it returns 0, one host has
    been registered per pass, in order. *)
Lemma registerHostInstances_result (name : string) (cfg : ConfigOptions)
    (host : HostOptions) (freq : Z) (n : nat) :
  forall (start : nat) (c c' : Controller) (l : list LogRecord) (rv : Z),
  registerHostInstances n name cfg host freq (Z.of_nat start) c = (l, Returns (rv, c')) ->
  reportsOutcome l rv /\ (hostsKept c c' /\ config c' = config c) /\
  (rv = 0 -> exists added,
     registeredHosts c' = registeredHosts c ++ added /\
     Forall2 (λ k p, instanceRegistered name host freq (Z.of_nat k) p)
             (seq start n) added).
Proof.
  induction n as [|n IH]; intros start c c' l rv H.
  - injection H as <- <- <-. split; [left; auto|].
    split; [apply hostsKept_refl|].
    intros _. exists []. rewrite app_nil_r. split; [reflexivity | constructor].
  - cbn [registerHostInstances] in H.
    apply bind_returns_inv in H as (l1 & [rv1 c1] & l2 & Hstep & Hrest & ->).
    apply registerHostInstance_result in Hstep as (Hrep & Hkept & Hadded).
    cbn in Hrest. destruct (Z.eqb_spec rv1 0) as [-> | Hnz].
    + destruct Hrep as [(_ & ->) | (? & _)]; [|discriminate].
      replace (Z.of_nat start + 1) with (Z.of_nat (S start)) in Hrest by lia.
      apply IH in Hrest as (Hrep' & Hkept' & Hadded').
      split; [exact Hrep'|]. split; [eapply hostsKept_trans; eauto|].
      intros Hz. destruct (Hadded eq_refl) as (p & Hp & Hreg).
      destruct (Hadded' Hz) as (added & Ha & Hall).
      exists (p :: added). split.
      * rewrite Ha, Hp, <- app_assoc. reflexivity.
      * cbn [seq]. constructor; assumption.
    + injection Hrest as <- <- <-. rewrite app_nil_r.
      split; [exact Hrep|]. split; [exact Hkept | contradiction].
Qed.

(** The callback of either pass, with its log. *)
Lemma registerHostCallback_result (flag : bool) (name : string) (cfg : ConfigOptions)
    (host : HostOptions) (c c' : Controller) (l : list LogRecord) (rv : Z) :
  _controller_registerHostCallback flag name cfg host c = (l, Returns (rv, c')) ->
  reportsOutcome l rv /\ (hostsKept c c' /\ config c' = config c) /\
  exists mgr, manager c = Some mgr /\
    (~ inPass flag host -> rv = 0 /\ c' = c) /\
    (inPass flag host -> rv = 0 ->
     (is_Some (hostoptions_getIpAddr host) -> hostoptions_getQuantity host <= 1) /\
     exists added,
       registeredHosts c' = registeredHosts c ++ added /\
       Forall2 (λ k p, instanceRegistered name host
                         (manager_getRawCPUFrequency mgr) (Z.of_nat k) p)
               (seq 0 (Z.to_nat (hostoptions_getQuantity host))) added).
Proof.
  unfold _controller_registerHostCallback, inPass. intros H.
  apply deref_returns_inv in H as (mgr & Hmgr & H). cbv zeta in H.
  set (ipAddrSet := match hostoptions_getIpAddr host with
                    | Some _ => true | None => false end) in *.
  destruct (eqb_spec ipAddrSet flag) as [Hflag | Hflag]; cbn [negb] in H.
  - destruct (ipAddrSet && (1 <? hostoptions_getQuantity host)) eqn:Hamb.
    + injection H as <- <- <-. split; [apply reportsOutcome_error|].
      split; [apply hostsKept_refl|]. exists mgr. split; [exact Hmgr|].
      split; [contradiction | discriminate].
    + apply (registerHostInstances_result name cfg host _ _ O) in H
        as (Hrep & Hkept & Hadded).
      split; [exact Hrep|]. split; [exact Hkept|]. exists mgr. split; [exact Hmgr|].
      split; [contradiction|]. intros _ Hz. split; [|exact (Hadded Hz)].
      intros [X HX]. subst ipAddrSet. rewrite HX in Hamb. cbn in Hamb.
      apply Z.ltb_ge in Hamb. exact Hamb.
  - injection H as <- <- <-. split; [left; auto|].
    split; [apply hostsKept_refl|]. exists mgr. split; [exact Hmgr|].
    split; [auto | contradiction].
Qed.

Lemma instances_hostnames (name : string) (host : HostOptions) (freq : Z)
    (ks : list nat) (added : list HostParameters) :
  Forall2 (λ k p, instanceRegistered name host freq (Z.of_nat k) p) ks added ->
  length added = length ks /\
  map hostname added
    = map (λ k, instanceHostname name (hostoptions_getQuantity host) (Z.of_nat k)) ks /\
  Forall (λ p, cpuFrequency p = Z.max 0 freq /\ cpuThreshold p = 0 /\
               cpuPrecision p = 200 /\
               requestedBwDownBits p <> 0 /\ requestedBwUpBits p <> 0 /\
               (forall X, hostoptions_getIpAddr host = Some X -> ipAddr p = X)) added.
Proof.
  induction 1 as [|k p ks added (Hname & Hrest) _ (Hlen & Hnames & Hall)].
  - repeat split. constructor.
  - cbn. rewrite Hlen, Hnames, Hname. repeat split. constructor; assumption.
Qed.

(** A pass that returns 0 has registered the instances of its entries, in
    declaration order. *)
Lemma registerPass_hostnames (flag : bool) (cfg : ConfigOptions)
    (entries : list (string * HostOptions)) :
  forall (c c' : Controller) (l : list LogRecord),
  iterEntries (λ entry, _controller_registerHostCallback flag (fst entry) cfg (snd entry))
    entries c = (l, Returns (0, c')) ->
  exists added,
    registeredHosts c' = registeredHosts c ++ added /\
    map hostname added = passHostnames flag entries.
Proof.
  unfold passHostnames, passEntries.
  induction entries as [|[name host] entries IH]; intros c c' l H.
  - injection H as <- <-. exists []. now rewrite app_nil_r.
  - cbn [iterEntries fst snd] in H.
    apply bind_returns_inv in H as (l1 & [rv1 c1] & l2 & Hstep & Hrest & ->).
    cbn in Hrest. destruct (Z.eqb_spec rv1 0) as [-> | Hnz];
      [|injection Hrest as _ Hz _; contradiction].
    apply IH in Hrest as (added' & Hadded' & Hnames').
    apply registerHostCallback_result in Hstep as (_ & _ & mgr & _ & Hskip & Hpass).
    rewrite filter_cons. cbn [snd].
    destruct (decide (inPass flag host)) as [Hin | Hout].
    + destruct (Hpass Hin eq_refl) as (_ & added & Hadded & Hall).
      apply instances_hostnames in Hall as (_ & Hnames & _).
      exists (added ++ added'). split.
      * rewrite Hadded', Hadded, app_assoc. reflexivity.
      * cbn [flat_map fst snd]. rewrite map_app, Hnames, Hnames'. reflexivity.
    + destruct (Hskip Hout) as (_ & ->). exists added'. auto.
Qed.

(** ** Fixed addresses and the automatic pool *)

Lemma registers_refl (c : Controller) : registers c [] c.
Proof.
  split; [reflexivity|]. split; [auto|]. split; [now rewrite app_nil_r | constructor].
Qed.

Lemma registers_trans (c1 c2 c3 : Controller) (a1 a2 : list HostParameters) :
  registers c1 a1 c2 -> registers c2 a2 c3 -> registers c1 (a1 ++ a2) c3.
Proof.
  intros (Hc1 & Hb1 & Hh1 & Hf1) (Hc2 & Hb2 & Hh2 & Hf2).
  split; [congruence|]. split; [auto|]. split.
  - rewrite Hh2, Hh1, app_assoc. reflexivity.
  - apply Forall_app. split; [exact Hf1|].
    eapply Forall_impl; [exact Hf2|]. cbn. intros p Hp Hb. apply Hp, Hb1, Hb.
Qed.

(** Registering the processes of a host leaves hosts, addresses and
    configuration as they are. *)
Lemma registerProcesses_keeps (hostname : string) (procs : list ProcessOptions) :
  forall (c c' : Controller) (l : list LogRecord) (rv : Z),
  iterEntries (_controller_registerProcessCallback hostname) procs c
    = (l, Returns (rv, c')) ->
  registeredHosts c' = registeredHosts c /\ config c' = config c /\
  ipAssignment c' = ipAssignment c.
Proof.
  intros c c' l rv H.
  apply (iterEntries_result
           (λ a b, registeredHosts b = registeredHosts a /\ config b = config a /\
                   ipAssignment b = ipAssignment a)) in H as (_ & H); [exact H | auto | |].
  - intros ? ? ? (? & ? & ?) (? & ? & ?). repeat split; congruence.
  - intros proc a la rva b Hcb.
    split; [eapply registerProcessCallback_result; eauto|].
    unfold _controller_registerProcessCallback in Hcb.
    destruct (processoptions_getPath proc) as [plugin|].
    + apply bind_returns_inv in Hcb as (l1 & c1 & l2 & Hadd & Hret & ->).
      injection Hret as _ _ <-.
      apply addVirtualProcesses_result in Hadd as (_ & Hcfg & Hipa & _ & Hhosts & _).
      auto.
    + injection Hcb as _ _ <-. auto.
Qed.

(** One pass of the registration loop: at most one host is registered, under
    the instance's name and a fresh address, the entry's own when it fixes
    one; after a return of 0 that address is bound. *)
Lemma registerHostInstance_registers (name : string) (cfg : ConfigOptions)
    (host : HostOptions) (freq i : Z) (c c' : Controller) (l : list LogRecord) (rv : Z) :
  registerHostInstance name cfg host freq i c = (l, Returns (rv, c')) ->
  exists added,
    registers c added c' /\
    Forall (λ p, hostname p = instanceHostname name (hostoptions_getQuantity host) i /\
                 (forall X, hostoptions_getIpAddr host = Some X -> ipAddr p = X)) added /\
    (rv = 0 -> forall X, hostoptions_getIpAddr host = Some X -> addressAssigned X c').
Proof.
  unfold registerHostInstance. intros H.
  apply deref_returns_inv in H as (ipa & Hipa & H).
  destruct (assignAddress host ipa) as [[ip ipa']|] eqn:Hassign.
  - destruct (assignAddress_spec _ _ _ _ Hassign) as (Hfree & _ & Hbind & Hfixed).
    set (c1 := set_ipAssignment (Some ipa') c) in *.
    assert (Hfresh : ~ addressAssigned ip c).
    { intros (ipa0 & Hipa0 & Hsome). rewrite Hipa in Hipa0. injection Hipa0 as <-.
      rewrite Hfree in Hsome. destruct Hsome as [? [=]]. }
    assert (Hkeep : forall X, addressAssigned X c -> addressAssigned X c1).
    { intros X (ipa0 & Hipa0 & Hsome). rewrite Hipa in Hipa0. injection Hipa0 as <-.
      exists ipa'. split; [reflexivity|]. rewrite Hbind.
      apply lookup_insert_is_Some. destruct (decide (ip = X)); auto. }
    assert (Hbound : addressAssigned ip c1).
    { exists ipa'. split; [reflexivity|]. rewrite Hbind, lookup_insert_eq. eauto. }
    assert (Hreg1 : registers c [] c1).
    { split; [reflexivity|]. split; [exact Hkeep|].
      split; [now rewrite app_nil_r | constructor]. }
    apply deref_returns_inv in H as (g & Hg & H). cbv zeta in H.
    cbn [hostname requestedBwDownBits requestedBwUpBits] in H.
    assert (Herr : forall msg,
              (_ ← error msg; mret (-1, c1)) = (l, Returns (rv, c')) ->
              exists added,
                registers c added c' /\
                Forall (λ p, hostname p
                               = instanceHostname name (hostoptions_getQuantity host) i /\
                             (forall X, hostoptions_getIpAddr host = Some X ->
                                        ipAddr p = X)) added /\
                (rv = 0 -> forall X, hostoptions_getIpAddr host = Some X ->
                                     addressAssigned X c')).
    { intros msg [= <- <- <-]. exists []. split; [exact Hreg1|].
      split; [constructor | discriminate]. }
    repeat match type of H with
    | (if ?b then (_ ← error ?msg; mret (-1, c1)) else _) = _ =>
        let Hb := fresh "Hb" in
        destruct b eqn:Hb; [exact (Herr msg H)|]
    end.
    clear Herr.
    apply deref_returns_inv in H as (mgr & Hmgr & H).
    match type of H with
    | context [manager_addNewVirtualHost mgr ?params] =>
        set (p := params) in *;
        set (c2 := set_manager (Some (manager_addNewVirtualHost mgr p)) c1) in *
    end.
    assert (Hhosts2 : registeredHosts c2 = registeredHosts c ++ [p]).
    { assert (Hmgr0 : manager c = Some mgr) by exact Hmgr.
      unfold registeredHosts. cbn. rewrite Hmgr0. reflexivity. }
    apply bind_returns_inv in H as (l1 & [rvp c3] & l2 & Hprocs & Hret & ->).
    apply registerProcesses_keeps in Hprocs as (Hhosts3 & Hcfg3 & Hipa3).
    assert (Hsame : forall X, addressAssigned X c1 -> addressAssigned X c3).
    { intros X (ipa0 & Hipa0 & Hsome). exists ipa0. split; [|exact Hsome].
      rewrite Hipa3. exact Hipa0. }
    assert (Hreg3 : registers c [p] c3).
    { split; [rewrite Hcfg3; reflexivity|]. split; [auto|].
      split; [congruence|]. constructor; [exact Hfresh | constructor]. }
    assert (Hp : hostname p = instanceHostname name (hostoptions_getQuantity host) i /\
                 (forall X, hostoptions_getIpAddr host = Some X -> ipAddr p = X))
      by (split; [reflexivity | exact Hfixed]).
    assert (Hrv : c' = c3).
    { cbn in Hret. destruct (rvp =? 0); injection Hret as _ _ <-; reflexivity. }
    subst c'. exists [p]. split; [exact Hreg3|].
    split; [constructor; [exact Hp | constructor]|].
    intros _ X HX. apply Hsame. rewrite <- (Hfixed X HX). exact Hbound.
  - apply emit_returns_inv in H as (l' & Hret & ->). injection Hret as <- <- <-.
    exists []. split; [apply registers_refl|]. split; [constructor | discriminate].
Qed.

(** The registration loop: every host it registers is an instance of the
    entry; after a return of 0 with at least one pass, the entry's fixed
    address is bound. *)
Lemma registerHostInstances_registers (name : string) (cfg : ConfigOptions)
    (host : HostOptions) (freq : Z) (n : nat) :
  forall (start : nat) (c c' : Controller) (l : list LogRecord) (rv : Z),
  (start + n <= Z.to_nat (hostoptions_getQuantity host))%nat ->
  registerHostInstances n name cfg host freq (Z.of_nat start) c = (l, Returns (rv, c')) ->
  exists added,
    registers c added c' /\
    Forall (instanceOf name host) added /\
    (rv = 0 -> (1 <= n)%nat ->
     forall X, hostoptions_getIpAddr host = Some X -> addressAssigned X c').
Proof.
  induction n as [|n IH]; intros start c c' l rv Hle H.
  - injection H as <- <- <-. exists []. split; [apply registers_refl|].
    split; [constructor | lia].
  - cbn [registerHostInstances] in H.
    apply bind_returns_inv in H as (l1 & [rv1 c1] & l2 & Hstep & Hrest & ->).
    apply registerHostInstance_registers in Hstep as (a1 & Hreg1 & Hall1 & Hbound1).
    assert (Hinst : Forall (instanceOf name host) a1).
    { eapply Forall_impl; [exact Hall1|]. cbn. intros p (Hname & Hfixed).
      split; [|exact Hfixed]. rewrite Hname. unfold instanceHostnames.
      apply list_elem_of_fmap. exists start. split; [reflexivity|].
      apply elem_of_seq. lia. }
    cbn in Hrest. destruct (Z.eqb_spec rv1 0) as [-> | Hnz].
    + replace (Z.of_nat start + 1) with (Z.of_nat (S start)) in Hrest by lia.
      apply IH in Hrest as (a2 & Hreg2 & Hall2 & _); [|lia].
      exists (a1 ++ a2). split; [eapply registers_trans; eauto|].
      split; [apply Forall_app; auto|].
      intros _ _ X HX. destruct Hreg2 as (_ & Hkeep & _). apply Hkeep.
      exact (Hbound1 eq_refl X HX).
    + injection Hrest as <- <- <-. exists a1. split; [exact Hreg1|].
      split; [exact Hinst | contradiction].
Qed.

(** The callback of either pass: what it registers are instances of its
    entry, which then belongs to the pass. *)
Lemma registerHostCallback_registers_instances (flag : bool) (name : string)
    (cfg : ConfigOptions) (host : HostOptions) (c c' : Controller)
    (l : list LogRecord) (rv : Z) :
  _controller_registerHostCallback flag name cfg host c = (l, Returns (rv, c')) ->
  exists added,
    registers c added c' /\
    Forall (λ p, inPass flag host /\ instanceOf name host p) added /\
    (rv = 0 -> inPass flag host -> 1 <= hostoptions_getQuantity host ->
     forall X, hostoptions_getIpAddr host = Some X -> addressAssigned X c').
Proof.
  unfold _controller_registerHostCallback, inPass. intros H.
  apply deref_returns_inv in H as (mgr & Hmgr & H). cbv zeta in H.
  set (ipAddrSet := match hostoptions_getIpAddr host with
                    | Some _ => true | None => false end) in *.
  destruct (eqb_spec ipAddrSet flag) as [Hflag | Hflag]; cbn [negb] in H.
  - destruct (ipAddrSet && (1 <? hostoptions_getQuantity host)) eqn:Hamb.
    + injection H as <- <- <-. exists []. split; [apply registers_refl|].
      split; [constructor | discriminate].
    + apply (registerHostInstances_registers name cfg host _ _ O) in H
        as (added & Hreg & Hall & Hbound); [|lia].
      exists added. split; [exact Hreg|]. split.
      * eapply Forall_impl; [exact Hall|]. cbn. auto.
      * intros Hz _ Hq. apply (Hbound Hz). lia.
  - injection H as <- <- <-. exists []. split; [apply registers_refl|].
    split; [constructor | contradiction].
Qed.

Lemma registeredFor_cons (flag : bool) (entry : string * HostOptions)
    (entries : list (string * HostOptions)) (p : HostParameters) :
  registeredFor flag entries p -> registeredFor flag (entry :: entries) p.
Proof.
  intros (name & host & Hin & Hpass & Hinst).
  exists name, host. split; [now apply list_elem_of_further | auto].
Qed.

(** A pass: what it registers are instances of its entries; after a return
    of 0 the fixed address of every entry of the pass that has an instance
    is bound. *)
Lemma registerPass_registers (flag : bool) (cfg : ConfigOptions)
    (entries : list (string * HostOptions)) :
  forall (c c' : Controller) (l : list LogRecord) (rv : Z),
  iterEntries (λ entry, _controller_registerHostCallback flag (fst entry) cfg (snd entry))
    entries c = (l, Returns (rv, c')) ->
  exists added,
    registers c added c' /\
    Forall (registeredFor flag entries) added /\
    (rv = 0 -> forall name host X,
       (name, host) ∈ entries -> inPass flag host ->
       1 <= hostoptions_getQuantity host -> hostoptions_getIpAddr host = Some X ->
       addressAssigned X c').
Proof.
  induction entries as [|[name host] entries IH]; intros c c' l rv H.
  - injection H as <- <- <-. exists []. split; [apply registers_refl|].
    split; [constructor|]. intros _ ? ? ? Hin. inversion Hin.
  - cbn [iterEntries fst snd] in H.
    apply bind_returns_inv in H as (l1 & [rv1 c1] & l2 & Hstep & Hrest & ->).
    apply registerHostCallback_registers_instances in Hstep
      as (a1 & Hreg1 & Hall1 & Hbound1).
    assert (Hfor1 : Forall (registeredFor flag ((name, host) :: entries)) a1).
    { eapply Forall_impl; [exact Hall1|]. cbn. intros p (Hpass & Hinst).
      exists name, host. split; [apply list_elem_of_here | auto]. }
    cbn in Hrest. destruct (Z.eqb_spec rv1 0) as [-> | Hnz].
    + apply IH in Hrest as (a2 & Hreg2 & Hall2 & Hbound2).
      exists (a1 ++ a2). split; [eapply registers_trans; eauto|]. split.
      * apply Forall_app. split; [exact Hfor1|].
        eapply Forall_impl; [exact Hall2|]. apply registeredFor_cons.
      * intros Hz n h X Hin Hpass Hq HX.
        apply elem_of_cons in Hin as [Heq | Hin].
        -- injection Heq as -> ->. destruct Hreg2 as (_ & Hkeep & _).
           apply Hkeep. exact (Hbound1 eq_refl Hpass Hq X HX).
        -- exact (Hbound2 Hz n h X Hin Hpass Hq HX).
    + injection Hrest as <- <- <-. exists a1. split; [exact Hreg1|].
      split; [exact Hfor1 | contradiction].
Qed.

(** A pass over [pre ++ post] that returns 0 is a pass over [pre] followed
    by a pass over [post], both returning 0. *)
Lemma iterEntries_app {A : Type} (callback : A -> Controller -> M (Z * Controller))
    (pre post : list A) :
  forall (c c' : Controller) (l : list LogRecord),
  iterEntries callback (pre ++ post) c = (l, Returns (0, c')) ->
  exists l1 c1 l2,
    iterEntries callback pre c = (l1, Returns (0, c1)) /\
    iterEntries callback post c1 = (l2, Returns (0, c')).
Proof.
  induction pre as [|e pre IH]; intros c c' l H.
  - exists [], c, l. split; [reflexivity | exact H].
  - cbn [app iterEntries] in H.
    apply bind_returns_inv in H as (l1 & [rv1 c1] & l2 & Hstep & Hrest & ->).
    cbn in Hrest. destruct (Z.eqb_spec rv1 0) as [-> | Hnz];
      [|injection Hrest as _ Hz _; contradiction].
    apply IH in Hrest as (l3 & c2 & l4 & Hpre & Hpost).
    exists (l1 ++ l3), c2, l4. split; [|exact Hpost].
    cbn [iterEntries]. eapply bind_returns_intro; [exact Hstep|].
    cbn. exact Hpre.
Qed.

(** C4 (amended). Registration runs two passes: the first registers the
    entries whose address is fixed, the second the others. Let [H1] fix the
    address [X] and have at least one instance, and let [H2] fix none.
    Wherever the two are declared and whatever [_controller_registerHosts]
    returns, the hosts it has registered are instances of entries with a
    fixed address, each under its entry's own address, followed by
    instances of entries without one, and none of the latter has the
    address [X]. When it returns 0, the latter contain the instances of
    [H2], all of them, in their place among the automatic hosts. *)
Theorem fixed_address_not_reallocated (c : Controller)
    (pre post : list (string * HostOptions)) (name1 name2 : string)
    (H1 H2 : HostOptions) (X : in_addr_t) :
  config_hosts (config c) = pre ++ (name2, H2) :: post ->
  (name1, H1) ∈ config_hosts (config c) ->
  hostoptions_getIpAddr H1 = Some X ->
  1 <= hostoptions_getQuantity H1 ->
  hostoptions_getIpAddr H2 = None ->
  forall l rv c',
  _controller_registerHosts c = (l, Returns (rv, c')) ->
  exists fixed auto,
    registeredHosts c' = registeredHosts c ++ fixed ++ auto /\
    Forall (registeredFor true (config_hosts (config c))) fixed /\
    Forall (λ p, registeredFor false (config_hosts (config c)) p /\ ipAddr p <> X) auto /\
    (rv = 0 ->
     exists before own after,
       auto = before ++ own ++ after /\
       map hostname before = passHostnames false pre /\
       map hostname own = instanceHostnames name2 (hostoptions_getQuantity H2) /\
       map hostname after = passHostnames false post /\
       Forall (λ p, ipAddr p <> X) own).
Proof.
  intros Hhosts Hin HX Hq HnoIp l rv c' H.
  unfold _controller_registerHosts, config_iterHosts in H.
  apply bind_returns_inv in H as (l1 & [rv1 c1] & l2 & Hpass1 & Hrest & ->).
  apply registerPass_registers in Hpass1 as (fixed & Hreg1 & Hfor1 & Hbound1).
  cbn in Hrest. destruct (Z.eqb_spec rv1 0) as [-> | Hnz1]; cbn [negb] in Hrest.
  - assert (HboundX : addressAssigned X c1).
    { apply (Hbound1 eq_refl name1 H1 X Hin); [|exact Hq | exact HX].
      unfold inPass. now rewrite HX. }
    assert (Hcfg : config c1 = config c) by apply Hreg1.
    rewrite Hcfg in Hrest.
    apply bind_returns_inv in Hrest as (l3 & [rv2 c2] & l4 & Hpass2 & Hret & ->).
    pose proof Hpass2 as Hpass2'.
    apply registerPass_registers in Hpass2' as (auto & Hreg2 & Hfor2 & _).
    assert (Hc' : c' = c2).
    { cbn in Hret. destruct (rv2 =? 0); injection Hret as _ _ <-; reflexivity. }
    subst c'.
    assert (HnotX : Forall (λ p, ipAddr p <> X) auto).
    { destruct Hreg2 as (_ & _ & _ & Hfresh).
      eapply Forall_impl; [exact Hfresh|]. cbn. intros p Hp Heq. apply Hp. rewrite Heq. exact HboundX. }
    exists fixed, auto. split; [|split; [exact Hfor1 | split]].
    + destruct Hreg1 as (_ & _ & Hh1 & _). destruct Hreg2 as (_ & _ & Hh2 & _).
      rewrite Hh2, Hh1, app_assoc. reflexivity.
    + apply Forall_forall. intros p Hp. split.
      * exact (proj1 (Forall_forall _ _) Hfor2 p Hp).
      * exact (proj1 (Forall_forall _ _) HnotX p Hp).
    + intros ->.
      assert (Hrv2 : rv2 = 0).
      { cbn in Hret. destruct (Z.eqb_spec rv2 0); [assumption | discriminate]. }
      subst rv2. rewrite Hhosts in Hpass2.
      apply iterEntries_app in Hpass2 as (la & ca & lb & Hpre & Hpost).
      cbn [iterEntries fst snd] in Hpost.
      apply bind_returns_inv in Hpost as (lc & [rvo co] & ld & Hown & Hpost & _).
      cbn in Hpost. destruct (Z.eqb_spec rvo 0) as [-> | Hnz];
        [|injection Hpost as _ Hz _; contradiction].
      apply registerPass_hostnames in Hpre as (before & Hbefore & Hnb).
      apply registerPass_hostnames in Hpost as (after & Hafter & Hna).
      apply registerHostCallback_result in Hown as (_ & _ & mgr & _ & _ & Hown).
      destruct Hown as (_ & own & Hown & Hall); [unfold inPass; now rewrite HnoIp | reflexivity |].
      apply instances_hostnames in Hall as (_ & Hno & _).
      assert (Hauto : auto = before ++ own ++ after).
      { destruct Hreg2 as (_ & _ & Hh2 & _).
        rewrite Hafter, Hown, Hbefore, <- !app_assoc in Hh2.
        apply app_inv_head in Hh2. symmetry. exact Hh2. }
      exists before, own, after. split; [exact Hauto|].
      split; [exact Hnb|]. split; [exact Hno|]. split; [exact Hna|].
      rewrite Hauto in HnotX.
      apply Forall_app in HnotX as (_ & HnotX).
      apply Forall_app in HnotX as (HnotX & _). exact HnotX.
  - injection Hrest as <- <- <-.
    exists fixed, []. rewrite app_nil_r.
    split; [apply Hreg1|]. split; [exact Hfor1|]. split; [constructor|].
    intros [=].
Qed.

(** Scenario S3 run on the code, with the pool's first word equal to the
    fixed address 10.0.0.5: registration returns 0, the host of [A] comes
    first, and the two instances of [B], declared before [A], receive the
    next two words of the pool. *)
Lemma fixed_address_not_reallocated_witness :
  let X := 167772165 in
  let H1 := sampleHost 1 (Some X) None in
  let H2 := sampleHost 2 None None in
  let c := registrationController [("B"%string, H2); ("A"%string, H1)] (Some 1000000)
             [X; 184549377; 184549378] in
  exists c' fixed auto,
    returns (_controller_registerHosts c) (0, c') /\
    registeredHosts c' = registeredHosts c ++ fixed ++ auto /\
    Forall (registeredFor true (config_hosts (config c))) fixed /\
    Forall (λ p, registeredFor false (config_hosts (config c)) p /\ ipAddr p <> X) auto /\
    map hostname auto = ["B1"; "B2"]%string.
Proof.
  cbv zeta.
  match goal with
  | |- exists c' fixed auto, returns (_controller_registerHosts ?c) _ /\ _ =>
      let r := eval vm_compute in (_controller_registerHosts c) in
      match r with
      | (?l, Returns (?rv, ?c')) =>
          destruct (fixed_address_not_reallocated c
                      [] [("A"%string, sampleHost 1 (Some 167772165) None)] "A" "B"
                      (sampleHost 1 (Some 167772165) None) (sampleHost 2 None None)
                      167772165
                      eq_refl
                      ltac:(apply list_elem_of_further, list_elem_of_here)
                      eq_refl ltac:(simpl; lia) eq_refl
                      l rv c' ltac:(vm_compute; reflexivity))
            as (fixed & auto & Hhosts & Hfixed & Hauto & Hown);
          destruct (Hown eq_refl) as (before & own & after & Heq & Hnb & Hno & Hna & _);
          exists c', fixed, auto;
          split; [vm_compute; reflexivity|];
          split; [exact Hhosts|]; split; [exact Hfixed|]; split; [exact Hauto|];
          rewrite Heq, !map_app, Hnb, Hno, Hna; vm_compute; reflexivity
      end
  end.
Defined.

(** C4 as stated fails for an entry that fixes an address but has no
    instance: with [A] fixing 10.0.0.5 at quantity 0 and the pool's first
    word being 10.0.0.5, registration succeeds and the only host
    registered, the instance of [B], has the address 10.0.0.5. *)
Lemma fixed_address_not_reallocated_counterexample :
  let X := 167772165 in
  let H1 := sampleHost 0 (Some X) None in
  let H2 := sampleHost 1 None None in
  let c := registrationController [("A"%string, H1); ("B"%string, H2)] (Some 1000000)
             [X; 184549377] in
  hostoptions_getIpAddr H1 = Some X /\
  hostoptions_getIpAddr H2 = None /\
  exists c',
    returns (_controller_registerHosts c) (0, c') /\
    map (λ p, (hostname p, ipAddr p)) (registeredHosts c') = [("B"%string, X)].
Proof.
  cbv zeta. split; [reflexivity|]. split; [reflexivity|].
  eexists. split; reflexivity.
Qed.

(** * Further properties of the controller *)

(** ** Progress and termination of the rounds *)

Lemma getMinTimeJump_lt (c : Controller) :
  u64 (minJumpTime c) -> u64 (minJumpTimeConfig c) ->
  _controller_getMinTimeJump c < 2 ^ 64.
Proof.
  unfold u64. intros Hm Hc. rewrite getMinTimeJump_max.
  change (10 * SIMTIME_ONE_MILLISECOND) with 10000000.
  destruct (0 <? minJumpTime c); lia.
Qed.

Lemma jumpFields64_committed (c : Controller) :
  jumpFields64 c -> jumpFields64 (committed c).
Proof.
  intros (Hm & Hn & Hc).
  destruct (committed_fields c) as (_ & Hc' & Hn' & Hm').
  unfold jumpFields64. rewrite Hc', Hn', Hm'.
  destruct (nextMinJumpTime c =? 0); auto.
Qed.

Lemma jumpFields64_round (c : Controller) (t : SimulationTime) :
  jumpFields64 c ->
  jumpFields64 (round_controller (controller_managerFinishedCurrentRound c t)).
Proof.
  intros H. apply jumpFields64_committed in H as (Hm & Hn & Hc).
  destruct (round_fields c t) as (_ & Hc' & Hn' & Hm' & _). cbv zeta in *.
  destruct (committed_fields c) as (_ & Hc'' & Hn'' & _).
  unfold jumpFields64. rewrite Hc', Hn', Hm'. rewrite <- Hc'', <- Hn''. auto.
Qed.

(** X1. When the 64-bit sum does not wrap, a round keeps running exactly
    when [minNextEventTime] lies before [endTime]; the new window is then
    not empty and as wide as the lookahead or the time left to [endTime],
    whichever is smaller. From [endTime] on the window end is [endTime]. *)
Theorem round_keeps_running_iff (c : Controller) (t : SimulationTime) :
  let r := controller_managerFinishedCurrentRound c t in
  let J := _controller_getMinTimeJump (round_controller r) in
  0 <= t ->
  t + J < 2 ^ 64 ->
  (keepRunning r = true <-> t < endTime c) /\
  (t < endTime c ->
     t < out_executeWindowEnd r /\
     out_executeWindowEnd r - out_executeWindowStart r = Z.min J (endTime c - t)) /\
  (endTime c <= t -> out_executeWindowEnd r = endTime c).
Proof.
  intros r J. subst J r. rewrite round_jump.
  pose proof (getMinTimeJump_pos (committed c)) as Hpos.
  set (J := _controller_getMinTimeJump (committed c)) in *.
  intros Ht Hsmall. rewrite round_unfold. cbv zeta.
  cbn [keepRunning out_executeWindowStart out_executeWindowEnd].
  rewrite wrap64_small by lia.
  split; [|split].
  - rewrite Z.ltb_lt. lia.
  - intros Hlt. lia.
  - intros Hge. lia.
Qed.

Lemma round_keeps_running_iff_witness :
  let r := controller_managerFinishedCurrentRound (sampleController 0 (ms 100) 1) (ms 95) in
  (keepRunning r = true <-> ms 95 < ms 100) /\
  out_executeWindowEnd r - out_executeWindowStart r = ms 5.
Proof.
  destruct (round_keeps_running_iff (sampleController 0 (ms 100) 1) (ms 95))
    as (Hiff & Hwidth & _); [vm_compute; congruence | vm_compute; reflexivity |].
  cbv zeta. split; [exact Hiff|].
  destruct Hwidth as (_ & Hw); [vm_compute; reflexivity|]. exact Hw.
Defined.

(** A run in which every round keeps running has advanced by one full
    lookahead per round. *)
Lemma running_rounds_advance (reports : list SimulationTime) :
  forall (c : Controller) (t : SimulationTime),
  jumpFields64 c ->
  respectsContract c (t :: reports) ->
  Forall (λ r, keepRunning r = true) (finishRounds c (t :: reports)) ->
  t + Z.of_nat (length reports) * _controller_getMinTimeJump (committed c) < endTime c.
Proof.
  induction reports as [|t2 reports IH]; intros c t H64 Hcontract Hlive.
  - cbn [finishRounds] in Hlive. apply Forall_cons in Hlive as (Hkeep & _).
    rewrite round_unfold in Hkeep. cbv zeta in Hkeep. cbn [keepRunning] in Hkeep.
    apply Z.ltb_lt in Hkeep. simpl. lia.
  - destruct Hcontract as (Ht & _ & Hcontract).
    cbn [finishRounds] in Hlive. apply Forall_cons in Hlive as (Hkeep & Hlive).
    pose proof (jumpFields64_committed c H64) as (Hm & _ & Hc).
    pose proof (getMinTimeJump_lt _ Hm Hc) as HJlt.
    pose proof (getMinTimeJump_pos (committed c)) as HJpos.
    pose proof (round_jump c t) as HJ.
    destruct (round_fields c t) as (HE & _ & _ & _ & Hid). cbv zeta in HE, Hid.
    specialize (IH _ t2 (jumpFields64_round c t H64) Hcontract Hlive).
    rewrite Hid, HJ, HE in IH.
    destruct Hcontract as (_ & Hge & _).
    rewrite round_unfold in Hkeep, Hge. cbv zeta in Hkeep, Hge.
    cbn [keepRunning round_controller] in Hkeep, Hge. simpl in Hge.
    apply Z.ltb_lt in Hkeep.
    set (J := _controller_getMinTimeJump (committed c)) in *.
    assert (Hw : wrap64 (t + J) = t + J).
    { destruct (Z.lt_ge_cases (t + J) (2 ^ 64)) as [Hs | Hb].
      - apply wrap64_small. unfold u64 in Ht. lia.
      - exfalso. unfold wrap64 in Hkeep.
        assert ((t + J) mod 2 ^ 64 = t + J - 2 ^ 64).
        { symmetry. apply Z.mod_unique with (q := 1); unfold u64 in Ht; lia. }
        unfold u64 in Ht. lia. }
    rewrite Hw in *.
    assert (0 <= Z.of_nat (length reports) * J) by nia.
    cbn [length]. lia.
Qed.

(** X2. Rounds with no lookahead update in between: take [n] successive
    calls of [controller_managerFinishedCurrentRound] with no call of
    [controller_updateMinTimeJump] between them, so that the lookahead that
    the first call commits is the lookahead of every one of them. Under the
    workers' contract, if all [n] calls have returned TRUE, then [(n - 1)]
    such lookaheads fit before [endTime]; a run of this kind has at most
    [endTime / lookahead + 1] calls that return TRUE. (Updates between the
    rounds change the lookahead from round to round; X14 covers them.) *)
Theorem running_rounds_bounded (c : Controller) (reports : list SimulationTime) :
  jumpFields64 c ->
  respectsContract c reports ->
  Forall (λ r, keepRunning r = true) (finishRounds c reports) ->
  reports <> [] ->
  (Z.of_nat (length reports) - 1) * _controller_getMinTimeJump (committed c) < endTime c.
Proof.
  intros H64 Hcontract Hlive Hne.
  destruct reports as [|t reports]; [contradiction|].
  pose proof (running_rounds_advance reports c t H64 Hcontract Hlive) as H.
  destruct Hcontract as ((Ht0 & _) & _).
  cbn [length]. lia.
Qed.

Lemma running_rounds_bounded_witness :
  (Z.of_nat (length [ms 30; ms 60; ms 90]) - 1) * ms 30 < ms 100.
Proof.
  apply (running_rounds_bounded
           (set_minJumpTime (ms 30) (sampleController 0 (ms 100) 1))
           [ms 30; ms 60; ms 90]).
  - repeat split; vm_compute; congruence.
  - simpl. unfold u64. vm_compute. intuition congruence.
  - repeat constructor.
  - discriminate.
Defined.

(** ** Observations of the topology minimum *)

(** What a returning [controller_updateMinTimeJump] has done. *)
Lemma updateMinTimeJump_returns (c c' : Controller) (d : gdouble) :
  returns (controller_updateMinTimeJump c d) c' ->
  exists whole,
    double_to_guint64 d = Some whole /\
    let ns := wrap64 (whole * SIMTIME_ONE_MILLISECOND) in
    ((nextMinJumpTime c = 0 \/ ns < nextMinJumpTime c) /\ 0 < ns /\
     c' = set_nextMinJumpTime ns c /\
     controller_updateMinTimeJump c d
       = ([(LOGLEVEL_DEBUG,
            MsgUpdatedMinTimeJump (nextMinJumpTime c) ns
              (0 <? minJumpTimeConfig c) (minJumpTimeConfig c))], Returns c'))
    \/
    (nextMinJumpTime c <> 0 /\ nextMinJumpTime c <= ns /\ c' = c /\
     controller_updateMinTimeJump c d = ([], Returns c')).
Proof.
  unfold returns, controller_updateMinTimeJump.
  destruct (double_to_guint64 d) as [whole|]; [|discriminate].
  intros H. exists whole. split; [reflexivity|]. cbv zeta.
  set (ns := wrap64 (whole * SIMTIME_ONE_MILLISECOND)) in *.
  destruct (Z.eqb_spec (nextMinJumpTime c) 0) as [Hz | Hnz];
    [|destruct (Z.ltb_spec ns (nextMinJumpTime c)) as [Hlt | Hge]]; cbn [orb] in *.
  - left. destruct (Z.ltb_spec 0 ns); [|discriminate].
    cbn in H. injection H as <-. cbn. auto.
  - left. destruct (Z.ltb_spec 0 ns); [|discriminate].
    cbn in H. injection H as <-. cbn. auto.
  - right. cbn in H. injection H as <-. auto.
Qed.

(** X3. A call of [controller_updateMinTimeJump] that returns touches only
    [nextMinJumpTime]: the lookahead in effect and the stored window stay as
    they were. Afterwards [nextMinJumpTime] is positive, and it is never
    larger than a value that was already set. The call logs exactly when
    it changes the value, and then one DEBUG record. *)
Theorem updateMinTimeJump_only_lowers (c c' : Controller) (d : gdouble) :
  u64 (nextMinJumpTime c) ->
  returns (controller_updateMinTimeJump c d) c' ->
  _controller_getMinTimeJump c' = _controller_getMinTimeJump c /\
  minJumpTime c' = minJumpTime c /\
  executeWindowStart c' = executeWindowStart c /\
  executeWindowEnd c' = executeWindowEnd c /\
  endTime c' = endTime c /\
  0 < nextMinJumpTime c' /\
  (nextMinJumpTime c <> 0 -> nextMinJumpTime c' <= nextMinJumpTime c) /\
  (logOf (controller_updateMinTimeJump c d) = [] <->
   nextMinJumpTime c' = nextMinJumpTime c) /\
  (length (logOf (controller_updateMinTimeJump c d)) <= 1)%nat /\
  Forall (λ record, fst record = LOGLEVEL_DEBUG)
    (logOf (controller_updateMinTimeJump c d)).
Proof.
  intros H64 Hret.
  destruct (updateMinTimeJump_returns c c' d Hret)
    as (whole & _ & [(Hcond & Hpos & -> & Hrun) | (Hnz & Hge & -> & Hrun)]);
    rewrite Hrun; cbn [logOf fst length].
  - repeat split; try reflexivity; cbn [nextMinJumpTime set_nextMinJumpTime].
    + exact Hpos.
    + intros Hnz. lia.
    + discriminate.
    + intros Heq. exfalso. lia.
    + constructor; [reflexivity | constructor].
  - unfold u64 in H64. repeat split; try reflexivity; try constructor; lia.
Qed.

Lemma updateMinTimeJump_only_lowers_witness :
  exists c',
    returns (controller_updateMinTimeJump
               (set_nextMinJumpTime (ms 5) (sampleController 0 (ms 1000) 1))
               gdouble_2_5) c' /\
    nextMinJumpTime c' = ms 2 /\
    _controller_getMinTimeJump c' = ms 10.
Proof.
  eexists. split; [reflexivity|]. split; [reflexivity|].
  match goal with
  | |- _controller_getMinTimeJump ?c' = _ =>
      rewrite (proj1 (updateMinTimeJump_only_lowers
                 (set_nextMinJumpTime (ms 5) (sampleController 0 (ms 1000) 1)) c'
                 gdouble_2_5 ltac:(vm_compute; split; congruence) eq_refl))
  end.
  reflexivity.
Defined.

(** X4. An observation takes effect at the next window boundary only: after
    a returning [controller_updateMinTimeJump] the lookahead is unchanged,
    and the next [controller_managerFinishedCurrentRound] commits the
    observed value, so that the lookahead becomes the larger of that value
    and the configured runahead. *)
Theorem observation_commits_at_next_round (c c1 : Controller) (d : gdouble)
    (t : SimulationTime) :
  u64 (nextMinJumpTime c) ->
  returns (controller_updateMinTimeJump c d) c1 ->
  let c2 := round_controller (controller_managerFinishedCurrentRound c1 t) in
  _controller_getMinTimeJump c1 = _controller_getMinTimeJump c /\
  minJumpTime c2 = nextMinJumpTime c1 /\
  _controller_getMinTimeJump c2 = Z.max (nextMinJumpTime c1) (minJumpTimeConfig c).
Proof.
  intros H64 Hret c2.
  assert (Hfacts : _controller_getMinTimeJump c1 = _controller_getMinTimeJump c /\
                   minJumpTimeConfig c1 = minJumpTimeConfig c /\
                   0 < nextMinJumpTime c1).
  { destruct (updateMinTimeJump_returns c c1 d Hret)
      as (whole & _ & [(_ & Hpos & -> & _) | (Hnz & _ & -> & _)]).
    - repeat split. exact Hpos.
    - unfold u64 in H64. repeat split. lia. }
  destruct Hfacts as (Hjump & Hcfg & Hpos).
  split; [exact Hjump|].
  destruct (round_fields c1 t) as (_ & Hc2 & _ & Hm2 & _). cbv zeta in Hc2, Hm2.
  destruct (committed_fields c1) as (_ & _ & _ & Hm).
  assert (Hmin : minJumpTime c2 = nextMinJumpTime c1).
  { subst c2. rewrite Hm2, Hm.
    destruct (Z.eqb_spec (nextMinJumpTime c1) 0); [lia | reflexivity]. }
  split; [exact Hmin|].
  subst c2. rewrite getMinTimeJump_max, Hmin, Hc2, Hcfg.
  destruct (Z.ltb_spec 0 (nextMinJumpTime c1)); [reflexivity | lia].
Qed.

Lemma observation_commits_at_next_round_witness :
  exists c1,
    returns (controller_updateMinTimeJump (sampleController (ms 5) (ms 1000) 1)
               gdouble_2_0) c1 /\
    _controller_getMinTimeJump c1 = ms 10 /\
    _controller_getMinTimeJump
      (round_controller (controller_managerFinishedCurrentRound c1 (ms 10))) = ms 5.
Proof.
  eexists. split; [reflexivity|].
  match goal with
  | |- _controller_getMinTimeJump ?c1 = _ /\ _ =>
      destruct (observation_commits_at_next_round
                  (sampleController (ms 5) (ms 1000) 1) c1 gdouble_2_0 (ms 10)
                  ltac:(vm_compute; split; congruence) eq_refl) as (H1 & _ & H3)
  end.
  split; [rewrite H1; reflexivity | rewrite H3; reflexivity].
Defined.

(** ** Rounds with lookahead updates in between *)








(** ** The initial window *)

(** X5. [_controller_initializeTimeWindows] takes [endTime] and
    [bootstrapEndTime] from the configuration and opens a non-empty window
    at 0: with workers it ends at the lookahead, whatever [endTime] is, so
    it ends after [endTime] whenever the stop time is smaller than the
    lookahead; without workers it ends at 2^64 - 1. The lookahead fields are
    left as they are. *)
Theorem initializeTimeWindows_window (c : Controller) :
  let c' := _controller_initializeTimeWindows c in
  endTime c' = config_getStopTime (config c) /\
  bootstrapEndTime c' = config_getBootstrapEndTime (config c) /\
  executeWindowStart c' = 0 /\
  executeWindowStart c' < executeWindowEnd c' /\
  _controller_getMinTimeJump c' = _controller_getMinTimeJump c /\
  nextMinJumpTime c' = nextMinJumpTime c /\
  (0 < config_getWorkers (config c) ->
     executeWindowEnd c' = _controller_getMinTimeJump c /\
     (config_getStopTime (config c) < _controller_getMinTimeJump c ->
        endTime c' < executeWindowEnd c')) /\
  (config_getWorkers (config c) <= 0 -> executeWindowEnd c' = G_MAXUINT64).
Proof.
  pose proof (getMinTimeJump_pos c) as Hpos.
  unfold _controller_initializeTimeWindows. cbv zeta.
  cbn [config set_endTime].
  destruct (Z.ltb_spec 0 (config_getWorkers (config c))) as [Hw | Hw].
  - assert (HJ : _controller_getMinTimeJump
                   (set_executeWindowStart 0
                      (set_endTime (config_getStopTime (config c)) c))
                 = _controller_getMinTimeJump c) by reflexivity.
    cbn. rewrite HJ. repeat split; try lia.
  - cbn. repeat split; try lia.
Qed.

Lemma initializeTimeWindows_window_witness :
  let c' := _controller_initializeTimeWindows
              (freshController (sampleConfig 0 (ms 4) 2 [])) in
  executeWindowEnd c' = ms 10 /\ endTime c' < executeWindowEnd c'.
Proof.
  pose proof (initializeTimeWindows_window
                (freshController (sampleConfig 0 (ms 4) 2 []))) as H.
  cbv zeta in *.
  destruct H as (_ & _ & _ & _ & _ & _ & Hw & _).
  destruct Hw as (He & Hlt); [reflexivity|].
  split; [rewrite He; reflexivity | apply Hlt; reflexivity].
Defined.

(** ** Phases of a run *)

(** X6. When the graph cannot be loaded, [controller_run] logs the loading
    message and one error and returns 1 at once: no manager is created, no
    word is drawn from the random source, the time windows and the DNS stay
    as they were; the address assignment has been allocated all the same. *)
Theorem run_graph_load_failure (ext : External) (c : Controller) :
  networkgraph_load ext (config c) = None ->
  exists c',
    controller_run ext c
      = ([(LOGLEVEL_INFO, MsgLoading); (LOGLEVEL_ERROR, MsgGraphLoadFailed)],
         Returns (1, c')) /\
    graph c' = None /\
    ipAssignment c' = Some (ipassignment_new (address_pool ext (config c)) ∅) /\
    manager c' = manager c /\ random c' = random c /\ dns c' = dns c /\
    endTime c' = endTime c /\
    executeWindowStart c' = executeWindowStart c /\
    executeWindowEnd c' = executeWindowEnd c.
Proof.
  intros Hload. eexists. split.
  - unfold controller_run, _controller_loadNetworkGraph. cbv zeta.
    cbn [graph set_ipAssignment set_graph]. rewrite Hload. reflexivity.
  - repeat split.
Qed.

Lemma run_graph_load_failure_witness :
  exists c',
    returns (controller_run
               {| networkgraph_load := λ _, None;
                  address_pool := address_pool sampleExternal;
                  random_nextUInt := random_nextUInt sampleExternal;
                  manager_new := manager_new sampleExternal;
                  routinginfo_new := routinginfo_new sampleExternal;
                  manager_run := manager_run sampleExternal;
                  manager_free := manager_free sampleExternal |}
               (freshController (sampleConfig 0 (ms 1000) 1 []))) (1, c') /\
    manager c' = None.
Proof.
  match goal with
  | |- exists c', returns (controller_run ?ext ?c) _ /\ _ =>
      destruct (run_graph_load_failure ext c eq_refl)
        as (c' & Hrun & _ & _ & Hmgr & _)
  end.
  exists c'. split; [unfold returns; rewrite Hrun; reflexivity | exact Hmgr].
Defined.

Lemma registrationState_ready (ext : External) (c : Controller) (g : NetworkGraph)
    (rnd : Random) (mgr : Manager) :
  registrationReady (registrationState ext c g rnd mgr) /\
  config (registrationState ext c g rnd mgr) = config c /\
  graph (registrationState ext c g rnd mgr) = Some g.
Proof.
  unfold registrationState.
  match goal with
  | |- context [_controller_initializeTimeWindows ?c1] =>
      destruct (initializeTimeWindows_handles c1) as (Hcfg & _ & Hg & Hipa & _);
      set (c2 := _controller_initializeTimeWindows c1) in *
  end.
  repeat split.
  - eexists. reflexivity.
  - change (is_Some (ipAssignment c2)). rewrite Hipa. eexists. reflexivity.
  - change (is_Some (graph c2)). rewrite Hg. eexists. reflexivity.
  - change (config c2 = config c). rewrite Hcfg. reflexivity.
  - change (graph c2 = Some g). rewrite Hg. reflexivity.
Qed.

Lemma initializeTimeWindows_times (c : Controller) :
  endTime (_controller_initializeTimeWindows c) = config_getStopTime (config c) /\
  bootstrapEndTime (_controller_initializeTimeWindows c)
    = config_getBootstrapEndTime (config c).
Proof.
  unfold _controller_initializeTimeWindows. cbv zeta. cbn [config set_endTime].
  destruct (0 <? config_getWorkers (config c)); split; reflexivity.
Qed.

(** Host registration from a ready state returns 0 or -1 and extends the
    state. *)
Lemma registerHosts_extends (c : Controller) :
  registrationReady c ->
  exists rv c',
    returns (_controller_registerHosts c) (rv, c') /\
    (rv = 0 \/ rv = -1) /\ extends (λ _, True) c c'.
Proof.
  intros Hready.
  destruct (registerPass_extends (λ _, True) (λ _, True) (λ _ _ _ _, I) true
              (config c) (config_hosts (config c)) (λ _ _ _ _ _ _ _ _ _, I) c I Hready)
    as (rv1 & c1 & Hret1 & Hext1).
  unfold _controller_registerHosts, config_iterHosts.
  destruct (Z.eqb_spec rv1 0) as [-> | Hnz].
  - destruct (registerPass_extends (λ _, True) (λ _, True) (λ _ _ _ _, I) false
                (config c1) (config_hosts (config c1)) (λ _ _ _ _ _ _ _ _ _, I) c1 I
                (extends_ready _ _ _ Hext1))
      as (rv2 & c2 & Hret2 & Hext2).
    exists (if rv2 =? 0 then 0 else -1), c2. split; [|split].
    + apply returns_bind. exists (0, c1). split; [exact Hret1|]. cbn.
      apply returns_bind. exists (rv2, c2). split; [exact Hret2|]. cbn.
      destruct (rv2 =? 0); reflexivity.
    + destruct (rv2 =? 0); auto.
    + eapply extends_trans; eauto.
  - exists (-1), c1. split; [|split; [auto | exact Hext1]].
    apply returns_bind. exists (rv1, c1). split; [exact Hret1|]. cbn.
    destruct (Z.eqb_spec rv1 0); [contradiction | reflexivity].
Qed.

(** Steps of [controller_run] from its entry to the call of
    [_controller_registerHosts], which is left as the goal. *)
Ltac run_to_registration Hload Hrnd Hnew :=
  unfold controller_run;
  apply returns_emit;
  unfold _controller_loadNetworkGraph; cbv zeta;
  cbn [graph set_ipAssignment set_graph]; rewrite Hload;
  match goal with
  | |- context [set_dns (Some dns_new) ?x] =>
      let c1 := constr:(set_dns (Some dns_new) x) in
      let Hcfg := fresh "Hcfg" in
      let Hrand := fresh "Hrand" in
      let Hend := fresh "Hend" in
      let Hboot := fresh "Hboot" in
      destruct (initializeTimeWindows_handles c1) as (Hcfg & Hrand & _ & _ & _);
      destruct (initializeTimeWindows_times c1) as (Hend & Hboot);
      cbv zeta in Hcfg, Hrand;
      apply returns_bind; exists (true, c1); split; [reflexivity|];
      cbn [negb];
      apply (returns_deref _ _ _ _ (eq_trans Hrand Hrnd));
      unfold registrationState in *;
      destruct (random_nextUInt _ _) as [? ?];
      cbn [fst snd config endTime bootstrapEndTime set_random] in *;
      rewrite Hcfg, Hend, Hboot;
      cbn [config set_dns set_ipAssignment set_graph];
      rewrite Hnew;
      apply returns_bind; exists tt; split; [reflexivity|];
      apply returns_emit
  end.

(** X7. Once the graph is loaded and the manager created, a run that fails
    returns 1 and gives nothing back: if host registration returns non-zero,
    or if it returns 0 and the routing information cannot be built,
    [controller_run] returns 1 with the graph still held and the manager
    neither run nor freed. *)
Theorem run_failure_after_load (ext : External) (c : Controller) (g : NetworkGraph)
    (rnd : Random) (mgr : Manager) (rv : Z) (cr : Controller) :
  networkgraph_load ext (config c) = Some g ->
  random c = Some rnd ->
  manager_new ext (config c) (config_getStopTime (config c))
    (config_getBootstrapEndTime (config c)) (fst (random_nextUInt ext rnd)) = Some mgr ->
  returns (_controller_registerHosts (registrationState ext c g rnd mgr)) (rv, cr) ->
  is_Some (graph cr) /\ is_Some (manager cr) /\
  (rv <> 0 -> returns (controller_run ext c) (1, cr)) /\
  (rv = 0 ->
   forall g' ipa, graph cr = Some g' -> ipAssignment cr = Some ipa ->
   routinginfo_new ext g' ipa (config_getUseShortestPath (config cr)) = None ->
   returns (controller_run ext c) (1, set_routingInfo None cr)).
Proof.
  intros Hload Hrnd Hnew Hreg.
  destruct (registrationState_ready ext c g rnd mgr) as (Hready & _ & _).
  destruct (registerHosts_extends _ Hready) as (rv' & cr' & Hreg' & _ & Hext).
  pose proof (returns_inj _ _ _ Hreg Hreg') as Heq. injection Heq as <- <-.
  destruct (extends_ready _ _ _ Hext) as (Hm & _ & Hg).
  split; [exact Hg|]. split; [exact Hm|]. split.
  - intros Hnz. run_to_registration Hload Hrnd Hnew.
    apply returns_bind. exists (rv, cr). split; [exact Hreg|]. cbn.
    destruct (Z.eqb_spec rv 0); [contradiction | reflexivity].
  - intros -> g' ipa Hg' Hipa Hroute. run_to_registration Hload Hrnd Hnew.
    apply returns_bind. exists (0, cr). split; [exact Hreg|]. cbn.
    rewrite Hg', bind_deref_Some, Hipa, bind_deref_Some.
    cbn [routingInfo set_routingInfo]. rewrite Hroute. reflexivity.
Qed.

Lemma run_failure_after_load_witness :
  let host := sampleHost 1 None None in
  let c := freshController (sampleConfig 0 (ms 1000) 1 [("client"%string, host)]) in
  let ext :=
    {| networkgraph_load := λ _, Some (sampleGraph None);
       address_pool := address_pool sampleExternal;
       random_nextUInt := random_nextUInt sampleExternal;
       manager_new := manager_new sampleExternal;
       routinginfo_new := routinginfo_new sampleExternal;
       manager_run := manager_run sampleExternal;
       manager_free := manager_free sampleExternal |} in
  exists cr, returns (controller_run ext c) (1, cr) /\ is_Some (graph cr).
Proof.
  cbv zeta.
  match goal with
  | |- exists cr, returns (controller_run ?ext ?c) _ /\ _ =>
      let r := eval vm_compute in
        (resultOf (_controller_registerHosts
                     (registrationState ext c (sampleGraph None) (random_new 1)
                        sampleManager))) in
      match r with
      | Returns (?rv, ?cr) =>
          destruct (run_failure_after_load ext c (sampleGraph None) (random_new 1)
                      sampleManager rv cr eq_refl eq_refl eq_refl
                      ltac:(vm_compute; reflexivity)) as (Hg & _ & Hfail & _);
          exists cr; split; [apply Hfail; discriminate | exact Hg]
      end
  end.
Defined.

(** X8. When host registration returns 0 and the routing information is
    built, [controller_run] releases the graph before it runs the manager:
    the manager runs on a controller that holds the routing information and
    no graph, and the run returns what [manager_free] returns. *)
Theorem run_completes (ext : External) (c : Controller) (g : NetworkGraph)
    (rnd : Random) (mgr : Manager) (cr : Controller) (g' : NetworkGraph)
    (ipa : IpAssignment) (ri : RoutingInfo) (cend : Controller) (mend : Manager) :
  networkgraph_load ext (config c) = Some g ->
  random c = Some rnd ->
  manager_new ext (config c) (config_getStopTime (config c))
    (config_getBootstrapEndTime (config c)) (fst (random_nextUInt ext rnd)) = Some mgr ->
  returns (_controller_registerHosts (registrationState ext c g rnd mgr)) (0, cr) ->
  graph cr = Some g' ->
  ipAssignment cr = Some ipa ->
  routinginfo_new ext g' ipa (config_getUseShortestPath (config cr)) = Some ri ->
  let crun := set_graph None (set_routingInfo (Some ri) cr) in
  returns (manager_run ext crun) cend ->
  manager cend = Some mend ->
  graph crun = None /\ routingInfo crun = Some ri /\
  registeredHosts crun = registeredHosts cr /\
  returns (controller_run ext c) (manager_free ext mend, cend).
Proof.
  intros Hload Hrnd Hnew Hreg Hg' Hipa Hroute crun Hrun Hmend.
  split; [reflexivity|]. split; [reflexivity|]. split; [reflexivity|].
  run_to_registration Hload Hrnd Hnew.
  apply returns_bind. exists (0, cr). split; [exact Hreg|]. cbn.
  rewrite Hg', bind_deref_Some, Hipa, bind_deref_Some.
  cbn [routingInfo set_routingInfo]. rewrite Hroute.
  apply returns_emit.
  apply returns_bind. exists tt. split.
  { destruct (bool_decide _); reflexivity. }
  apply returns_bind. exists cend. split; [exact Hrun|].
  apply returns_bind. exists tt. split.
  { destruct (bool_decide _); reflexivity. }
  apply returns_emit.
  apply (returns_deref _ mend); [exact Hmend | reflexivity].
Qed.

(** Scenario S1 run on the code: one host on node 0, no process. *)
Lemma run_completes_witness :
  let host := sampleHost 1 None None in
  let c := freshController (sampleConfig 0 (ms 1000) 0 [("client"%string, host)]) in
  exists cend,
    returns (controller_run sampleExternal c) (0, cend) /\
    graph cend = None /\
    map (λ p, (hostname p, ipAddr p)) (registeredHosts cend)
      = [("client"%string, 184549377)].
Proof.
  cbv zeta.
  match goal with
  | |- exists cend, returns (controller_run ?ext ?c) _ /\ _ =>
      let g := constr:(sampleGraph (Some 1000000)) in
      let r := eval vm_compute in
        (resultOf (_controller_registerHosts
                     (registrationState ext c g (random_new 1) sampleManager))) in
      match r with
      | Returns (_, ?cr) =>
          let og := eval vm_compute in (graph cr) in
          let oipa := eval vm_compute in (ipAssignment cr) in
          match constr:((og, oipa)) with
          | (Some ?g', Some ?ipa) =>
              let ri := constr:({| routinginfo_useShortestPath := true |}) in
              let cend := eval vm_compute in
                (set_graph None (set_routingInfo (Some ri) cr)) in
              let omend := eval vm_compute in (manager cend) in
              match omend with
              | Some ?mend =>
                  destruct (run_completes ext c g (random_new 1) sampleManager cr g' ipa
                              ri cend mend eq_refl eq_refl eq_refl
                              ltac:(vm_compute; reflexivity)
                              ltac:(vm_compute; reflexivity)
                              ltac:(vm_compute; reflexivity)
                              ltac:(vm_compute; reflexivity)
                              ltac:(vm_compute; reflexivity)
                              ltac:(vm_compute; reflexivity)) as (_ & _ & _ & Hrun);
                  exists cend; split; [exact Hrun|];
                  split; vm_compute; reflexivity
              end
          end
      end
  end.
Defined.

(** * Further properties of host registration *)

(** ** Processes *)

(** X9. [_controller_registerProcessCallback] either cannot resolve the
    program, and then logs one error and returns -1 with nothing changed, or
    returns 0 in silence after handing the manager exactly [quantity]
    instantiations of the process for the given host, each with the
    resolved path as [argv[0]] followed by the configured arguments; hosts,
    addresses and graph are not touched. A quantity of 0 adds nothing. *)
Theorem registerProcessCallback_effect (hostname : string) (proc : ProcessOptions)
    (c : Controller) (mgr : Manager) :
  manager c = Some mgr ->
  (processoptions_getPath proc = None ->
     _controller_registerProcessCallback hostname proc c
       = ([(LOGLEVEL_ERROR,
            MsgProgramPathNotFound hostname (processoptions_getRawPath proc))],
          Returns (-1, c))) /\
  (forall plugin, processoptions_getPath proc = Some plugin ->
     exists c' mgr',
       _controller_registerProcessCallback hostname proc c = ([], Returns (0, c')) /\
       manager c' = Some mgr' /\
       manager_processes mgr'
         = manager_processes mgr ++
           replicate (Z.to_nat (processoptions_getQuantity proc))
             {| vp_hostname := hostname; vp_plugin := plugin;
                vp_startTime := processoptions_getStartTime proc;
                vp_stopTime := processoptions_getStopTime proc;
                vp_argv := plugin :: processoptions_getArgs proc;
                vp_environment := processoptions_getEnvironment proc |} /\
       manager_hosts mgr' = manager_hosts mgr /\
       ipAssignment c' = ipAssignment c /\ graph c' = graph c).
Proof.
  intros Hmgr. unfold _controller_registerProcessCallback. split.
  - intros ->. reflexivity.
  - intros plugin ->.
    match goal with
    | |- context [addVirtualProcesses ?n ?p c] =>
        destruct (addVirtualProcesses_returns n p c mgr Hmgr) as (c' & Hadd)
    end.
    pose proof (addVirtualProcesses_result _ _ _ _ _ Hadd)
      as (_ & _ & Hipa & Hg & _ & _ & Hprocs).
    destruct (Hprocs mgr Hmgr) as (mgr' & Hm' & Hp' & Hh' & _).
    exists c', mgr'. rewrite Hadd. repeat split; auto.
Qed.

Lemma registerProcessCallback_effect_witness :
  let proc :=
    {| processoptions_getPath := Some "/bin/server"%string;
       processoptions_getRawPath := "server"%string;
       processoptions_getArgs := ["--port"%string; "80"%string];
       processoptions_getEnvironment := ""%string;
       processoptions_getStartTime := ms 1;
       processoptions_getStopTime := 0;
       processoptions_getQuantity := 2 |} in
  let c := registrationController [] None [] in
  exists c' mgr',
    returns (_controller_registerProcessCallback "relay" proc c) (0, c') /\
    manager c' = Some mgr' /\
    map vp_argv (manager_processes mgr')
      = [["/bin/server"; "--port"; "80"]; ["/bin/server"; "--port"; "80"]]%string.
Proof.
  cbv zeta.
  match goal with
  | |- exists c' mgr', returns (_controller_registerProcessCallback ?h ?proc ?c) _ /\ _ =>
      destruct (proj2 (registerProcessCallback_effect h proc c sampleManager eq_refl)
                  "/bin/server"%string eq_refl)
        as (c' & mgr' & Hrun & Hm & Hp & _)
  end.
  exists c', mgr'. split; [unfold returns; rewrite Hrun; reflexivity|].
  split; [exact Hm|]. rewrite Hp. reflexivity.
Defined.

(** X10. When the registration callback returns 0 it has logged nothing. For
    an entry of the other pass it has changed nothing. For an entry of its
    own pass it has registered exactly [quantity] hosts, in order: they are
    named after the entry ([name] alone for one instance, [name1], [name2],
    ... otherwise), carry the manager's CPU frequency, threshold 0,
    precision 200 and non-zero bandwidths, and have the entry's address
    when it fixes one. *)
Theorem registerHostCallback_registers (flag : bool) (name : string)
    (cfg : ConfigOptions) (host : HostOptions) (c c' : Controller) (l : list LogRecord) :
  _controller_registerHostCallback flag name cfg host c = (l, Returns (0, c')) ->
  l = [] /\
  (~ inPass flag host -> c' = c) /\
  (inPass flag host ->
   exists mgr added,
     manager c = Some mgr /\
     registeredHosts c' = registeredHosts c ++ added /\
     length added = Z.to_nat (hostoptions_getQuantity host) /\
     map hostname added = instanceHostnames name (hostoptions_getQuantity host) /\
     Forall (λ p, cpuFrequency p = Z.max 0 (manager_getRawCPUFrequency mgr) /\
                  cpuThreshold p = 0 /\ cpuPrecision p = 200 /\
                  requestedBwDownBits p <> 0 /\ requestedBwUpBits p <> 0 /\
                  (forall X, hostoptions_getIpAddr host = Some X -> ipAddr p = X))
            added).
Proof.
  intros H.
  apply registerHostCallback_result in H
    as (Hrep & _ & mgr & Hmgr & Hskip & Hpass).
  split; [destruct Hrep as [(_ & ->) | (? & _)]; [reflexivity | discriminate]|].
  split; [intros Hn; apply (Hskip Hn)|].
  intros Hin. destruct (Hpass Hin eq_refl) as (_ & added & Hadded & Hall).
  apply instances_hostnames in Hall as (Hlen & Hnames & Hall).
  exists mgr, added. rewrite length_seq in Hlen. auto.
Qed.

Lemma registerHostCallback_registers_witness :
  let host := sampleHost 3 None None in
  let c := registrationController [("B"%string, host)] (Some 1000000)
             [184549377; 184549378; 184549379] in
  exists c',
    returns (_controller_registerHostCallback false "B" (config c) host c) (0, c') /\
    map hostname (registeredHosts c') = ["B1"; "B2"; "B3"]%string.
Proof.
  cbv zeta.
  match goal with
  | |- exists c', returns (_controller_registerHostCallback ?flag ?name ?cfg ?host ?c) _
                  /\ _ =>
      let r := eval vm_compute in (_controller_registerHostCallback flag name cfg host c) in
      match r with
      | (?l, Returns (_, ?c')) =>
          destruct (registerHostCallback_registers flag name cfg host c c' l
                      ltac:(vm_compute; reflexivity)) as (_ & _ & Hpass);
          destruct (Hpass eq_refl) as (mgr & added & _ & Hhosts & _ & Hnames & _);
          exists c'; split; [vm_compute; reflexivity|];
          rewrite Hhosts, map_app, Hnames; vm_compute; reflexivity
      end
  end.
Defined.

(** X11. When [_controller_registerHosts] returns 0, the hosts it has
    registered are, in this order, the instances of the entries with a fixed
    address and then the instances of the other entries, each group in
    declaration order and each entry with [quantity] instances named
    after it. *)
Theorem registerHosts_order (c c' : Controller) (l : list LogRecord) :
  _controller_registerHosts c = (l, Returns (0, c')) ->
  exists fixed auto,
    registeredHosts c' = registeredHosts c ++ fixed ++ auto /\
    map hostname fixed = passHostnames true (config_hosts (config c)) /\
    map hostname auto = passHostnames false (config_hosts (config c)).
Proof.
  unfold _controller_registerHosts, config_iterHosts. intros H.
  apply bind_returns_inv in H as (l1 & [rv1 c1] & l2 & Hpass1 & Hrest & ->).
  cbn in Hrest. destruct (Z.eqb_spec rv1 0) as [-> | Hnz];
    [|discriminate].
  apply bind_returns_inv in Hrest as (l3 & [rv2 c2] & l4 & Hpass2 & Hret & ->).
  cbn in Hret. destruct (Z.eqb_spec rv2 0) as [-> | Hnz];
    [|discriminate].
  injection Hret as _ <-.
  assert (Hcfg : config c1 = config c).
  { apply (iterEntries_result (λ a b, hostsKept a b /\ config b = config a)) in Hpass1
      as (_ & _ & Hcfg); [exact Hcfg | apply hostsKept_refl | apply hostsKept_trans |].
    intros e a le rve b He. apply registerHostCallback_result in He as (? & ? & _). auto. }
  rewrite Hcfg in Hpass2.
  apply registerPass_hostnames in Hpass1 as (fixed & Hfixed & Hn1).
  apply registerPass_hostnames in Hpass2 as (auto & Hauto & Hn2).
  exists fixed, auto. split; [|auto].
  rewrite Hauto, Hfixed, app_assoc. reflexivity.
Qed.

Lemma registerHosts_order_witness :
  let hosts := [("B"%string, sampleHost 2 None None);
                ("A"%string, sampleHost 1 (Some 167772165) None);
                ("C"%string, sampleHost 1 None None)] in
  let c := registrationController hosts (Some 1000000)
             [184549377; 184549378; 184549379] in
  exists c',
    returns (_controller_registerHosts c) (0, c') /\
    map hostname (registeredHosts c') = ["A"; "B1"; "B2"; "C"]%string.
Proof.
  cbv zeta.
  match goal with
  | |- exists c', returns (_controller_registerHosts ?c) _ /\ _ =>
      let r := eval vm_compute in (_controller_registerHosts c) in
      match r with
      | (?l, Returns (_, ?c')) =>
          destruct (registerHosts_order c c' l ltac:(vm_compute; reflexivity))
            as (fixed & auto & Hhosts & Hn1 & Hn2);
          exists c'; split; [vm_compute; reflexivity|];
          rewrite Hhosts, !map_app, Hn1, Hn2; vm_compute; reflexivity
      end
  end.
Defined.



(** X13. From a state in which the manager, the address assignment and the
    graph exist, [_controller_registerHosts] never aborts and never undoes
    anything: it returns 0 or -1, and whichever it returns, the hosts
    registered before are still registered, in the same order and followed
    by the new ones, every bound address is still bound, and the
    configuration and the three handles are still there. A failure thus
    leaves the hosts registered before it in place. *)
Theorem registerHosts_keeps (c : Controller) :
  registrationReady c ->
  exists l rv c',
    _controller_registerHosts c = (l, Returns (rv, c')) /\
    (rv = 0 \/ rv = -1) /\
    registrationReady c' /\ config c' = config c /\
    hostsKept c c' /\
    (forall ip, addressAssigned ip c -> addressAssigned ip c').
Proof.
  intros Hready.
  destruct (registerHosts_extends c Hready)
    as (rv & c' & Hret & Hrv & Hr' & Hcfg & Hbound & added & Hadded & _).
  destruct (_controller_registerHosts c) as [l t] eqn:Hrun.
  unfold returns in Hret. cbn in Hret. subst t.
  exists l, rv, c'. repeat split; try apply Hr'; auto.
  exists added. exact Hadded.
Qed.

Lemma registerHosts_keeps_witness :
  let hosts := [("A"%string, sampleHost 1 (Some 167772165) None);
                ("B"%string, sampleHost 2 None None)] in
  let c := registrationController hosts (Some 1000000) [184549377] in
  exists l rv c',
    _controller_registerHosts c = (l, Returns (rv, c')) /\ hostsKept c c'.
Proof.
  cbv zeta.
  match goal with
  | |- exists l rv c', _controller_registerHosts ?c = _ /\ _ =>
      destruct (registerHosts_keeps c) as (l & rv & c' & Hrun & _ & _ & _ & Hk & _);
      [repeat split; eexists; reflexivity|];
      exists l, rv, c'; split; [exact Hrun | exact Hk]
  end.
Defined.
